(** * Web3Event: the block-chain transaction reconciler

    A shallow embedding of [Web3Event] (the class that watches an
    Ethereum node, detects native and ERC20 transfers touching known
    wallets and mirrors them in the transaction repository), followed by
    the properties established about it.

    Conventions of the embedding:
    - a JavaScript value that may be [null] or [undefined] is an [option];
      [None] stands for both;
    - JavaScript strings are [string]; [s.slice(a, b)] is [slice a b s];
    - block numbers and timestamps are [Z];
    - the asynchronous methods are computations in the monad [M], a state
      monad over [State] (the repository contents, the scan cursor and
      the log of receipt requests sent to the node) with exceptions; a
      synchronous call that may throw returns a [result];
    - the node, the user repository, the web3 helper packages and the
      ERC20 ABI descriptors are not part of the class: they are
      parameters of the embedding. *)

From Stdlib Require Import ZArith NArith String Ascii List Lia Bool.
From Stdlib Require Import DecimalString HexadecimalString.
From stdpp Require Import base option list gmap strings.

Local Open Scope Z_scope.
Local Open Scope string_scope.

(** ** JavaScript values *)

(** Truthiness of a string-or-undefined value: [undefined], [null] and
    the empty string are falsy. *)
Definition truthy (v : option string) : bool :=
  match v with
  | Some s => negb (bool_decide (s = ""))
  | None => false
  end.

(** [s.slice(a, b)] for [0 <= a <= b]. *)
Definition slice (a b : nat) (s : string) : string :=
  String.substring a (b - a) s.

(** [s.slice(a)]. *)
Definition slice_from (a : nat) (s : string) : string :=
  String.substring a (String.length s - a) s.

(** What a call ends with: the value it returns, or an exception. *)
Inductive result (A : Type) :=
| Ok (a : A)
| Throw.
Arguments Ok {A} a.
Arguments Throw {A}.

(** ** Entities *)

Inductive TransactionStatus :=
| TRANSACTION_STATUS_PENDING
| TRANSACTION_STATUS_CONFIRMED
| TRANSACTION_STATUS_FAILED.

Inductive TransactionType :=
| ETHEREUM_TRANSFER
| ERC20_TRANSFER.

Global Instance TransactionStatus_eq_dec : EqDecision TransactionStatus.
Proof. solve_decision. Defined.

Global Instance TransactionType_eq_dec : EqDecision TransactionType.
Proof. solve_decision. Defined.

(** The persisted entity. Every field but the hash and the details is
    unset on a record fresh from [createTransaction]. *)
Record Transaction := mkTransaction {
  transactionHash : string;
  details : string;
  tx_type : option TransactionType;
  tx_contractAddress : option string;
  tx_from : option string;
  tx_to : option string;
  tx_amount : option string;
  tx_status : option TransactionStatus;
  tx_timestamp : option Z;
  tx_blockNumber : option Z
}.

Global Instance Transaction_eq_dec : EqDecision Transaction.
Proof. solve_decision. Defined.

(** Field assignments [tx.f = v]. *)
Definition set_type (v : option TransactionType) (tx : Transaction) : Transaction :=
  mkTransaction (transactionHash tx) (details tx) v (tx_contractAddress tx)
    (tx_from tx) (tx_to tx) (tx_amount tx) (tx_status tx) (tx_timestamp tx)
    (tx_blockNumber tx).

Definition set_contractAddress (v : option string) (tx : Transaction) : Transaction :=
  mkTransaction (transactionHash tx) (details tx) (tx_type tx) v
    (tx_from tx) (tx_to tx) (tx_amount tx) (tx_status tx) (tx_timestamp tx)
    (tx_blockNumber tx).

Definition set_from (v : option string) (tx : Transaction) : Transaction :=
  mkTransaction (transactionHash tx) (details tx) (tx_type tx) (tx_contractAddress tx)
    v (tx_to tx) (tx_amount tx) (tx_status tx) (tx_timestamp tx)
    (tx_blockNumber tx).

Definition set_to (v : option string) (tx : Transaction) : Transaction :=
  mkTransaction (transactionHash tx) (details tx) (tx_type tx) (tx_contractAddress tx)
    (tx_from tx) v (tx_amount tx) (tx_status tx) (tx_timestamp tx)
    (tx_blockNumber tx).

Definition set_amount (v : option string) (tx : Transaction) : Transaction :=
  mkTransaction (transactionHash tx) (details tx) (tx_type tx) (tx_contractAddress tx)
    (tx_from tx) (tx_to tx) v (tx_status tx) (tx_timestamp tx)
    (tx_blockNumber tx).

Definition set_status (v : option TransactionStatus) (tx : Transaction) : Transaction :=
  mkTransaction (transactionHash tx) (details tx) (tx_type tx) (tx_contractAddress tx)
    (tx_from tx) (tx_to tx) (tx_amount tx) v (tx_timestamp tx)
    (tx_blockNumber tx).

Definition set_timestamp (v : option Z) (tx : Transaction) : Transaction :=
  mkTransaction (transactionHash tx) (details tx) (tx_type tx) (tx_contractAddress tx)
    (tx_from tx) (tx_to tx) (tx_amount tx) (tx_status tx) v
    (tx_blockNumber tx).

Definition set_blockNumber (v : option Z) (tx : Transaction) : Transaction :=
  mkTransaction (transactionHash tx) (details tx) (tx_type tx) (tx_contractAddress tx)
    (tx_from tx) (tx_to tx) (tx_amount tx) (tx_status tx) (tx_timestamp tx)
    v.

(** Modelled from the spec: [Transaction.createTransaction] belongs to the
    entity module, which is outside the class; the data model says a record
    starts with its hash and diagnostic details, everything else is filled
    in by the reconciler. *)
Definition createTransaction (hash dets : string) : Transaction :=
  mkTransaction hash dets None None None None None None None None.

(** A wallet of a user; only its address matters here. *)
Record Wallet := mkWallet {
  address : string;
  ticker : string
}.

Record User := mkUser {
  email : string;
  wallets : list Wallet
}.

(** ** What the node returns *)

(** A transaction inside a block ([web3/types]). *)
Record EthTransaction := mkEthTransaction {
  t_hash : string;
  t_from : option string;
  t_to : option string;
  t_value : option string;
  t_input : string;
  t_gas : Z;
  t_gasPrice : string;
  t_blockNumber : Z
}.

(** [ExtEthTransaction = EthTransaction & { contractAddress }]. *)
Record ExtEthTransaction := mkExt {
  eth :> EthTransaction;
  contractAddress : option string
}.

Record Block := mkBlock {
  block_number : Z;
  block_timestamp : Z;
  block_transactions : list EthTransaction
}.

Record Log := mkLog {
  log_data : string;
  log_topics : list string
}.

Record Receipt := mkReceipt {
  receipt_status : string;
  receipt_logs : list Log
}.

(** The node as seen during one pass. *)
Record Web3Eth := mkWeb3Eth {
  getBlockNumber : Z;
  getBlock : Z -> option Block;
  getTransactionReceipt : string -> option Receipt
}.

(** ** External packages and configuration *)

Record AbiInput := mkAbiInput {
  abi_name : string;
  abi_type : string;
  abi_indexed : bool
}.

(** The object returned by [Web3Abi.decodeLog] for the Transfer event,
    restricted to the two properties the class reads. *)
Record DecodedLog := mkDecodedLog {
  _from : option string;
  _to : option string
}.

(** [web3-utils], [web3-eth-abi] and [JSON.stringify] for the details.
    [decodeLog] is given the inputs of the event, the data of the log and
    its topics; it returns the decoded object (or a falsy value, [None]),
    or throws on a log it cannot decode. *)
Record Web3Lib := mkWeb3Lib {
  fromWei : string -> string;
  fromWei_gwei : string -> string;
  decodeParameters : list AbiInput -> string -> list string;
  decodeLog : list AbiInput -> string -> list string -> result (option DecodedLog);
  stringifyDetails : Z -> string -> string
}.

(** The [erc20Abi] member built by the constructor. *)
Record Erc20Abi := mkErc20Abi {
  Transfer_event_inputs : list AbiInput;
  transfer_methodSignature : string;
  transfer_inputs : list AbiInput;
  transferFrom_methodSignature : string;
  transferFrom_inputs : list AbiInput
}.

Definition CONCURRENT_BLOCK_PROCESS_COUNT : nat := 3.
Definition CONCURRENT_TRANSACTIONS_PROCESS_COUNT : nat := 4.

(** ** getTxStatusByReceipt *)

Definition getTxStatusByReceipt (receipt : option Receipt) : TransactionStatus :=
  match receipt with
  | None => TRANSACTION_STATUS_PENDING
  | Some r =>
      if bool_decide (receipt_status r = "0x1") then TRANSACTION_STATUS_CONFIRMED
      else TRANSACTION_STATUS_FAILED
  end.

(** ** State and effects *)

(** The mutable state the class works on: the contents of the transaction
    repository (in insertion order), the private member
    [lastCheckingBlock], and the hashes for which a receipt was requested
    from the node, oldest first. *)
Record State := mkState {
  txRep : list Transaction;
  lastCheckingBlock : Z;
  receiptRequests : list string
}.

(** An asynchronous method: it runs from a state, ends in a state, and
    either resolves to a value or rejects. *)
Definition M (A : Type) : Type := State -> result A * State.

Global Instance M_ret : MRet M := fun A a s => (Ok a, s).

Global Instance M_bind : MBind M := fun A B f m s =>
  match m s with
  | (Ok a, s') => f a s'
  | (Throw, s') => (Throw, s')
  end.

Definition throw {A : Type} : M A := fun s => (Throw, s).

(** A synchronous computation inside an asynchronous method: its
    exception rejects the method. *)
Definition lift {A : Type} (r : result A) : M A := fun s => (r, s).

(** [try { await m } catch (err) { logger.error(err) }]. *)
Definition try_catch (m : M unit) : M unit := fun s =>
  match m s with
  | (Throw, s') => (Ok tt, s')
  | r => r
  end.

Definition get_lastCheckingBlock : M Z := fun s => (Ok (lastCheckingBlock s), s).

Definition set_lastCheckingBlock (n : Z) : M unit := fun s =>
  (Ok tt, mkState (txRep s) n (receiptRequests s)).

(** *** The transaction repository *)

(** Modelled from the spec: the repository implementation is outside the
    class; its contract is [findByHash(hash) -> Transaction|null]. *)
Fixpoint getByHash (hash : string) (db : list Transaction) : option Transaction :=
  match db with
  | [] => None
  | tx :: db' =>
      if bool_decide (transactionHash tx = hash) then Some tx
      else getByHash hash db'
  end.

(** Modelled from the spec: [save] writes the full record back in a single
    upsert keyed by [hash]: the stored record with that hash is replaced,
    and a record with a new hash is added. *)
Fixpoint save (tx : Transaction) (db : list Transaction) : list Transaction :=
  match db with
  | [] => [tx]
  | x :: db' =>
      if bool_decide (transactionHash x = transactionHash tx) then tx :: db'
      else x :: save tx db'
  end.

Definition txRep_getByHash (hash : string) : M (option Transaction) := fun s =>
  (Ok (getByHash hash (txRep s)), s).

Definition txRep_save (tx : Transaction) : M unit := fun s =>
  (Ok tt, mkState (save tx (txRep s)) (lastCheckingBlock s) (receiptRequests s)).

(** Of two records, the one that comes first when sorting by descending
    [blockNumber], a record without one ranking lowest. *)
Definition higherBlock (a b : Transaction) : Transaction :=
  match tx_blockNumber a, tx_blockNumber b with
  | Some x, Some y => if (x <? y)%Z then b else a
  | None, Some _ => b
  | _, _ => a
  end.

(** Modelled from the spec: the query of the stored transactions with
    [order: {blockNumber: -1}, take: 1] goes through the repository layer,
    which is outside the class ([findMaxBlockNumber() -> number|null] in
    the spec); it yields the stored record with the greatest
    [blockNumber], if any record is stored. *)
Fixpoint findMaxBlockNumber (db : list Transaction) : option Transaction :=
  match db with
  | [] => None
  | tx :: db' =>
      match findMaxBlockNumber db' with
      | None => Some tx
      | Some best => Some (higherBlock tx best)
      end
  end.

Definition txRep_findMaxBlockNumber : M (option Transaction) := fun s =>
  (Ok (findMaxBlockNumber (txRep s)), s).

(** *** The helpers that run work items *)

(** Modelled from the spec: [processAsyncItemsByChunks] is a helper outside
    the class. It runs the unit of work of every item, at most [chunkSize]
    at a time; a failing item does not stop the others. The embedding
    runs the items one after the other in submission order. *)
Fixpoint processAsyncItemsByChunks {T : Type} (items : list T) (chunkSize : nat)
    (mapFunc : T -> M unit) : M unit :=
  match items with
  | [] => mret tt
  | item :: rest =>
      _ ← try_catch (mapFunc item);
      processAsyncItemsByChunks rest chunkSize mapFunc
  end.

(** Modelled from the spec: [processAsyncIntRangeByChunks from to step
    chunkSize] does the same for the integers [from], [from + step], ...
    of the inclusive range [from .. to]. *)
Definition processAsyncIntRangeByChunks (from to step : Z) (chunkSize : nat)
    (mapFunc : Z -> M unit) : M unit :=
  processAsyncItemsByChunks
    (map (fun k => from + k * step) (seqZ 0 ((to - from) `div` step + 1)))
    chunkSize mapFunc.

(** ** The class *)

Section Web3Event.

Context (lib : Web3Lib) (erc20Abi : Erc20Abi).
(** [config.web3.startBlock]. *)
Context (startBlock : Z).
(** The node. *)
Context (web3 : Web3Eth).
(** [userRep.getAllByWalletAddresses]. *)
Context (getAllByWalletAddresses : list string -> list User).

Abbreviation WalletsMap := (gmap string (list Wallet)).

(** [walletsMap[k]]: a key that is [null] or [undefined] finds nothing,
    wallet addresses being hexadecimal strings. *)
Definition walletsMap_get (walletsMap : WalletsMap) (k : option string)
    : option (list Wallet) :=
  k ≫= (fun a => walletsMap !! a).

Definition web3_getTransactionReceipt (hash : string) : M (option Receipt) :=
  fun s =>
    (Ok (getTransactionReceipt web3 hash),
     mkState (txRep s) (lastCheckingBlock s) (receiptRequests s ++ [hash])%list).

(** *** getWalletMapInTransactions *)

(** The keys of [txMaps]: the truthy [from] and [to] of the
    transactions, all [from] first. *)
Definition txMaps (transactions : list ExtEthTransaction) : list string :=
  omap (fun a => if truthy a then a else None)
    (map (fun t => t_from (eth t)) transactions
     ++ map (fun t => t_to (eth t)) transactions)%list.

(** [Object.keys(txMaps)]: each key once, in order of first insertion. *)
Fixpoint distinct (l seen : list string) : list string :=
  match l with
  | [] => []
  | a :: l' =>
      if bool_decide (a ∈ seen) then distinct l' seen
      else a :: distinct l' (a :: seen)
  end.

Definition pushWallet (walletIds : WalletsMap) (w : Wallet) : WalletsMap :=
  <[address w := (default [] (walletIds !! address w) ++ [w])%list]> walletIds.

(** The object [walletIds] the method returns: the wallets of the users
    found, restricted to the addresses of [txMaps] and grouped by
    address. *)
Definition walletIds (transactions : list ExtEthTransaction) : WalletsMap :=
  let keys := txMaps transactions in
  let users := getAllByWalletAddresses (distinct keys []) in
  let allWallets := concat (map wallets users) in
  foldl pushWallet ∅ (filter (fun w => address w ∈ keys) allWallets).

Definition getWalletMapInTransactions (transactions : list ExtEthTransaction)
    : M WalletsMap :=
  mret (walletIds transactions).

(** *** filterTransactionByWalletAddresses *)

Definition involvesWallet (walletsMap : WalletsMap) (t : ExtEthTransaction) : Prop :=
  is_Some (walletsMap_get walletsMap (t_from (eth t)))
  ∨ is_Some (walletsMap_get walletsMap (t_to (eth t))).

Global Instance involvesWallet_dec walletsMap t : Decision (involvesWallet walletsMap t).
Proof. unfold involvesWallet. apply _. Defined.

Definition filterTransactionByWalletAddresses (walletsMap : WalletsMap)
    (transactions : list ExtEthTransaction) : list ExtEthTransaction :=
  filter (involvesWallet walletsMap) transactions.

(** *** The call-data rewriting at the start of processTransactionsInBlock *)

(** The callback of [blockData.transactions.map]: a call whose input has
    the length of an encoded [transfer] and starts with its signature has
    [to] and [value] replaced by the decoded arguments; the second branch
    tests the [transfer] signature again, on the length of an encoded
    [transferFrom]. *)
Definition extendTransaction (t : EthTransaction) : ExtEthTransaction :=
  if bool_decide (String.length (t_input t) = 2 + 8 + 64 + 64)%nat
     && bool_decide (slice 2 10 (t_input t) = transfer_methodSignature erc20Abi)
  then
    let methodArgs :=
      decodeParameters lib (transfer_inputs erc20Abi) (slice_from 10 (t_input t)) in
    mkExt (mkEthTransaction (t_hash t) (t_from t) (methodArgs !! 0%nat)
             (methodArgs !! 1%nat) (t_input t) (t_gas t) (t_gasPrice t)
             (t_blockNumber t))
          (t_to t)
  else if bool_decide (String.length (t_input t) = 2 + 8 + 64 + 64 + 64)%nat
     && bool_decide (slice 2 10 (t_input t) = transfer_methodSignature erc20Abi)
  then
    let methodArgs :=
      decodeParameters lib (transferFrom_inputs erc20Abi) (slice_from 10 (t_input t)) in
    mkExt (mkEthTransaction (t_hash t) (methodArgs !! 0%nat) (methodArgs !! 1%nat)
             (methodArgs !! 2%nat) (t_input t) (t_gas t) (t_gasPrice t)
             (t_blockNumber t))
          (t_to t)
  else mkExt t None.

(** *** processNotRegisteredEthereumTransaction *)

Definition processNotRegisteredEthereumTransaction (tx : Transaction)
    (ethTx : ExtEthTransaction) : Transaction :=
  let tx := set_type (Some ETHEREUM_TRANSFER) tx in
  let tx := set_contractAddress None tx in
  let tx := set_from (t_from ethTx) tx in
  let tx := set_to (t_to ethTx) tx in
  set_amount (fromWei lib <$> t_value ethTx) tx.

(** *** processNotRegisteredContractTransaction *)

(** The record after the call and the boolean returned. Both tests are
    against the [transfer] signature. *)
Definition processNotRegisteredContractTransaction (tx : Transaction)
    (ethTx : ExtEthTransaction) : Transaction * bool :=
  let methodSignature := slice 2 10 (t_input ethTx) in
  let assigned :=
    if bool_decide (methodSignature = transfer_methodSignature erc20Abi) then
      Some (set_amount (t_value ethTx) (set_to (t_to ethTx) (set_from (t_from ethTx) tx)))
    else if bool_decide (methodSignature = transfer_methodSignature erc20Abi) then
      Some (set_amount (t_value ethTx) (set_to (t_to ethTx) (set_from (t_from ethTx) tx)))
    else None in
  match assigned with
  | None => (tx, false)
  | Some tx =>
      (set_contractAddress (contractAddress ethTx) (set_type (Some ERC20_TRANSFER) tx),
       true)
  end.

(** *** processTransaction *)

(** The branch [if (!tx) { ... }]: the record built for a hash not yet
    in the repository, or [None] where the method returns because the
    contract action is unknown. *)
Definition registerTransaction (ethTx : ExtEthTransaction) : option Transaction :=
  let tx :=
    createTransaction (t_hash ethTx)
      (stringifyDetails lib (t_gas ethTx) (fromWei_gwei lib (t_gasPrice ethTx))) in
  if truthy (t_value ethTx) && bool_decide (t_input ethTx = "0x") then
    Some (processNotRegisteredEthereumTransaction tx ethTx)
  else
    match processNotRegisteredContractTransaction tx ethTx with
    | (tx, true) => Some tx
    | (_, false) => None
    end.

(** One call of the callback of [transactionReceipt.logs.forEach], from
    the status [tx.status] has when it is called to the status it leaves;
    the exception of [decodeLog] is the exception of the callback. *)
Definition checkLog (status : TransactionStatus) (log : Log) : result TransactionStatus :=
  match decodeLog lib (Transfer_event_inputs erc20Abi) (log_data log) (log_topics log) with
  | Throw => Throw
  | Ok (Some decodedLogs) =>
      if truthy (_from decodedLogs) && truthy (_to decodedLogs)
      then Ok TRANSACTION_STATUS_CONFIRMED
      else Ok status
  | Ok None => Ok status
  end.

(** [logs.forEach(callback)]: the callback is called on the logs in
    order; the first exception ends the loop and is thrown on. *)
Fixpoint forEachLog (status : TransactionStatus) (logs : list Log)
    : result TransactionStatus :=
  match logs with
  | [] => Ok status
  | log :: rest =>
      match checkLog status log with
      | Ok status' => forEachLog status' rest
      | Throw => Throw
      end
  end.

(** The block guarded by [// check erc20 Transfer event]; nothing in it
    catches the exception of the loop. *)
Definition checkTransferEvent (receipt : Receipt) (tx : Transaction) : result Transaction :=
  if bool_decide (tx_status tx ≠ Some TRANSACTION_STATUS_FAILED)
     && bool_decide (tx_type tx = Some ERC20_TRANSFER)
  then
    let tx := set_status (Some TRANSACTION_STATUS_FAILED) tx in
    if bool_decide (length (receipt_logs receipt) = 0%nat) then Ok tx
    else
      match forEachLog TRANSACTION_STATUS_FAILED (receipt_logs receipt) with
      | Ok status => Ok (set_status (Some status) tx)
      | Throw => Throw
      end
  else Ok tx.

Definition processTransaction (ethTx : ExtEthTransaction) (blockData : option Block)
    (walletsMap : WalletsMap) : M unit :=
  found ← txRep_getByHash (t_hash ethTx);
  let selected :=
    match found with
    | None => registerTransaction ethTx
    | Some tx =>
        if bool_decide (tx_status tx ≠ Some TRANSACTION_STATUS_PENDING) then None
        else Some tx
    end in
  match selected with
  | None => mret tt
  | Some tx =>
      transactionReceipt ← web3_getTransactionReceipt (t_hash ethTx);
      match transactionReceipt with
      | None => mret tt
      | Some receipt =>
          let blockData :=
            match blockData with
            | Some b => Some b
            | None => getBlock web3 (t_blockNumber ethTx)
            end in
          let tx := set_status (Some (getTxStatusByReceipt (Some receipt))) tx in
          tx ← lift (checkTransferEvent receipt tx);
          match blockData with
          | None => throw
          | Some b =>
              let tx := set_timestamp (Some (block_timestamp b)) tx in
              let tx := set_blockNumber (Some (block_number b)) tx in
              txRep_save tx
          end
      end
  end.

(** *** processTransactionsInBlock *)

Definition processTransactionsInBlock (blockData : option Block) : M unit :=
  match blockData with
  | None => mret tt
  | Some b =>
      if bool_decide (length (block_transactions b) = 0%nat) then mret tt
      else
        let sourceTransactions := map extendTransaction (block_transactions b) in
        wallets ← getWalletMapInTransactions sourceTransactions;
        if bool_decide (size wallets = 0%nat) then mret tt
        else
          let transactions :=
            filterTransactionByWalletAddresses wallets sourceTransactions in
          processAsyncItemsByChunks transactions CONCURRENT_TRANSACTIONS_PROCESS_COUNT
            (fun transaction => processTransaction transaction (Some b) wallets)
  end.

(** *** checkTransactions *)

Definition checkTransactions : M bool :=
  last ← get_lastCheckingBlock;
  (if bool_decide (last = 0) then
     txWithMaxBlockHeight ← txRep_findMaxBlockNumber;
     set_lastCheckingBlock
       (Z.max (default 0 (txWithMaxBlockHeight ≫= tx_blockNumber) - 4) startBlock)
   else mret tt);;
  let currentBlock := getBlockNumber web3 in
  last ← get_lastCheckingBlock;
  (if bool_decide (last = 0) then set_lastCheckingBlock (currentBlock - 4)
   else mret tt);;
  last ← get_lastCheckingBlock;
  processAsyncIntRangeByChunks last currentBlock 1 CONCURRENT_BLOCK_PROCESS_COUNT
    (fun i =>
       match getBlock web3 i with
       | None => mret tt
       | Some blockData => try_catch (processTransactionsInBlock (Some blockData))
       end);;
  set_lastCheckingBlock (currentBlock - 10);;
  mret true.

End Web3Event.

(** *** processNewBlockHeaders *)

(** The header a [newBlockHeaders] subscription delivers; a pending block
    has no number. *)
Record BlockHeader := mkBlockHeader {
  header_number : option Z;
  header_hash : string
}.

(** [getBlockByHash] is [web3.eth.getBlock] called with the hash of a
    block. The method does not await the processing it starts: it
    resolves while the processing goes on. The embedding runs the
    processing to its end. *)
Definition processNewBlockHeaders (lib : Web3Lib) (erc20Abi : Erc20Abi)
    (web3 : Web3Eth) (getAllByWalletAddresses : list string -> list User)
    (getBlockByHash : string -> option Block) (data : BlockHeader) : M unit :=
  match header_number data with
  | None => mret tt
  | Some n =>
      if bool_decide (n = 0) then mret tt
      else
        processTransactionsInBlock lib erc20Abi web3 getAllByWalletAddresses
          (getBlockByHash (header_hash data))
  end.

(** ** Vocabulary of the properties *)

(** The amount of wei a [value] denotes, when it is a decimal numeral. *)
Definition weiAmount (v : option string) : option N :=
  s ← v; N.of_uint <$> DecimalString.NilZero.uint_of_string s.

Definition nonZeroValue (v : option string) : Prop :=
  exists n, weiAmount v = Some n /\ (0 < n)%N.

Definition terminal (tx : Transaction) : Prop :=
  tx_status tx = Some TRANSACTION_STATUS_CONFIRMED
  \/ tx_status tx = Some TRANSACTION_STATUS_FAILED.

(** The records stored under a hash. *)
Definition recordsOf (hash : string) (db : list Transaction) : list Transaction :=
  filter (fun tx => transactionHash tx = hash) db.

(** [tx] is the record [processTransaction] goes on to reconcile for
    [ethTx] from the repository contents [db]: the stored record when it
    is pending, the newly built one when the hash is not stored and the
    transaction is not of an unknown kind. *)
Definition underReconciliation (lib : Web3Lib) (erc20Abi : Erc20Abi)
    (db : list Transaction) (ethTx : ExtEthTransaction) (tx : Transaction) : Prop :=
  match getByHash (t_hash ethTx) db with
  | Some stored => stored = tx /\ tx_status stored = Some TRANSACTION_STATUS_PENDING
  | None => registerTransaction lib erc20Abi ethTx = Some tx
  end.

(** The log entry decodes as a Transfer event with non-empty [_from] and
    [_to]. *)
Definition decodesAsTransfer (lib : Web3Lib) (erc20Abi : Erc20Abi) (log : Log) : Prop :=
  exists decodedLogs,
    decodeLog lib (Transfer_event_inputs erc20Abi) (log_data log) (log_topics log)
    = Ok (Some decodedLogs)
    /\ truthy (_from decodedLogs) = true /\ truthy (_to decodedLogs) = true.

(** [decodeLog] throws on the log entry. *)
Definition decoderRejects (lib : Web3Lib) (erc20Abi : Erc20Abi) (log : Log) : Prop :=
  decodeLog lib (Transfer_event_inputs erc20Abi) (log_data log) (log_topics log)
  = Throw.

(** [tx] with the block [b] written on it. *)
Definition inBlock (b : Block) (tx : Transaction) : Transaction :=
  set_blockNumber (Some (block_number b))
    (set_timestamp (Some (block_timestamp b)) tx).

(** What [processTransaction] makes of [tx] between the receipt
    [receipt], found in block [b], and the call of [save]: the record it
    goes on to save, or the exception that ends it. *)
Definition reconciled (lib : Web3Lib) (erc20Abi : Erc20Abi) (receipt : Receipt)
    (b : Block) (tx : Transaction) : result Transaction :=
  match
    checkTransferEvent lib erc20Abi receipt
      (set_status (Some (getTxStatusByReceipt (Some receipt))) tx)
  with
  | Ok tx' => Ok (inBlock b tx')
  | Throw => Throw
  end.

(** The state a computation ends in, and what it resolves to. *)
Definition finalState {A : Type} (m : M A) (s : State) : State := snd (m s).
Definition outcome {A : Type} (m : M A) (s : State) : result A := fst (m s).

(** The block a sweep starts from, given the head it observes: the
    cursor when it is set; otherwise four blocks before the highest
    stored block, but not before [startBlock]; and four blocks before
    the head when that is block 0. *)
Definition sweepStart (startBlock head : Z) (s : State) : Z :=
  if bool_decide (lastCheckingBlock s = 0) then
    let resumed :=
      Z.max (default 0 (findMaxBlockNumber (txRep s) ≫= tx_blockNumber) - 4)
        startBlock in
    if bool_decide (resumed = 0) then head - 4 else resumed
  else lastCheckingBlock s.

(** The callback [checkTransactions] hands to
    [processAsyncIntRangeByChunks] for the block number [i]. *)
Definition processBlockNumber (lib : Web3Lib) (erc20Abi : Erc20Abi) (web3 : Web3Eth)
    (getAllByWalletAddresses : list string -> list User) (i : Z) : M unit :=
  match getBlock web3 i with
  | None => mret tt
  | Some blockData =>
      try_catch
        (processTransactionsInBlock lib erc20Abi web3 getAllByWalletAddresses
           (Some blockData))
  end.


(** The check of the Transfer event throws for the record [tx] and the
    receipt the node has for [hash]. *)
Definition checkThrows (lib : Web3Lib) (erc20Abi : Erc20Abi) (web3 : Web3Eth)
    (hash : string) (tx : Transaction) : Prop :=
  exists receipt,
    getTransactionReceipt web3 hash = Some receipt
    /\ checkTransferEvent lib erc20Abi receipt
         (set_status (Some (getTxStatusByReceipt (Some receipt))) tx) = Throw.

(** [processTransaction] has nothing left to do for [ethTx] on the
    repository contents [db]: its record is stored and not pending, or it
    is of an unknown kind, or the node has no receipt for it, or the check
    of the Transfer event throws for it. *)
Definition settled (lib : Web3Lib) (erc20Abi : Erc20Abi) (web3 : Web3Eth)
    (db : list Transaction) (ethTx : ExtEthTransaction) : Prop :=
  match getByHash (t_hash ethTx) db with
  | Some stored =>
      tx_status stored <> Some TRANSACTION_STATUS_PENDING
      \/ getTransactionReceipt web3 (t_hash ethTx) = None
      \/ checkThrows lib erc20Abi web3 (t_hash ethTx) stored
  | None =>
      registerTransaction lib erc20Abi ethTx = None
      \/ getTransactionReceipt web3 (t_hash ethTx) = None
      \/ (exists tx, registerTransaction lib erc20Abi ethTx = Some tx
                     /\ checkThrows lib erc20Abi web3 (t_hash ethTx) tx)
  end.

(** ** A concrete instantiation

    The parameters of the class, instantiated so that the methods can be
    run: the standard ERC20 ABI, a decoder for its fixed-width encoding, a
    user repository over a fixed list of users, and a few nodes. *)

Module Sample.

Definition decimal (n : N) : string :=
  DecimalString.NilZero.string_of_uint (N.to_uint n).

Definition parseDecimal (s : string) : N :=
  match DecimalString.NilZero.uint_of_string s with
  | Some u => N.of_uint u
  | None => 0%N
  end.

Definition parseHex (s : string) : N :=
  match HexadecimalString.NilZero.uint_of_string s with
  | Some u => N.of_hex_uint u
  | None => 0%N
  end.

Fixpoint zeros (k : nat) : string :=
  match k with
  | O => ""
  | S k' => "0" ++ zeros k'
  end.

Fixpoint dropZeros (l : list ascii) : list ascii :=
  match l with
  | "0"%char :: l' => dropZeros l'
  | _ => l
  end.

Definition trimFraction (s : string) : string :=
  match dropZeros (rev (list_ascii_of_string s)) with
  | [] => "0"
  | l => string_of_list_ascii (rev l)
  end.

(** [Web3Utils.fromWei] of the web3-utils package, for a unit of
    [decimals] decimals and an amount given as a decimal numeral: the
    quotient by the unit, followed by a dot and the remainder, padded to
    [decimals] digits and without its trailing zeros, when the remainder
    is not zero. One ether in wei is printed as 1, one and a half as 1.5. *)
Definition fromUnit (decimals : nat) (v : string) : string :=
  let n := parseDecimal v in
  let base := (10 ^ N.of_nat decimals)%N in
  let fraction := decimal (n mod base) in
  let fraction := trimFraction (zeros (decimals - String.length fraction) ++ fraction) in
  let whole := decimal (n / base) in
  if bool_decide (fraction = "0") then whole else whole ++ "." ++ fraction.

(** One 32-byte word of an ABI encoding, 64 hexadecimal digits: an
    address is its last 20 bytes, an integer is printed in decimal. *)
Definition decodeWord (i : AbiInput) (word : string) : string :=
  if bool_decide (abi_type i = "address") then "0x" ++ String.substring 24 40 word
  else decimal (parseHex word).

Fixpoint decodeWords (inputs : list AbiInput) (data : string) : list string :=
  match inputs with
  | [] => []
  | i :: rest =>
      decodeWord i (String.substring 0 64 data)
      :: decodeWords rest (String.substring 64 (String.length data - 64) data)
  end.

(** [Web3Abi.decodeLog] of the web3-eth-abi package on the inputs of the
    Transfer event, as the class calls it: it reads the indexed inputs
    from the topics it is handed, the first from the first topic. The
    class hands it all the topics of the log, the signature of the event
    first, so [_from] is read from the signature and [_to] from the topic
    after it; a log with fewer than two topics makes it throw. Addresses
    are left in the case they have in the topic. *)
Definition decodeTransferLog (inputs : list AbiInput) (data : string)
    (topics : list string) : result (option DecodedLog) :=
  let addr := fun topic : string => "0x" ++ String.substring 26 40 topic in
  match topics with
  | first :: second :: _ =>
      Ok (Some (mkDecodedLog (Some (addr first)) (Some (addr second))))
  | _ => Throw
  end.

(** The packages: ether has 18 decimals and gwei 9; the details are
    printed as text rather than in JSON notation. *)
Definition lib : Web3Lib :=
  mkWeb3Lib (fromUnit 18) (fromUnit 9) decodeWords decodeTransferLog
    (fun gas gasPrice => "gas=" ++ decimal (Z.to_N gas) ++ ";gasPrice=" ++ gasPrice).

(** Signatures: the first four bytes of the Keccak-256 hash of
    [transfer(address,uint256)] and of
    [transferFrom(address,uint256,uint256)], the strings the constructor
    passes to [encodeFunctionSignature]. *)
Definition erc20Abi : Erc20Abi :=
  mkErc20Abi
    [mkAbiInput "_from" "address" true; mkAbiInput "_to" "address" true;
     mkAbiInput "_value" "uint256" false]
    "a9059cbb"
    [mkAbiInput "_to" "address" false; mkAbiInput "_value" "uint256" false]
    "77dbbd76"
    [mkAbiInput "_from" "address" false; mkAbiInput "_to" "address" false;
     mkAbiInput "_value" "uint256" false].

Definition W1 : string := "0x1111111111111111111111111111111111111111".
Definition W2 : string := "0x2222222222222222222222222222222222222222".
Definition W3 : string := "0x3333333333333333333333333333333333333333".
Definition token : string := "0x4444444444444444444444444444444444444444".

Definition word (hexDigits : string) : string :=
  zeros (64 - String.length hexDigits) ++ hexDigits.

(** The only monitored wallet is [W2]. *)
Definition users : list User :=
  [mkUser "owner@example.com" [mkWallet W2 "ETH"]].

Definition getAllByWalletAddresses (addresses : list string) : list User :=
  filter (fun u => Exists (fun w => address w ∈ addresses) (wallets u)) users.

(** The scenario of the spec: one ether from [W1] to the monitored [W2]
    in block 100. *)
Definition txA : EthTransaction :=
  mkEthTransaction "0xA" (Some W1) (Some W2) (Some "1000000000000000000") "0x"
    21000 "1000000000" 100.

(** [transfer(W2, 5)] sent by [W1] to the token contract. *)
Definition txTransfer : EthTransaction :=
  mkEthTransaction "0xB" (Some W1) (Some token) (Some "0")
    ("0xa9059cbb" ++ word "2222222222222222222222222222222222222222" ++ word "5")
    60000 "1000000000" 100.

(** A call with the signature of [transferFrom] and three argument words:
    from [W1] to [W2], amount 5, sent by [W2] to the token contract. *)
Definition txTransferFrom : EthTransaction :=
  mkEthTransaction "0xC" (Some W2) (Some token) (Some "0")
    ("0x77dbbd76" ++ word "1111111111111111111111111111111111111111"
     ++ word "2222222222222222222222222222222222222222" ++ word "5")
    60000 "1000000000" 100.

(** The signature of [transfer] and nothing after it, sent by [W2]. *)
Definition txShort : EthTransaction :=
  mkEthTransaction "0xD" (Some W2) (Some token) (Some "0") "0xa9059cbb"
    60000 "1000000000" 100.

Definition transferLog : Log :=
  mkLog (word "5")
    ["0xddf252ad1be2c89b69c2b068fc378daa952ba7f163c4a11628f55a4df523b3ef";
     "0x" ++ word "1111111111111111111111111111111111111111";
     "0x" ++ word "2222222222222222222222222222222222222222"].

(** A log with a single topic, as an event without indexed arguments
    leaves. *)
Definition plainLog : Log :=
  mkLog (word "5")
    ["0x6985a02210a168e66602d3235cb6db0e70f92b3ba4d376a33c0f3d9434bff625"].

Definition block100 (transactions : list EthTransaction) : Block :=
  mkBlock 100 1530000000 transactions.

(** A node whose head is [head], whose only non-empty block is block 100
    and which answers receipt requests with [receipts]. *)
Definition node (head : Z) (transactions : list EthTransaction)
    (receipts : string -> option Receipt) : Web3Eth :=
  mkWeb3Eth head
    (fun i => if bool_decide (i = 100) then Some (block100 transactions) else None)
    receipts.

Definition noReceipt : string -> option Receipt := fun _ => None.

Definition successReceipt (logs : list Log) : string -> option Receipt :=
  fun _ => Some (mkReceipt "0x1" logs).

Definition emptyState : State := mkState [] 0 [].

(** One ether between two addresses that belong to no user. *)
Definition txE : EthTransaction :=
  mkEthTransaction "0xE" (Some W1) (Some W3) (Some "1000000000000000000") "0x"
    21000 "1000000000" 100.

(** A record of [txA] as the sending side of the application leaves it:
    pending, without block. *)
Definition pendingA : Transaction :=
  mkTransaction "0xA" "sent" (Some ETHEREUM_TRANSFER) None (Some W1) (Some W2)
    (Some "1") (Some TRANSACTION_STATUS_PENDING) None None.

(** The same record once confirmed in block 100. *)
Definition confirmedA : Transaction :=
  mkTransaction "0xA" "sent" (Some ETHEREUM_TRANSFER) None (Some W1) (Some W2)
    (Some "1") (Some TRANSACTION_STATUS_CONFIRMED) (Some 1530000000) (Some 100).

(** A call with the signature of [transfer] followed by three argument
    words, sent by [W3] to the token contract: the words are [W2], [W1]
    and 5. *)
Definition txThreeWords : EthTransaction :=
  mkEthTransaction "0xF" (Some W3) (Some token) (Some "0")
    ("0xa9059cbb" ++ word "2222222222222222222222222222222222222222"
     ++ word "1111111111111111111111111111111111111111" ++ word "5")
    60000 "1000000000" 100.

(** A call of another method of a contract, carrying one ether, sent by
    the monitored [W2]. *)
Definition txOtherCall : EthTransaction :=
  mkEthTransaction "0x10" (Some W2) (Some token) (Some "1000000000000000000")
    "0x095ea7b3" 60000 "1000000000" 100.

(** The transfer [txA] as a transaction that says it is in block 7, a
    block the sample nodes do not have. *)
Definition txOrphan : EthTransaction :=
  mkEthTransaction "0xA" (Some W1) (Some W2) (Some "1000000000000000000") "0x"
    21000 "1000000000" 7.

(** The state after block 100, made of [transactions], is processed from
    the state [s] on a node that answers with [receipts]. *)
Definition run_block (transactions : list EthTransaction)
    (receipts : string -> option Receipt) (s : State) : State :=
  finalState
    (processTransactionsInBlock lib erc20Abi (node 100 transactions receipts)
       getAllByWalletAddresses (Some (block100 transactions))) s.

(** The state after one sweep from [s] on a node whose head is [head]. *)
Definition run_sweep (head : Z) (transactions : list EthTransaction)
    (receipts : string -> option Receipt) (s : State) : State :=
  finalState
    (checkTransactions lib erc20Abi 0 (node head transactions receipts)
       getAllByWalletAddresses) s.


End Sample.

(** * The user applications

    Two more classes of the application, embedded on their own: the part
    of [UserAccountApplication] that switches the authenticator
    verification on and off, and [UserCommonApplication.getUserInfo]. *)

(** ** UserAccountApplication: the authenticator switch *)

Module UserAccount.

(** The members of [VerifyMethod] and of [Verifications] that the class
    names; the enumerations themselves are declared outside it. *)
Inductive VerifyMethod :=
| EMAIL
| AUTHENTICATOR
| INLINE.

Inductive Verifications :=
| USER_SIGNUP
| USER_SIGNIN
| USER_CHANGE_VERIFICATIONS
| USER_ENABLE_GOOGLE_AUTH
| USER_DISABLE_GOOGLE_AUTH.

Global Instance VerifyMethod_eq_dec : EqDecision VerifyMethod.
Proof. solve_decision. Defined.

Global Instance Verifications_eq_dec : EqDecision Verifications.
Proof. solve_decision. Defined.

(** What the methods read and write of the user entity. *)
Record User := mkUser {
  email : string;
  defaultVerificationMethod : VerifyMethod
}.

(** The user object the methods are handed, and the users
    [userRepository.save] has stored, oldest first. *)
Record Account := mkAccount {
  user : User;
  saved : list User
}.

(** How a method rejects: with the [AuthenticatorError] the class throws,
    with whatever the verification service threw, or with whatever the
    user repository threw. *)
Inductive Rejection :=
| AuthenticatorError (message : string)
| ServiceError
| RepositoryError.

Inductive settlement (A : Type) :=
| Resolved (a : A)
| Rejected (r : Rejection).
Arguments Resolved {A} a.
Arguments Rejected {A} r.

Definition Call (A : Type) : Type := Account -> settlement A * Account.

Section Methods.

(** [verifyAction.initiate] for a scope and a consumer: the initiated
    verification, or nothing when it rejects. *)
Context (initiate : Verifications -> string -> option string).
(** [verifyAction.verify] for a scope, the verification sent by the
    client and the [removeSecret] option: whether it resolves. *)
Context (verify : Verifications -> string -> bool -> bool).
(** [userRepository.save] for a user: whether it resolves, the user then
    being stored, or rejects, nothing then being stored. *)
Context (save : User -> bool).

Definition initiateGoogleAuthVerification (scope : Verifications) : Call string :=
  fun a =>
    match initiate scope (email (user a)) with
    | Some verifyInitiated => (Resolved verifyInitiated, a)
    | None => (Rejected ServiceError, a)
    end.

(** The method is assigned to the user object before [save] is awaited:
    when [save] rejects, the user object keeps the assignment. *)
Definition verifyAndToggleGoogleAuth (scope : Verifications) (verification : string)
    : Call bool :=
  fun a =>
    if verify scope verification (bool_decide (scope = USER_DISABLE_GOOGLE_AUTH)) then
      let user' :=
        mkUser (email (user a))
          (if bool_decide (scope = USER_DISABLE_GOOGLE_AUTH) then EMAIL
           else AUTHENTICATOR) in
      if save user' then
        (Resolved (bool_decide (scope = USER_ENABLE_GOOGLE_AUTH)),
         mkAccount user' (saved a ++ [user'])%list)
      else (Rejected RepositoryError, mkAccount user' (saved a))
    else (Rejected ServiceError, a).

Definition initiateEnableGoogleAuth : Call string :=
  fun a =>
    if bool_decide (defaultVerificationMethod (user a) = AUTHENTICATOR) then
      (Rejected (AuthenticatorError "GoogleAuth is enabled already."), a)
    else initiateGoogleAuthVerification USER_ENABLE_GOOGLE_AUTH a.

Definition verifyEnableGoogleAuth (verification : string) : Call bool :=
  fun a =>
    if bool_decide (defaultVerificationMethod (user a) = AUTHENTICATOR) then
      (Rejected (AuthenticatorError "GoogleAuth is enabled already."), a)
    else verifyAndToggleGoogleAuth USER_ENABLE_GOOGLE_AUTH verification a.

Definition initiateDisableGoogleAuth : Call string :=
  fun a =>
    if bool_decide (defaultVerificationMethod (user a) <> AUTHENTICATOR) then
      (Rejected (AuthenticatorError "GoogleAuth is disabled already."), a)
    else initiateGoogleAuthVerification USER_DISABLE_GOOGLE_AUTH a.

Definition verifyDisableGoogleAuth (verification : string) : Call bool :=
  fun a =>
    if bool_decide (defaultVerificationMethod (user a) <> AUTHENTICATOR) then
      (Rejected (AuthenticatorError "GoogleAuth is disabled already."), a)
    else verifyAndToggleGoogleAuth USER_DISABLE_GOOGLE_AUTH verification a.

End Methods.

(** The user object and the repository agree: the user saved last is the
    user as it stands. *)
Definition inSync (a : Account) : Prop := last (saved a) = Some (user a).

(** What a verifying call that assigns the method [m] has done, having
    ended with [r] from the account [a]. Resolving, it has assigned [m] to
    the user and saved that user. Rejecting with the error of the
    repository, it has assigned [m] to the user and saved nothing, and
    [m] is not the method the user had. Rejecting otherwise, it has done
    nothing. *)
Definition switches {A : Type} (m : VerifyMethod) (a : Account)
    (r : settlement A * Account) : Prop :=
  match fst r with
  | Resolved _ =>
      snd r = mkAccount (mkUser (email (user a)) m)
                (saved a ++ [mkUser (email (user a)) m])%list
  | Rejected RepositoryError =>
      snd r = mkAccount (mkUser (email (user a)) m) (saved a)
      /\ defaultVerificationMethod (user a) <> m
  | Rejected _ => snd r = a
  end.

End UserAccount.

(** ** UserCommonApplication.getUserInfo *)

Module UserCommon.

Record Token := mkToken {
  contractAddress : string;
  symbol : string;
  name : string;
  decimals : Z;
  balance : option string
}.

Record Wallet := mkWallet {
  ticker : string;
  address : string;
  tokens : list Token
}.

(** The two maps of switches of the preferences of a user, each possibly
    absent. *)
Record Preferences := mkPreferences {
  notifications : option (gmap string bool);
  verifications : option (gmap string bool)
}.

Record User := mkUser {
  email : string;
  user_name : string;
  wallets : list Wallet;
  preferences : option Preferences;
  defaultVerificationMethod : option string
}.

(** [l.filter((x, i) => f(x, i))], the index counted from [i]. *)
Fixpoint filter_from {A : Type} (f : A -> nat -> bool) (i : nat) (l : list A) : list A :=
  match l with
  | [] => []
  | x :: l' =>
      if f x i then x :: filter_from f (S i) l' else filter_from f (S i) l'
  end.

(** [l.reduce((p, c) => (p[c] = true, p), {})]. *)
Definition allTrue (l : list string) : gmap string bool :=
  foldl (fun p c => <[c := true]> p) ∅ l.

Section GetUserInfo.

(** [Number(t.balance)] and the test [> 0] on its result. *)
Context {Num : Type} (Number : option string -> Num) (positive : Num -> bool).
(** [getAllNotifications()] and [getAllAllowedVerifications()]. *)
Context (getAllNotifications getAllAllowedVerifications : list string).

Record Balance := mkBalance {
  token : string;
  value : Num
}.

Record WalletInfo := mkWalletInfo {
  info_ticker : string;
  info_address : string;
  info_tokens : list Token;
  balances : list Balance;
  assetsCount : nat
}.

Record UserInfo := mkUserInfo {
  info_wallets : list WalletInfo;
  info_preferences : Preferences;
  info_email : string;
  info_name : string;
  info_defaultVerificationMethod : option string
}.

Definition hasBalance (t : Token) : bool := positive (Number (balance t)).

(** The object built for one wallet by the callback of
    [user.wallets.map]. *)
Definition walletInfo (w : Wallet) : WalletInfo :=
  mkWalletInfo (ticker w) (address w)
    (map (fun t => mkToken (contractAddress t) (symbol t) (name t) (decimals t) None)
       (tokens w))
    (map (fun t => mkBalance (symbol t) (Number (balance t)))
       (filter_from (fun _ i => (i <? 5)%nat) 0 (List.filter hasBalance (tokens w))))
    (length (List.filter hasBalance (tokens w))).

(** The two assignments to [preferences]. *)
Definition fillDefaults (p : Preferences) : Preferences :=
  let p :=
    if bool_decide (size (default ∅ (notifications p)) = 0%nat)
    then mkPreferences (Some (allTrue getAllNotifications)) (verifications p)
    else p in
  if bool_decide (size (default ∅ (verifications p)) = 0%nat)
  then mkPreferences (notifications p) (Some (allTrue getAllAllowedVerifications))
  else p.

(** The object returned, and the user object after the call: when the
    user has a preferences object, the assignments are made to it. *)
Definition getUserInfo (user : User) : UserInfo * User :=
  let preferences' :=
    fillDefaults (default (mkPreferences None None) (preferences user)) in
  (mkUserInfo (map walletInfo (wallets user)) preferences' (email user)
     (user_name user) (defaultVerificationMethod user),
   match preferences user with
   | Some _ =>
       mkUser (email user) (user_name user) (wallets user) (Some preferences')
         (defaultVerificationMethod user)
   | None => user
   end).

End GetUserInfo.

End UserCommon.

(** ** A concrete instantiation for the user applications *)

Module UserSample.

(** A verification service that accepts the code 123456 and nothing
    else, and initiates every verification. *)
Definition verify (scope : UserAccount.Verifications) (verification : string)
    (removeSecret : bool) : bool :=
  bool_decide (verification = "123456").

Definition initiate (scope : UserAccount.Verifications) (consumer : string)
    : option string :=
  Some ("verification for " ++ consumer).

(** A user repository that stores every user, and one that is down. *)
Definition save (u : UserAccount.User) : bool := true.
Definition saveFails (u : UserAccount.User) : bool := false.

(** A user whose method is INLINE, never saved yet. *)
Definition account : UserAccount.Account :=
  UserAccount.mkAccount (UserAccount.mkUser "owner@example.com" UserAccount.INLINE) [].

(** The same user as the repository holds it. *)
Definition storedAccount : UserAccount.Account :=
  UserAccount.mkAccount (UserAccount.mkUser "owner@example.com" UserAccount.INLINE)
    [UserAccount.mkUser "owner@example.com" UserAccount.INLINE].

(** Balances that are decimal numerals of natural numbers. *)
Definition Number (balance : option string) : N :=
  match balance with
  | Some s => Sample.parseDecimal s
  | None => 0%N
  end.

Definition positive (n : N) : bool := (0 <? n)%N.

Definition tokenOf (symbol balance : string) : UserCommon.Token :=
  UserCommon.mkToken ("0x" ++ symbol) symbol symbol 18 (Some balance).

(** A wallet with seven tokens, six of them with a positive balance. *)
Definition wallet : UserCommon.Wallet :=
  UserCommon.mkWallet "ETH" Sample.W2
    [tokenOf "AAA" "1"; tokenOf "BBB" "0"; tokenOf "CCC" "2"; tokenOf "DDD" "3";
     tokenOf "EEE" "4"; tokenOf "FFF" "5"; tokenOf "GGG" "6"].

(** A user with that wallet and a preferences object without
    notifications, with one verification switched off. *)
Definition user : UserCommon.User :=
  UserCommon.mkUser "owner@example.com" "Owner" [wallet]
    (Some (UserCommon.mkPreferences None (Some {[ "sign_in" := false ]})))
    None.

End UserSample.

(** * Properties *)

(** ** The repository *)

Lemma getByHash_hash hash db tx :
  getByHash hash db = Some tx -> transactionHash tx = hash.
Proof.
  induction db as [|x db IH]; simpl; [discriminate|].
  case_bool_decide; [intros [= <-]; assumption | exact IH].
Qed.

Lemma getByHash_save_eq tx db :
  getByHash (transactionHash tx) (save tx db) = Some tx.
Proof.
  induction db as [|x db IH]; simpl.
  - rewrite bool_decide_eq_true_2; reflexivity.
  - case_bool_decide as Hx; simpl.
    + rewrite bool_decide_eq_true_2; reflexivity.
    + rewrite bool_decide_eq_false_2; assumption.
Qed.

Lemma getByHash_save_ne hash tx db :
  transactionHash tx <> hash -> getByHash hash (save tx db) = getByHash hash db.
Proof.
  intros Hne. induction db as [|x db IH]; simpl.
  - rewrite bool_decide_eq_false_2; [reflexivity | assumption].
  - case_bool_decide as Hx; simpl.
    + rewrite !bool_decide_eq_false_2; [reflexivity | congruence | assumption].
    + rewrite IH. reflexivity.
Qed.

Lemma recordsOf_save_ne hash tx db :
  transactionHash tx <> hash -> recordsOf hash (save tx db) = recordsOf hash db.
Proof.
  intros Hne. unfold recordsOf. induction db as [|x db IH]; simpl.
  - rewrite filter_cons_False; [reflexivity | assumption].
  - case_bool_decide as Hx.
    + rewrite !filter_cons_False; [reflexivity | congruence | assumption].
    + rewrite !filter_cons, IH. reflexivity.
Qed.

Lemma save_hashes hash tx db :
  hash ∈ map transactionHash (save tx db) ->
  hash = transactionHash tx \/ hash ∈ map transactionHash db.
Proof.
  induction db as [|x db IH]; simpl.
  - intros Hin. apply list_elem_of_singleton in Hin. left. assumption.
  - case_bool_decide as Hx; simpl; intros Hin;
      apply elem_of_cons in Hin as [Hin|Hin].
    + left. assumption.
    + right. apply elem_of_cons. right. assumption.
    + right. apply elem_of_cons. left. assumption.
    + destruct (IH Hin) as [H|H]; [left; assumption|].
      right. apply elem_of_cons. right. assumption.
Qed.

(** Saving never stores a hash twice. *)
Lemma save_NoDup tx db :
  NoDup (map transactionHash db) -> NoDup (map transactionHash (save tx db)).
Proof.
  induction db as [|x db IH]; simpl; intros Hnd.
  - apply NoDup_singleton.
  - apply NoDup_cons in Hnd as [Hx Hnd]. case_bool_decide as Heq; simpl.
    + apply NoDup_cons. split; [congruence | assumption].
    + apply NoDup_cons. split; [| auto].
      intros Hin. apply save_hashes in Hin as [Hin|Hin]; [congruence | auto].
Qed.

Lemma Exists_cases {A : Type} (P : A -> Prop) (l : list A) :
  (forall x, P x \/ ~ P x) -> Exists P l \/ ~ Exists P l.
Proof.
  intros HP. induction l as [|x l IH].
  - right. intros H. inversion H.
  - destruct (HP x) as [Hx|Hx]; [left; apply Exists_cons_hd; assumption|].
    destruct IH as [Hl|Hl]; [left; apply Exists_cons_tl; assumption|].
    right. intros H. inversion H; auto.
Qed.

(** ** processTransaction, case by case *)

Section ProcessTransaction.

Context (lib : Web3Lib) (erc20Abi : Erc20Abi) (web3 : Web3Eth).

Lemma registerTransaction_hash (ethTx : ExtEthTransaction) tx :
  registerTransaction lib erc20Abi ethTx = Some tx ->
  transactionHash tx = t_hash ethTx.
Proof.
  unfold registerTransaction, processNotRegisteredContractTransaction.
  repeat case_match; intros; simplify_eq; reflexivity.
Qed.

Lemma underReconciliation_hash db (ethTx : ExtEthTransaction) tx :
  underReconciliation lib erc20Abi db ethTx tx ->
  transactionHash tx = t_hash ethTx.
Proof.
  unfold underReconciliation. destruct (getByHash _ db) eqn:Hget.
  - intros [<- _]. eapply getByHash_hash; eassumption.
  - apply registerTransaction_hash.
Qed.

Lemma reconciled_hash receipt b tx tx' :
  reconciled lib erc20Abi receipt b tx = Ok tx' ->
  transactionHash tx' = transactionHash tx.
Proof.
  unfold reconciled, checkTransferEvent. simpl.
  repeat case_match; intros; simplify_eq; reflexivity.
Qed.

(** The method returns at once, touching nothing, for a stored record
    that is not pending and for a new transaction of unknown kind. *)
Lemma processTransaction_skip (ethTx : ExtEthTransaction) blockData walletsMap s :
  match getByHash (t_hash ethTx) (txRep s) with
  | Some tx => tx_status tx <> Some TRANSACTION_STATUS_PENDING
  | None => registerTransaction lib erc20Abi ethTx = None
  end ->
  processTransaction lib erc20Abi web3 ethTx blockData walletsMap s = (Ok tt, s).
Proof.
  intros H. unfold processTransaction, mbind, M_bind, txRep_getByHash. simpl.
  destruct (getByHash _ _) as [tx|].
  - rewrite bool_decide_eq_true_2 by assumption. reflexivity.
  - rewrite H. reflexivity.
Qed.

(** Without a receipt the method only records the request. *)
Lemma processTransaction_no_receipt (ethTx : ExtEthTransaction) blockData walletsMap s tx :
  underReconciliation lib erc20Abi (txRep s) ethTx tx ->
  getTransactionReceipt web3 (t_hash ethTx) = None ->
  processTransaction lib erc20Abi web3 ethTx blockData walletsMap s
  = (Ok tt,
     mkState (txRep s) (lastCheckingBlock s) (receiptRequests s ++ [t_hash ethTx])).
Proof.
  intros Hsel Hrec.
  unfold processTransaction, mbind, M_bind, txRep_getByHash,
    web3_getTransactionReceipt, underReconciliation in *. simpl.
  destruct (getByHash _ _) as [stored|].
  - destruct Hsel as [-> Hst].
    rewrite bool_decide_eq_false_2 by (intros Hn; apply Hn; assumption).
    rewrite Hrec. reflexivity.
  - rewrite Hsel, Hrec. reflexivity.
Qed.

(** With a receipt, the method is the check of the Transfer event
    followed by the writing of the block and the call of [save]. *)
Lemma processTransaction_with_receipt (ethTx : ExtEthTransaction) blockData walletsMap
    s tx receipt :
  underReconciliation lib erc20Abi (txRep s) ethTx tx ->
  getTransactionReceipt web3 (t_hash ethTx) = Some receipt ->
  processTransaction lib erc20Abi web3 ethTx blockData walletsMap s
  = let s1 :=
      mkState (txRep s) (lastCheckingBlock s) (receiptRequests s ++ [t_hash ethTx]) in
    match
      checkTransferEvent lib erc20Abi receipt
        (set_status (Some (getTxStatusByReceipt (Some receipt))) tx)
    with
    | Throw => (Throw, s1)
    | Ok tx' =>
        match
          match blockData with
          | Some b => Some b
          | None => getBlock web3 (t_blockNumber ethTx)
          end
        with
        | None => (Throw, s1)
        | Some b =>
            (Ok tt,
             mkState (save (inBlock b tx') (txRep s)) (lastCheckingBlock s)
               (receiptRequests s ++ [t_hash ethTx]))
        end
    end.
Proof.
  intros Hsel Hrec.
  assert (Hrun : forall selected,
    (transactionReceipt ← web3_getTransactionReceipt web3 (t_hash ethTx);
     match transactionReceipt with
     | None => mret tt
     | Some receipt =>
         let blockData :=
           match blockData with
           | Some b => Some b
           | None => getBlock web3 (t_blockNumber ethTx)
           end in
         let tx := set_status (Some (getTxStatusByReceipt (Some receipt))) selected in
         tx ← lift (checkTransferEvent lib erc20Abi receipt tx);
         match blockData with
         | None => throw
         | Some b =>
             let tx := set_timestamp (Some (block_timestamp b)) tx in
             let tx := set_blockNumber (Some (block_number b)) tx in
             txRep_save tx
         end
     end) s
    = let s1 :=
        mkState (txRep s) (lastCheckingBlock s) (receiptRequests s ++ [t_hash ethTx]) in
      match
        checkTransferEvent lib erc20Abi receipt
          (set_status (Some (getTxStatusByReceipt (Some receipt))) selected)
      with
      | Throw => (Throw, s1)
      | Ok tx' =>
          match
            match blockData with
            | Some b => Some b
            | None => getBlock web3 (t_blockNumber ethTx)
            end
          with
          | None => (Throw, s1)
          | Some b =>
              (Ok tt,
               mkState (save (inBlock b tx') (txRep s)) (lastCheckingBlock s)
                 (receiptRequests s ++ [t_hash ethTx]))
          end
      end).
  { intros selected.
    unfold mbind, M_bind, web3_getTransactionReceipt, lift. rewrite Hrec. simpl.
    destruct (checkTransferEvent _ _ _ _) as [tx'|]; [|reflexivity].
    destruct blockData as [b|]; [reflexivity|].
    destruct (getBlock web3 _); reflexivity. }
  unfold processTransaction, underReconciliation in *.
  unfold mbind at 1, M_bind at 1, txRep_getByHash. 
  destruct (getByHash _ _) as [stored|].
  - destruct Hsel as [-> Hst].
    rewrite bool_decide_eq_false_2 by (intros Hn; apply Hn; assumption).
    apply Hrun.
  - rewrite Hsel. apply Hrun.
Qed.

(** With a receipt and the block at hand, the reconciled record is
    saved. *)
Lemma processTransaction_receipt (ethTx : ExtEthTransaction) b walletsMap s tx receipt
    tx' :
  underReconciliation lib erc20Abi (txRep s) ethTx tx ->
  getTransactionReceipt web3 (t_hash ethTx) = Some receipt ->
  reconciled lib erc20Abi receipt b tx = Ok tx' ->
  processTransaction lib erc20Abi web3 ethTx (Some b) walletsMap s
  = (Ok tt,
     mkState (save tx' (txRep s))
       (lastCheckingBlock s) (receiptRequests s ++ [t_hash ethTx])).
Proof.
  intros Hsel Hrec Hok.
  rewrite (processTransaction_with_receipt _ _ _ _ _ _ Hsel Hrec). cbv zeta.
  unfold reconciled in Hok.
  destruct (checkTransferEvent _ _ _ _) as [tx1|]; [|discriminate].
  injection Hok as <-. reflexivity.
Qed.

(** With a receipt for which the check of the Transfer event throws, the
    method rejects after the request, and nothing is saved. *)
Lemma processTransaction_rejects (ethTx : ExtEthTransaction) blockData walletsMap s tx :
  underReconciliation lib erc20Abi (txRep s) ethTx tx ->
  checkThrows lib erc20Abi web3 (t_hash ethTx) tx ->
  processTransaction lib erc20Abi web3 ethTx blockData walletsMap s
  = (Throw,
     mkState (txRep s) (lastCheckingBlock s) (receiptRequests s ++ [t_hash ethTx])).
Proof.
  intros Hsel (receipt & Hrec & Hthrow).
  rewrite (processTransaction_with_receipt _ _ _ _ _ _ Hsel Hrec). cbv zeta.
  rewrite Hthrow. reflexivity.
Qed.

End ProcessTransaction.

(** ** The status a receipt yields *)

Section Reconciled.

Context (lib : Web3Lib) (erc20Abi : Erc20Abi).

Lemma checkLog_decodes status log :
  decodesAsTransfer lib erc20Abi log ->
  checkLog lib erc20Abi status log = Ok TRANSACTION_STATUS_CONFIRMED.
Proof.
  intros (d & Hd & Hf & Ht). unfold checkLog. rewrite Hd, Hf, Ht. reflexivity.
Qed.

Lemma checkLog_not_decodes status log :
  ~ decodesAsTransfer lib erc20Abi log ->
  ~ decoderRejects lib erc20Abi log ->
  checkLog lib erc20Abi status log = Ok status.
Proof.
  intros Hn Hr. unfold checkLog, decoderRejects in *.
  destruct (decodeLog _ _ _ _) as [[d|]|] eqn:Hd; [|reflexivity|congruence].
  destruct (truthy (_from d)) eqn:Hf; [|reflexivity].
  destruct (truthy (_to d)) eqn:Ht; [|reflexivity].
  exfalso. apply Hn. exists d. auto.
Qed.

Lemma checkLog_rejects status log :
  decoderRejects lib erc20Abi log -> checkLog lib erc20Abi status log = Throw.
Proof. unfold checkLog, decoderRejects. intros ->. reflexivity. Qed.

Lemma decoderRejects_cases log :
  decoderRejects lib erc20Abi log \/ ~ decoderRejects lib erc20Abi log.
Proof.
  unfold decoderRejects.
  destruct (decodeLog _ _ _ _); [right; discriminate | left; reflexivity].
Qed.

Lemma decodesAsTransfer_cases log :
  decodesAsTransfer lib erc20Abi log \/ ~ decodesAsTransfer lib erc20Abi log.
Proof.
  unfold decodesAsTransfer.
  destruct (decodeLog _ _ _ _) as [[d|]|].
  - destruct (truthy (_from d)) eqn:Hf, (truthy (_to d)) eqn:Ht;
      [left; exists d; auto | right .. ];
      intros (d' & Hd & Hf' & Ht'); simplify_eq; congruence.
  - right. intros (d' & Hd & _). discriminate.
  - right. intros (d' & Hd & _). discriminate.
Qed.

(** The loop throws exactly when the decoder rejects some entry. *)
Lemma forEachLog_throws status logs :
  Exists (decoderRejects lib erc20Abi) logs ->
  forEachLog lib erc20Abi status logs = Throw.
Proof.
  intros Hex. revert status.
  induction Hex as [log logs Hlog | log logs Hex IH]; intros status; simpl.
  - rewrite checkLog_rejects by assumption. reflexivity.
  - destruct (checkLog _ _ _ _); [apply IH | reflexivity].
Qed.

Lemma forEachLog_confirmed logs :
  ~ Exists (decoderRejects lib erc20Abi) logs ->
  forEachLog lib erc20Abi TRANSACTION_STATUS_CONFIRMED logs
  = Ok TRANSACTION_STATUS_CONFIRMED.
Proof.
  induction logs as [|log logs IH]; intros Hn; simpl; [reflexivity|].
  assert (Hlog : ~ decoderRejects lib erc20Abi log).
  { intros H. apply Hn. apply Exists_cons_hd. assumption. }
  assert (Hrest : ~ Exists (decoderRejects lib erc20Abi) logs).
  { intros H. apply Hn. apply Exists_cons_tl. assumption. }
  unfold checkLog, decoderRejects in *.
  destruct (decodeLog _ _ _ _) as [[d|]|]; [| |congruence].
  - destruct (_ && _); apply IH; assumption.
  - apply IH; assumption.
Qed.

(** When the decoder rejects no entry, the loop confirms exactly when
    some entry decodes. *)
Lemma forEach_log_some status logs :
  ~ Exists (decoderRejects lib erc20Abi) logs ->
  Exists (decodesAsTransfer lib erc20Abi) logs ->
  forEachLog lib erc20Abi status logs = Ok TRANSACTION_STATUS_CONFIRMED.
Proof.
  intros Hn Hex. revert status Hn.
  induction Hex as [log logs Hlog | log logs Hex IH]; intros status Hn; simpl.
  - rewrite checkLog_decodes by assumption. apply forEachLog_confirmed.
    intros H. apply Hn. apply Exists_cons_tl. assumption.
  - assert (Hlog : ~ decoderRejects lib erc20Abi log).
    { intros H. apply Hn. apply Exists_cons_hd. assumption. }
    assert (Hrest : ~ Exists (decoderRejects lib erc20Abi) logs).
    { intros H. apply Hn. apply Exists_cons_tl. assumption. }
    unfold checkLog, decoderRejects in *.
    destruct (decodeLog _ _ _ _) as [[d|]|]; [| |congruence].
    + destruct (_ && _); apply IH; assumption.
    + apply IH; assumption.
Qed.

Lemma forEach_log_none status logs :
  ~ Exists (decoderRejects lib erc20Abi) logs ->
  ~ Exists (decodesAsTransfer lib erc20Abi) logs ->
  forEachLog lib erc20Abi status logs = Ok status.
Proof.
  revert status. induction logs as [|log logs IH]; intros status Hr Hn; simpl.
  - reflexivity.
  - rewrite checkLog_not_decodes.
    + apply IH; intros Hex; [apply Hr | apply Hn]; apply Exists_cons_tl; assumption.
    + intros Hd. apply Hn. apply Exists_cons_hd. assumption.
    + intros Hd. apply Hr. apply Exists_cons_hd. assumption.
Qed.

(** When the loop ends without an exception, the decoder has rejected no
    entry. *)
Lemma forEachLog_ok status logs status' :
  forEachLog lib erc20Abi status logs = Ok status' ->
  ~ Exists (decoderRejects lib erc20Abi) logs.
Proof.
  intros Hok Hex. rewrite forEachLog_throws in Hok by assumption. discriminate.
Qed.

(** The loop leaves the status it started from or Confirmed. *)
Lemma forEachLog_range status logs status' :
  forEachLog lib erc20Abi status logs = Ok status' ->
  status' = status \/ status' = TRANSACTION_STATUS_CONFIRMED.
Proof.
  revert status. induction logs as [|log logs IH]; intros status; simpl.
  - intros [= <-]. left. reflexivity.
  - unfold checkLog. destruct (decodeLog _ _ _ _) as [[d|]|]; [| |discriminate].
    + destruct (_ && _); intros H; apply IH in H; destruct H; auto.
    + apply IH.
Qed.

Lemma reconciled_reverted receipt b tx :
  receipt_status receipt <> "0x1" ->
  reconciled lib erc20Abi receipt b tx
  = Ok (inBlock b (set_status (Some TRANSACTION_STATUS_FAILED) tx)).
Proof.
  intros Hst. unfold reconciled, checkTransferEvent, getTxStatusByReceipt. simpl.
  rewrite (bool_decide_eq_false_2 (receipt_status receipt = "0x1")) by assumption.
  rewrite bool_decide_eq_false_2 by (intros Hn; apply Hn; reflexivity).
  reflexivity.
Qed.


Lemma reconciled_erc20 receipt b tx :
  tx_type tx = Some ERC20_TRANSFER ->
  receipt_status receipt = "0x1" ->
  reconciled lib erc20Abi receipt b tx
  = match forEachLog lib erc20Abi TRANSACTION_STATUS_FAILED (receipt_logs receipt) with
    | Ok status => Ok (inBlock b (set_status (Some status) tx))
    | Throw => Throw
    end.
Proof.
  intros Hty Hst. unfold reconciled, checkTransferEvent, getTxStatusByReceipt. simpl.
  rewrite (bool_decide_eq_true_2 (receipt_status receipt = "0x1")) by assumption.
  rewrite Hty.
  rewrite bool_decide_eq_true_2 by discriminate.
  rewrite bool_decide_eq_true_2 by reflexivity. simpl.
  case_bool_decide as Hlen.
  - destruct (receipt_logs receipt); [reflexivity | discriminate].
  - destruct (forEachLog _ _ _ _); reflexivity.
Qed.

(** The check throws only for a record of type ERC20 transfer, a receipt
    with the success status and a log the decoder rejects. *)
Lemma reconciled_throws receipt b tx :
  reconciled lib erc20Abi receipt b tx = Throw <->
  tx_type tx = Some ERC20_TRANSFER
  /\ receipt_status receipt = "0x1"
  /\ Exists (decoderRejects lib erc20Abi) (receipt_logs receipt).
Proof.
  split.
  - intros Hthrow.
    destruct (decide (receipt_status receipt = "0x1")) as [Hst|Hst];
      [|rewrite reconciled_reverted in Hthrow by assumption; discriminate].
    destruct (decide (tx_type tx = Some ERC20_TRANSFER)) as [Hty|Hty].
    + split; [assumption|]. split; [assumption|].
      rewrite reconciled_erc20 in Hthrow by assumption.
      destruct (Exists_cases _ (receipt_logs receipt) decoderRejects_cases)
        as [Hex|Hex]; [exact Hex|].
      exfalso.
      destruct (Exists_cases _ (receipt_logs receipt) decodesAsTransfer_cases)
        as [Hd|Hd].
      * rewrite forEach_log_some in Hthrow by assumption. discriminate.
      * rewrite forEach_log_none in Hthrow by assumption. discriminate.
    + exfalso. unfold reconciled, checkTransferEvent in Hthrow. simpl in Hthrow.
      rewrite (bool_decide_eq_false_2 (tx_type tx = Some ERC20_TRANSFER)) in Hthrow
        by assumption.
      rewrite andb_false_r in Hthrow. discriminate.
  - intros (Hty & Hst & Hex). rewrite reconciled_erc20 by assumption.
    rewrite forEachLog_throws by assumption. reflexivity.
Qed.

(** Reconciling assigns the status, the timestamp and the block number,
    and nothing else. *)
Lemma reconciled_frame receipt b tx tx' :
  reconciled lib erc20Abi receipt b tx = Ok tx' ->
  transactionHash tx' = transactionHash tx
  /\ details tx' = details tx
  /\ tx_type tx' = tx_type tx
  /\ tx_contractAddress tx' = tx_contractAddress tx
  /\ tx_from tx' = tx_from tx
  /\ tx_to tx' = tx_to tx
  /\ tx_amount tx' = tx_amount tx
  /\ tx_timestamp tx' = Some (block_timestamp b)
  /\ tx_blockNumber tx' = Some (block_number b).
Proof.
  unfold reconciled, checkTransferEvent. simpl.
  repeat case_match; intros; simplify_eq; simpl; repeat split; reflexivity.
Qed.

(** The record that goes to [save] is Confirmed or Failed. *)
Lemma reconciled_terminal receipt b tx tx' :
  reconciled lib erc20Abi receipt b tx = Ok tx' -> terminal tx'.
Proof.
  intros Hok. unfold terminal.
  destruct (decide (receipt_status receipt = "0x1")) as [Hst|Hst].
  - destruct (decide (tx_type tx = Some ERC20_TRANSFER)) as [Hty|Hty].
    + rewrite reconciled_erc20 in Hok by assumption.
      destruct (forEachLog _ _ _ _) as [status|] eqn:Hloop; [|discriminate].
      injection Hok as <-. simpl.
      apply forEachLog_range in Hloop as [-> | ->]; auto.
    + unfold reconciled, checkTransferEvent, getTxStatusByReceipt in Hok.
      simpl in Hok.
      rewrite (bool_decide_eq_true_2 (receipt_status receipt = "0x1")) in Hok
        by assumption.
      rewrite (bool_decide_eq_false_2 (tx_type tx = Some ERC20_TRANSFER)) in Hok
        by assumption.
      rewrite andb_false_r in Hok. injection Hok as <-. left. reflexivity.
  - rewrite reconciled_reverted in Hok by assumption. injection Hok as <-.
    right. reflexivity.
Qed.

(** The exception of the check, read off [reconciled]. *)
Lemma reconciled_checkThrows web3 hash receipt b tx :
  getTransactionReceipt web3 hash = Some receipt ->
  reconciled lib erc20Abi receipt b tx = Throw <->
  checkThrows lib erc20Abi web3 hash tx.
Proof.
  intros Hrec. unfold reconciled, checkThrows. split.
  - intros H. exists receipt. split; [assumption|].
    destruct (checkTransferEvent _ _ _ _); [discriminate | reflexivity].
  - intros (r & Hr & Hthrow). rewrite Hrec in Hr. injection Hr as <-.
    rewrite Hthrow. reflexivity.
Qed.

End Reconciled.

(** The record found under the hash after a reconciliation with a
    receipt. *)
Lemma processTransaction_saved lib erc20Abi web3 (ethTx : ExtEthTransaction) b
    walletsMap s tx receipt tx' :
  underReconciliation lib erc20Abi (txRep s) ethTx tx ->
  getTransactionReceipt web3 (t_hash ethTx) = Some receipt ->
  reconciled lib erc20Abi receipt b tx = Ok tx' ->
  getByHash (t_hash ethTx)
    (txRep (finalState (processTransaction lib erc20Abi web3 ethTx (Some b) walletsMap) s))
  = Some tx'.
Proof.
  intros Hsel Hrec Hok. unfold finalState.
  rewrite (processTransaction_receipt _ _ _ _ _ _ _ _ _ _ Hsel Hrec Hok). simpl.
  rewrite <- (underReconciliation_hash _ _ _ _ _ Hsel).
  rewrite <- (reconciled_hash lib erc20Abi receipt b tx tx' Hok).
  apply getByHash_save_eq.
Qed.

(** A call that resolves after a receipt was found has gone through the
    check of the Transfer event without an exception. *)
Lemma processTransaction_resolved lib erc20Abi web3 (ethTx : ExtEthTransaction) b
    walletsMap s tx receipt :
  underReconciliation lib erc20Abi (txRep s) ethTx tx ->
  getTransactionReceipt web3 (t_hash ethTx) = Some receipt ->
  outcome (processTransaction lib erc20Abi web3 ethTx (Some b) walletsMap) s = Ok tt ->
  exists tx', reconciled lib erc20Abi receipt b tx = Ok tx'.
Proof.
  intros Hsel Hrec Hok. unfold outcome in Hok.
  rewrite (processTransaction_with_receipt _ _ _ _ _ _ _ _ _ Hsel Hrec) in Hok.
  cbv zeta in Hok. unfold reconciled.
  destruct (checkTransferEvent _ _ _ _) as [tx'|]; [|discriminate].
  eexists. reflexivity.
Qed.

(** ** Confirmation of ERC20 transfers *)

(** C3. For a record of type ERC20 transfer under reconciliation whose
    receipt is available with the success status. When [decodeLog] throws
    on some log entry of the receipt, the method rejects and the
    repository is left as it was, whatever the other entries are: no
    status is stored. When [decodeLog] throws on no entry, the method
    resolves and the record saved is Failed when no entry decodes as a
    Transfer event with non-empty [_from] and [_to], and Confirmed when
    at least one entry does. *)
Theorem erc20_confirmation_policy lib erc20Abi web3 (ethTx : ExtEthTransaction) b
    walletsMap s tx receipt :
  underReconciliation lib erc20Abi (txRep s) ethTx tx ->
  tx_type tx = Some ERC20_TRANSFER ->
  getTransactionReceipt web3 (t_hash ethTx) = Some receipt ->
  receipt_status receipt = "0x1" ->
  let call := processTransaction lib erc20Abi web3 ethTx (Some b) walletsMap in
  (Exists (decoderRejects lib erc20Abi) (receipt_logs receipt) ->
   outcome call s = Throw /\ txRep (finalState call s) = txRep s)
  /\ (~ Exists (decoderRejects lib erc20Abi) (receipt_logs receipt) ->
      outcome call s = Ok tt
      /\ exists saved,
           getByHash (t_hash ethTx) (txRep (finalState call s)) = Some saved
           /\ (~ Exists (decodesAsTransfer lib erc20Abi) (receipt_logs receipt) ->
               tx_status saved = Some TRANSACTION_STATUS_FAILED)
           /\ (Exists (decodesAsTransfer lib erc20Abi) (receipt_logs receipt) ->
               tx_status saved = Some TRANSACTION_STATUS_CONFIRMED)).
Proof.
  intros Hsel Hty Hrec Hst call. subst call. split.
  - intros Hex. unfold outcome, finalState.
    rewrite (processTransaction_rejects lib erc20Abi web3 ethTx (Some b) walletsMap s tx);
      [split; reflexivity | assumption |].
    apply (reconciled_checkThrows lib erc20Abi web3 _ receipt b tx Hrec).
    apply reconciled_throws. auto.
  - intros Hacc.
    destruct (Exists_cases _ (receipt_logs receipt)
                (decodesAsTransfer_cases lib erc20Abi)) as [Hd|Hd].
    + assert (Hok : reconciled lib erc20Abi receipt b tx
                    = Ok (inBlock b (set_status (Some TRANSACTION_STATUS_CONFIRMED) tx))).
      { rewrite reconciled_erc20 by assumption.
        rewrite forEach_log_some by assumption. reflexivity. }
      split.
      * unfold outcome.
        rewrite (processTransaction_receipt _ _ _ _ _ _ _ _ _ _ Hsel Hrec Hok).
        reflexivity.
      * eexists. split; [apply (processTransaction_saved _ _ _ _ _ _ _ _ _ _ Hsel Hrec Hok)|].
        split; [intros Hn; contradiction | reflexivity].
    + assert (Hok : reconciled lib erc20Abi receipt b tx
                    = Ok (inBlock b (set_status (Some TRANSACTION_STATUS_FAILED) tx))).
      { rewrite reconciled_erc20 by assumption.
        rewrite forEach_log_none by assumption. reflexivity. }
      split.
      * unfold outcome.
        rewrite (processTransaction_receipt _ _ _ _ _ _ _ _ _ _ Hsel Hrec Hok).
        reflexivity.
      * eexists. split; [apply (processTransaction_saved _ _ _ _ _ _ _ _ _ _ Hsel Hrec Hok)|].
        split; [reflexivity | intros Hn; contradiction].
Qed.

(** ** What a reconciliation changes in a stored record *)

(** C10. When a stored pending record is reconciled against an available
    receipt and the method resolves, the record saved in its place
    differs from it in the status, the timestamp and the block number
    only: the type, the sender, the recipient, the amount, the contract
    address and the details (and the hash) are as stored. *)
Theorem reconciliation_frame lib erc20Abi web3 (ethTx : ExtEthTransaction) b
    walletsMap s stored receipt :
  getByHash (t_hash ethTx) (txRep s) = Some stored ->
  tx_status stored = Some TRANSACTION_STATUS_PENDING ->
  getTransactionReceipt web3 (t_hash ethTx) = Some receipt ->
  outcome (processTransaction lib erc20Abi web3 ethTx (Some b) walletsMap) s = Ok tt ->
  let s' :=
    finalState (processTransaction lib erc20Abi web3 ethTx (Some b) walletsMap) s in
  exists saved,
    txRep s' = save saved (txRep s)
    /\ getByHash (t_hash ethTx) (txRep s') = Some saved
    /\ transactionHash saved = transactionHash stored
    /\ tx_type saved = tx_type stored
    /\ tx_from saved = tx_from stored
    /\ tx_to saved = tx_to stored
    /\ tx_amount saved = tx_amount stored
    /\ tx_contractAddress saved = tx_contractAddress stored
    /\ details saved = details stored
    /\ tx_timestamp saved = Some (block_timestamp b)
    /\ tx_blockNumber saved = Some (block_number b).
Proof.
  intros Hget Hp Hrec Hres s'.
  assert (Hsel : underReconciliation lib erc20Abi (txRep s) ethTx stored).
  { unfold underReconciliation. rewrite Hget. auto. }
  destruct (processTransaction_resolved _ _ _ _ _ _ _ _ _ Hsel Hrec Hres) as [saved Hok].
  exists saved.
  destruct (reconciled_frame lib erc20Abi receipt b stored saved Hok)
    as (Hh & Hd & Hty & Hc & Hf & Ht & Ha & Hts & Hbn).
  split.
  { subst s'. unfold finalState.
    rewrite (processTransaction_receipt _ _ _ _ _ _ _ _ _ _ Hsel Hrec Hok). reflexivity. }
  split.
  { subst s'. apply (processTransaction_saved _ _ _ _ _ _ _ _ _ _ Hsel Hrec Hok). }
  repeat split; assumption.
Qed.

(** ** Classification of new transactions *)

Lemma nonZeroValue_truthy v : nonZeroValue v -> truthy v = true.
Proof.
  intros (n & Hn & _). destruct v as [s|]; [|discriminate].
  destruct s; [discriminate | reflexivity].
Qed.

(** The rewriting step leaves alone every transaction whose input has
    neither of the two lengths it looks for. *)
Lemma extendTransaction_other_length lib erc20Abi (t : EthTransaction) :
  String.length (t_input t) <> (2 + 8 + 64 + 64)%nat ->
  String.length (t_input t) <> (2 + 8 + 64 + 64 + 64)%nat ->
  extendTransaction lib erc20Abi t = mkExt t None.
Proof.
  intros H1 H2. unfold extendTransaction.
  rewrite (bool_decide_eq_false_2 _ H1), (bool_decide_eq_false_2 _ H2).
  reflexivity.
Qed.

(** It also leaves alone every transaction whose input does not start
    with the signature of [transfer]. *)
Lemma extendTransaction_other_signature lib erc20Abi (t : EthTransaction) :
  slice 2 10 (t_input t) <> transfer_methodSignature erc20Abi ->
  extendTransaction lib erc20Abi t = mkExt t None.
Proof.
  intros H. unfold extendTransaction.
  rewrite (bool_decide_eq_false_2 _ H), !andb_false_r. reflexivity.
Qed.

(** A well-formed [transfer] call is attributed to the decoded recipient,
    and its contract address is the [to] of the transaction. *)
Lemma extendTransaction_transfer lib erc20Abi (t : EthTransaction) :
  String.length (t_input t) = (2 + 8 + 64 + 64)%nat ->
  slice 2 10 (t_input t) = transfer_methodSignature erc20Abi ->
  let methodArgs :=
    decodeParameters lib (transfer_inputs erc20Abi) (slice_from 10 (t_input t)) in
  let ethTx := extendTransaction lib erc20Abi t in
  contractAddress ethTx = t_to t
  /\ t_from ethTx = t_from t
  /\ t_to ethTx = methodArgs !! 0%nat
  /\ t_value ethTx = methodArgs !! 1%nat
  /\ t_hash ethTx = t_hash t
  /\ t_input ethTx = t_input t.
Proof.
  intros H1 H2. unfold extendTransaction.
  rewrite (bool_decide_eq_true_2 _ H1), (bool_decide_eq_true_2 _ H2). simpl.
  repeat split; reflexivity.
Qed.

(** C7. A transaction with empty call data and a non-zero value is
    registered as a native transfer: sender and recipient are those of the
    transaction, the amount is what [fromWei] returns for its value, and
    there is no contract address. This is also what is stored once its
    receipt is available. *)
Theorem native_transfer_classification lib erc20Abi (t : EthTransaction) :
  t_input t = "0x" ->
  nonZeroValue (t_value t) ->
  exists tx,
    registerTransaction lib erc20Abi (extendTransaction lib erc20Abi t) = Some tx
    /\ tx_type tx = Some ETHEREUM_TRANSFER
    /\ tx_from tx = t_from t
    /\ tx_to tx = t_to t
    /\ tx_amount tx = fromWei lib <$> t_value t
    /\ tx_contractAddress tx = None
    /\ (forall web3 b walletsMap s receipt,
          getByHash (t_hash t) (txRep s) = None ->
          getTransactionReceipt web3 (t_hash t) = Some receipt ->
          exists saved,
            getByHash (t_hash t)
              (txRep (finalState
                        (processTransaction lib erc20Abi web3
                           (extendTransaction lib erc20Abi t) (Some b) walletsMap) s))
            = Some saved
            /\ tx_type saved = tx_type tx
            /\ tx_from saved = tx_from tx
            /\ tx_to saved = tx_to tx
            /\ tx_amount saved = tx_amount tx).
Proof.
  intros Hin Hval.
  assert (Hext : extendTransaction lib erc20Abi t = mkExt t None).
  { apply extendTransaction_other_length; rewrite Hin; simpl; lia. }
  rewrite Hext.
  assert (Hreg : registerTransaction lib erc20Abi (mkExt t None)
                 = Some (processNotRegisteredEthereumTransaction lib
                           (createTransaction (t_hash t)
                              (stringifyDetails lib (t_gas t)
                                 (fromWei_gwei lib (t_gasPrice t))))
                           (mkExt t None))).
  { unfold registerTransaction. simpl.
    rewrite (nonZeroValue_truthy _ Hval), Hin. reflexivity. }
  eexists. split; [exact Hreg|]. simpl.
  repeat split.
  intros web3 b walletsMap s receipt Hget Hrec.
  match type of Hreg with _ = Some ?r => set (tx := r) in * end.
  assert (Hsel : underReconciliation lib erc20Abi (txRep s) (mkExt t None) tx).
  { unfold underReconciliation. simpl. rewrite Hget. exact Hreg. }
  destruct (reconciled lib erc20Abi receipt b tx) as [saved|] eqn:Hok.
  - exists saved. split.
    + apply (processTransaction_saved lib erc20Abi web3 (mkExt t None) b walletsMap s
               tx receipt saved Hsel Hrec Hok).
    + destruct (reconciled_frame lib erc20Abi receipt b tx saved Hok)
        as (_ & _ & Hty' & _ & Hf' & Ht' & Ha' & _).
      rewrite Hty', Hf', Ht', Ha'. repeat split; reflexivity.
  - apply reconciled_throws in Hok as (Hty & _). discriminate.
Qed.

(** C1. A call whose input starts with the signature of [transferFrom]
    and has the length of its encoding is not rewritten, is not
    registered, and [processTransaction] returns without storing
    anything: both tests that would recognise it compare with the
    signature of [transfer]. *)
Theorem transferFrom_call_is_dropped lib erc20Abi web3 (t : EthTransaction)
    blockData walletsMap s :
  transferFrom_methodSignature erc20Abi <> transfer_methodSignature erc20Abi ->
  slice 2 10 (t_input t) = transferFrom_methodSignature erc20Abi ->
  String.length (t_input t) = (2 + 8 + 64 + 64 + 64)%nat ->
  getByHash (t_hash t) (txRep s) = None ->
  extendTransaction lib erc20Abi t = mkExt t None
  /\ registerTransaction lib erc20Abi (extendTransaction lib erc20Abi t) = None
  /\ processTransaction lib erc20Abi web3 (extendTransaction lib erc20Abi t)
       blockData walletsMap s
     = (Ok tt, s).
Proof.
  intros Hsig Hsl Hlen Hget.
  assert (Hne : slice 2 10 (t_input t) <> transfer_methodSignature erc20Abi)
    by congruence.
  assert (Hext : extendTransaction lib erc20Abi t = mkExt t None)
    by (apply extendTransaction_other_signature; assumption).
  assert (Hreg : registerTransaction lib erc20Abi (mkExt t None) = None).
  { unfold registerTransaction, processNotRegisteredContractTransaction. simpl.
    rewrite (bool_decide_eq_false_2 (t_input t = "0x")).
    - rewrite andb_false_r, (bool_decide_eq_false_2 _ Hne). reflexivity.
    - intros H0x. rewrite H0x in Hlen. discriminate. }
  rewrite Hext. repeat split; [assumption|].
  apply processTransaction_skip. simpl. rewrite Hget. assumption.
Qed.

(** C6. A call whose input starts with the signature of [transfer] but
    has neither expected length is not rewritten, so it carries no
    contract address; it is registered as an ERC20 transfer all the same,
    the signature being the only thing [processNotRegisteredContractTransaction]
    looks at, and it is stored as such, without a contract address and
    with the token contract as recipient, once its receipt is available
    and [decodeLog] throws on none of its log entries. *)
Theorem signature_alone_classifies lib erc20Abi web3 (t : EthTransaction) b
    walletsMap s receipt :
  t_input t <> "0x" ->
  slice 2 10 (t_input t) = transfer_methodSignature erc20Abi ->
  String.length (t_input t) <> (2 + 8 + 64 + 64)%nat ->
  String.length (t_input t) <> (2 + 8 + 64 + 64 + 64)%nat ->
  getByHash (t_hash t) (txRep s) = None ->
  getTransactionReceipt web3 (t_hash t) = Some receipt ->
  ~ Exists (decoderRejects lib erc20Abi) (receipt_logs receipt) ->
  exists saved,
    getByHash (t_hash t)
      (txRep (finalState
                (processTransaction lib erc20Abi web3
                   (extendTransaction lib erc20Abi t) (Some b) walletsMap) s))
    = Some saved
    /\ tx_type saved = Some ERC20_TRANSFER
    /\ tx_contractAddress saved = None
    /\ tx_to saved = t_to t.
Proof.
  intros H0x Hsl H1 H2 Hget Hrec Hacc.
  rewrite (extendTransaction_other_length lib erc20Abi t H1 H2).
  assert (Hreg : exists tx,
             registerTransaction lib erc20Abi (mkExt t None) = Some tx
             /\ tx_type tx = Some ERC20_TRANSFER
             /\ tx_contractAddress tx = None
             /\ tx_to tx = t_to t).
  { unfold registerTransaction, processNotRegisteredContractTransaction. simpl.
    rewrite (bool_decide_eq_false_2 _ H0x), andb_false_r.
    rewrite (bool_decide_eq_true_2 _ Hsl). eexists. split; [reflexivity|].
    simpl. repeat split; reflexivity. }
  destruct Hreg as (tx & Hreg & Hty & Hc & Hto).
  assert (Hsel : underReconciliation lib erc20Abi (txRep s) (mkExt t None) tx).
  { unfold underReconciliation. simpl. rewrite Hget. exact Hreg. }
  destruct (reconciled lib erc20Abi receipt b tx) as [saved|] eqn:Hok.
  - exists saved. split.
    + apply (processTransaction_saved lib erc20Abi web3 (mkExt t None) b walletsMap s
               tx receipt saved Hsel Hrec Hok).
    + destruct (reconciled_frame lib erc20Abi receipt b tx saved Hok)
        as (_ & _ & Hty' & Hc' & _ & Hto' & _).
      rewrite Hty', Hc', Hto'. auto.
  - apply reconciled_throws in Hok as (_ & _ & Hex). contradiction.
Qed.

(** ** What a pass can do to the repository *)

Lemma getByHash_recordsOf hash db :
  getByHash hash db = head (recordsOf hash db).
Proof.
  unfold recordsOf. induction db as [|x db IH]; simpl; [reflexivity|].
  rewrite filter_cons. case_bool_decide; case_decide; try contradiction.
  - reflexivity.
  - exact IH.
Qed.

Lemma save_elem x tx db : x ∈ save tx db -> x = tx \/ x ∈ db.
Proof.
  induction db as [|y db IH]; simpl; intros Hin.
  - apply list_elem_of_singleton in Hin. left. assumption.
  - case_bool_decide; apply elem_of_cons in Hin as [Hin|Hin].
    + left. assumption.
    + right. apply elem_of_cons. right. assumption.
    + right. apply elem_of_cons. left. assumption.
    + destruct (IH Hin) as [H'|H']; [left; assumption|].
      right. apply elem_of_cons. right. assumption.
Qed.

#[local] Arguments processTransactionsInBlock : simpl never.
#[local] Arguments processTransaction : simpl never.

Section Passes.

Context (lib : Web3Lib) (erc20Abi : Erc20Abi) (startBlock : Z) (web3 : Web3Eth).
Context (getAllByWalletAddresses : list string -> list User).

(** [processTransaction] returns at once, or goes on with one record. *)
Lemma underReconciliation_cases db (ethTx : ExtEthTransaction) :
  match getByHash (t_hash ethTx) db with
  | Some tx => tx_status tx <> Some TRANSACTION_STATUS_PENDING
  | None => registerTransaction lib erc20Abi ethTx = None
  end
  \/ exists tx, underReconciliation lib erc20Abi db ethTx tx.
Proof.
  unfold underReconciliation. destruct (getByHash _ _) as [stored|].
  - destruct (decide (tx_status stored = Some TRANSACTION_STATUS_PENDING));
      [right; exists stored; auto | left; assumption].
  - destruct (registerTransaction lib erc20Abi ethTx) as [tx|];
      [right; exists tx; reflexivity | left; reflexivity].
Qed.

(** Every run of [processTransaction] either leaves the repository as it
    is or saves the reconciled form of the record under reconciliation;
    the scan cursor is not its business. *)
Lemma processTransaction_effect (ethTx : ExtEthTransaction) blockData walletsMap s :
  let s' :=
    finalState (processTransaction lib erc20Abi web3 ethTx blockData walletsMap) s in
  lastCheckingBlock s' = lastCheckingBlock s
  /\ (txRep s' = txRep s
      \/ exists tx receipt b tx',
           underReconciliation lib erc20Abi (txRep s) ethTx tx
           /\ getTransactionReceipt web3 (t_hash ethTx) = Some receipt
           /\ reconciled lib erc20Abi receipt b tx = Ok tx'
           /\ txRep s' = save tx' (txRep s)).
Proof.
  unfold finalState.
  destruct (underReconciliation_cases (txRep s) ethTx) as [Hskip | [tx Hsel]].
  - rewrite processTransaction_skip by assumption. auto.
  - destruct (getTransactionReceipt web3 (t_hash ethTx)) as [receipt|] eqn:Hrec.
    + rewrite (processTransaction_with_receipt _ _ _ _ _ _ _ _ _ Hsel Hrec). cbv zeta.
      destruct (checkTransferEvent _ _ _ _) as [tx1|] eqn:Hcheck; [|simpl; auto].
      assert (Hok : forall b, reconciled lib erc20Abi receipt b tx = Ok (inBlock b tx1)).
      { intros b. unfold reconciled. rewrite Hcheck. reflexivity. }
      destruct blockData as [b|]; [|destruct (getBlock web3 _) as [b|]]; simpl; auto.
      all: split; [reflexivity|]; right; exists tx, receipt, b, (inBlock b tx1); auto.
    + rewrite (processTransaction_no_receipt _ _ _ _ _ _ _ _ Hsel Hrec). simpl. auto.
Qed.

(** It never writes under another hash. *)
Lemma processTransaction_other_hash (ethTx : ExtEthTransaction) blockData walletsMap
    s hash :
  t_hash ethTx <> hash ->
  recordsOf hash
    (txRep (finalState
              (processTransaction lib erc20Abi web3 ethTx blockData walletsMap) s))
  = recordsOf hash (txRep s).
Proof.
  intros Hne.
  destruct (processTransaction_effect ethTx blockData walletsMap s)
    as [_ [-> | (tx & receipt & b & tx' & Hsel & _ & Hok & ->)]]; [reflexivity|].
  apply recordsOf_save_ne.
  rewrite (reconciled_hash _ _ _ _ _ _ Hok), (underReconciliation_hash _ _ _ _ _ Hsel).
  assumption.
Qed.

(** Nor under the hash of a stored record that is not pending. *)
Lemma processTransaction_settled (ethTx : ExtEthTransaction) blockData walletsMap
    s hash stored :
  getByHash hash (txRep s) = Some stored ->
  tx_status stored <> Some TRANSACTION_STATUS_PENDING ->
  recordsOf hash
    (txRep (finalState
              (processTransaction lib erc20Abi web3 ethTx blockData walletsMap) s))
  = recordsOf hash (txRep s).
Proof.
  intros Hget Hst. destruct (decide (t_hash ethTx = hash)) as [Heq|Hne].
  - unfold finalState. rewrite processTransaction_skip; [reflexivity|].
    rewrite Heq, Hget. assumption.
  - apply processTransaction_other_hash. assumption.
Qed.

(** Every record it writes is Confirmed or Failed. *)
Lemma processTransaction_writes_terminal (ethTx : ExtEthTransaction) blockData
    walletsMap s x :
  x ∈ txRep (finalState
               (processTransaction lib erc20Abi web3 ethTx blockData walletsMap) s) ->
  x ∈ txRep s \/ terminal x.
Proof.
  destruct (processTransaction_effect ethTx blockData walletsMap s)
    as [_ [-> | (tx & receipt & b & tx' & _ & _ & Hok & ->)]]; [auto|].
  intros Hin. apply save_elem in Hin as [-> | Hin]; [|auto].
  right. eapply reconciled_terminal. eassumption.
Qed.

(** It keeps the hashes of the repository distinct. *)
Lemma processTransaction_NoDup (ethTx : ExtEthTransaction) blockData walletsMap s :
  NoDup (map transactionHash (txRep s)) ->
  NoDup (map transactionHash
           (txRep (finalState
                     (processTransaction lib erc20Abi web3 ethTx blockData walletsMap)
                     s))).
Proof.
  destruct (processTransaction_effect ethTx blockData walletsMap s)
    as [_ [-> | (tx & receipt & b & tx' & _ & _ & _ & ->)]]; [auto|].
  apply save_NoDup.
Qed.

Lemma try_catch_run (m : M unit) s :
  try_catch m s = (Ok tt, finalState m s).
Proof.
  unfold try_catch, finalState. destruct (m s) as [[[]|] s']; reflexivity.
Qed.

(** The items are all run, and the helper resolves. *)
Lemma processAsyncItemsByChunks_preserves {T : Type} (P : State -> Prop)
    (items : list T) chunkSize (mapFunc : T -> M unit) :
  (forall item s, item ∈ items -> P s -> P (finalState (mapFunc item) s)) ->
  forall s, P s ->
    P (finalState (processAsyncItemsByChunks items chunkSize mapFunc) s)
    /\ outcome (processAsyncItemsByChunks items chunkSize mapFunc) s = Ok tt.
Proof.
  induction items as [|item items IH]; intros Hstep s HP.
  - split; [exact HP | reflexivity].
  - unfold finalState, outcome in *. simpl. unfold mbind, M_bind.
    rewrite try_catch_run. apply IH.
    + intros item' s' Hin. apply Hstep. apply elem_of_cons. right. assumption.
    + apply Hstep; [apply elem_of_cons; left; reflexivity | assumption].
Qed.

(** What holds of the repository through each reconciliation of a
    transaction of the block that involves a wallet, holds through the
    block. *)
Lemma processTransactionsInBlock_preserves (P : State -> Prop) blockData :
  (forall b (ethTx : ExtEthTransaction) s,
     blockData = Some b ->
     ethTx ∈ map (extendTransaction lib erc20Abi) (block_transactions b) ->
     involvesWallet
       (walletIds getAllByWalletAddresses
          (map (extendTransaction lib erc20Abi) (block_transactions b))) ethTx ->
     P s ->
     P (finalState
          (processTransaction lib erc20Abi web3 ethTx (Some b)
             (walletIds getAllByWalletAddresses
                (map (extendTransaction lib erc20Abi) (block_transactions b)))) s)) ->
  forall s, P s ->
    P (finalState
         (processTransactionsInBlock lib erc20Abi web3 getAllByWalletAddresses blockData) s)
    /\ outcome
         (processTransactionsInBlock lib erc20Abi web3 getAllByWalletAddresses blockData) s
       = Ok tt.
Proof.
  intros Hstep s HP. unfold processTransactionsInBlock.
  destruct blockData as [b|]; [|split; [exact HP | reflexivity]].
  case_bool_decide; [split; [exact HP | reflexivity]|].
  unfold getWalletMapInTransactions, mbind, M_bind, mret, M_ret.
  unfold finalState, outcome. simpl.
  case_bool_decide; [split; [exact HP | reflexivity]|].
  apply (processAsyncItemsByChunks_preserves P); [|exact HP].
  intros ethTx s' Hin HP'.
  unfold filterTransactionByWalletAddresses in Hin.
  apply list_elem_of_filter in Hin as [Hinv Hin].
  apply Hstep; auto.
Qed.

(** Processing a block keeps at most one record per hash. *)
Lemma processTransactionsInBlock_NoDup blockData s :
  NoDup (map transactionHash (txRep s)) ->
  NoDup (map transactionHash
           (txRep (finalState
                     (processTransactionsInBlock lib erc20Abi web3
                        getAllByWalletAddresses blockData) s))).
Proof.
  intros Hnd.
  apply (processTransactionsInBlock_preserves
           (fun s' => NoDup (map transactionHash (txRep s'))) blockData);
    [|exact Hnd].
  intros b ethTx s1 _ _ _ Hnd1. apply processTransaction_NoDup. exact Hnd1.
Qed.

(** A sweep ends with the cursor ten blocks behind the head it saw, and
    what holds of the repository through every block it fetches holds
    through the sweep. *)
Lemma checkTransactions_run (P : State -> Prop) :
  (forall s n, P s -> P (mkState (txRep s) n (receiptRequests s))) ->
  (forall b s,
     P s ->
     P (finalState
          (processTransactionsInBlock lib erc20Abi web3 getAllByWalletAddresses (Some b))
          s)) ->
  forall s, P s ->
    let s' :=
      finalState
        (checkTransactions lib erc20Abi startBlock web3 getAllByWalletAddresses) s in
    P s'
    /\ lastCheckingBlock s' = getBlockNumber web3 - 10
    /\ outcome (checkTransactions lib erc20Abi startBlock web3 getAllByWalletAddresses) s
       = Ok true.
Proof.
  intros Hcur Hblock s HP.
  assert (Hrange : forall s2 from,
            P s2 ->
            exists s3,
              processAsyncIntRangeByChunks from (getBlockNumber web3) 1
                CONCURRENT_BLOCK_PROCESS_COUNT
                (fun i =>
                   match getBlock web3 i with
                   | None => mret tt
                   | Some blockData =>
                       try_catch
                         (processTransactionsInBlock lib erc20Abi web3
                            getAllByWalletAddresses (Some blockData))
                   end) s2
              = (Ok tt, s3) /\ P s3).
  { intros s2 from HP2. unfold processAsyncIntRangeByChunks.
    match goal with
    | |- context [processAsyncItemsByChunks ?l ?c ?f s2] =>
        destruct (processAsyncItemsByChunks_preserves P l c f) with (s := s2)
          as [HP3 Hok]; [|exact HP2|]
    end.
    - intros i s' _ HP'. destruct (getBlock web3 i) as [b|]; [|exact HP'].
      unfold finalState. rewrite try_catch_run. simpl. apply Hblock. exact HP'.
    - unfold finalState, outcome in *.
      destruct (processAsyncItemsByChunks _ _ _ s2) as [r s3]. simpl in *.
      subst r. exists s3. auto. }
  assert (Hrun : exists s3,
            checkTransactions lib erc20Abi startBlock web3 getAllByWalletAddresses s
            = (Ok true,
               mkState (txRep s3) (getBlockNumber web3 - 10) (receiptRequests s3))
            /\ P s3).
  { unfold checkTransactions.
    unfold mbind, M_bind, get_lastCheckingBlock, txRep_findMaxBlockNumber. simpl.
    destruct (bool_decide (lastCheckingBlock s = 0)); simpl;
      match goal with
      | |- context [bool_decide (?n = 0)] => destruct (bool_decide (n = 0))
      end; simpl;
      match goal with
      | |- context [processAsyncIntRangeByChunks ?a _ _ _ _ ?s2] =>
          destruct (Hrange s2 a) as (s3 & -> & HP3); [auto|]
      end; simpl; exists s3; auto. }
  destruct Hrun as (s3 & Hrun & HP3).
  unfold finalState, outcome. rewrite Hrun. simpl. auto.
Qed.

End Passes.

(** ** Records that are settled *)

(** C2. A stored record whose status is Confirmed or Failed is final:
    [processTransaction] on its hash returns at once and leaves the whole
    state as it is (no receipt is even requested); processing any block,
    and any sweep, leaves the records stored under that hash exactly as
    they are, so the record is unchanged and no other record appears
    under the hash. A stored record for which a receipt is requested is a
    pending one. *)
Theorem terminal_records_are_final lib erc20Abi startBlock web3
    getAllByWalletAddresses s hash stored :
  getByHash hash (txRep s) = Some stored ->
  terminal stored ->
  (forall (ethTx : ExtEthTransaction) blockData walletsMap,
     t_hash ethTx = hash ->
     processTransaction lib erc20Abi web3 ethTx blockData walletsMap s = (Ok tt, s))
  /\ (forall blockData,
        let s' :=
          finalState
            (processTransactionsInBlock lib erc20Abi web3 getAllByWalletAddresses
               blockData) s in
        recordsOf hash (txRep s') = recordsOf hash (txRep s)
        /\ getByHash hash (txRep s') = Some stored)
  /\ (let s' :=
        finalState
          (checkTransactions lib erc20Abi startBlock web3 getAllByWalletAddresses) s in
      recordsOf hash (txRep s') = recordsOf hash (txRep s)
      /\ getByHash hash (txRep s') = Some stored)
  /\ (forall (ethTx : ExtEthTransaction) blockData walletsMap tx,
        getByHash (t_hash ethTx) (txRep s) = Some tx ->
        receiptRequests
          (finalState (processTransaction lib erc20Abi web3 ethTx blockData walletsMap) s)
        <> receiptRequests s ->
        tx_status tx = Some TRANSACTION_STATUS_PENDING).
Proof.
  intros Hget Hterm.
  assert (Hnp : tx_status stored <> Some TRANSACTION_STATUS_PENDING).
  { destruct Hterm as [H|H]; rewrite H; discriminate. }
  set (P := fun s' : State => recordsOf hash (txRep s') = recordsOf hash (txRep s)).
  assert (Hfound : forall s', P s' -> getByHash hash (txRep s') = Some stored).
  { intros s' HP. rewrite getByHash_recordsOf, HP, <- getByHash_recordsOf. exact Hget. }
  assert (Hblock : forall blockData s',
            P s' ->
            P (finalState
                 (processTransactionsInBlock lib erc20Abi web3 getAllByWalletAddresses
                    blockData) s')).
  { intros blockData s' HP.
    apply (processTransactionsInBlock_preserves lib erc20Abi web3
             getAllByWalletAddresses P blockData); [|exact HP].
    intros b ethTx s1 _ _ _ HP1. unfold P in *.
    rewrite (processTransaction_settled lib erc20Abi web3 ethTx (Some b) _ s1 hash stored);
      auto. }
  split; [|split; [|split]].
  - intros ethTx blockData walletsMap Hh.
    apply processTransaction_skip. rewrite Hh, Hget. exact Hnp.
  - intros blockData s'.
    assert (HP : P s') by (apply Hblock; reflexivity).
    split; [exact HP | apply Hfound; exact HP].
  - intros s'.
    destruct (checkTransactions_run lib erc20Abi startBlock web3
                getAllByWalletAddresses P) with (s := s) as (HP & _).
    + intros s1 n HP1. exact HP1.
    + intros b s1 HP1. apply Hblock. exact HP1.
    + reflexivity.
    + split; [exact HP | apply Hfound; exact HP].
  - intros ethTx blockData walletsMap tx Hget' Hreq.
    destruct (decide (tx_status tx = Some TRANSACTION_STATUS_PENDING)) as [Hp|Hp];
      [exact Hp|].
    exfalso. apply Hreq. unfold finalState.
    rewrite processTransaction_skip; [reflexivity|]. rewrite Hget'. exact Hp.
Qed.

(** ** First observation of a transaction *)

Lemma save_new tx db :
  getByHash (transactionHash tx) db = None -> save tx db = (db ++ [tx])%list.
Proof.
  induction db as [|x db IH]; simpl; [reflexivity|].
  case_bool_decide; [discriminate|]. intros Hnone. rewrite IH by assumption. reflexivity.
Qed.

(** C5, as the class has it. For a transaction whose hash is not stored
    and which is not of an unknown kind, [processTransaction] requests the
    receipt; without a receipt it stores nothing, so that the next
    observation starts afresh; with a receipt on none of whose log
    entries [decodeLog] throws, it adds one record, which is Confirmed or
    Failed. In no case does a record it writes have the status Pending. *)
Theorem first_observation lib erc20Abi web3 (ethTx : ExtEthTransaction) b
    walletsMap s tx :
  getByHash (t_hash ethTx) (txRep s) = None ->
  registerTransaction lib erc20Abi ethTx = Some tx ->
  let s' :=
    finalState (processTransaction lib erc20Abi web3 ethTx (Some b) walletsMap) s in
  receiptRequests s' = (receiptRequests s ++ [t_hash ethTx])%list
  /\ (getTransactionReceipt web3 (t_hash ethTx) = None ->
      txRep s' = txRep s /\ getByHash (t_hash ethTx) (txRep s') = None)
  /\ (forall receipt,
        getTransactionReceipt web3 (t_hash ethTx) = Some receipt ->
        ~ Exists (decoderRejects lib erc20Abi) (receipt_logs receipt) ->
        exists tx',
          reconciled lib erc20Abi receipt b tx = Ok tx'
          /\ txRep s' = (txRep s ++ [tx'])%list
          /\ terminal tx')
  /\ (forall (ethTx' : ExtEthTransaction) blockData' walletsMap' s0 x,
        x ∈ txRep (finalState
                     (processTransaction lib erc20Abi web3 ethTx' blockData'
                        walletsMap') s0) ->
        x ∈ txRep s0 \/ terminal x).
Proof.
  intros Hget Hreg s'.
  assert (Hsel : underReconciliation lib erc20Abi (txRep s) ethTx tx).
  { unfold underReconciliation. rewrite Hget. exact Hreg. }
  assert (Hwrites : forall (ethTx' : ExtEthTransaction) blockData' walletsMap' s0 x,
            x ∈ txRep (finalState
                         (processTransaction lib erc20Abi web3 ethTx' blockData'
                            walletsMap') s0) ->
            x ∈ txRep s0 \/ terminal x).
  { intros. eapply processTransaction_writes_terminal. eassumption. }
  subst s'. unfold finalState.
  destruct (getTransactionReceipt web3 (t_hash ethTx)) as [receipt|] eqn:Hrec.
  - split.
    { rewrite (processTransaction_with_receipt _ _ _ _ _ _ _ _ _ Hsel Hrec). cbv zeta.
      destruct (checkTransferEvent _ _ _ _); reflexivity. }
    split; [discriminate|]. split; [|exact Hwrites].
    intros r [= <-] Hacc.
    destruct (reconciled lib erc20Abi receipt b tx) as [tx'|] eqn:Hok.
    + exists tx'. split; [reflexivity|].
      rewrite (processTransaction_receipt _ _ _ _ _ _ _ _ _ _ Hsel Hrec Hok). simpl.
      split; [|eapply reconciled_terminal; eassumption].
      apply save_new.
      rewrite (reconciled_hash _ _ _ _ _ _ Hok), (registerTransaction_hash _ _ _ _ Hreg).
      exact Hget.
    + apply reconciled_throws in Hok as (_ & _ & Hex). contradiction.
  - rewrite (processTransaction_no_receipt _ _ _ _ _ _ _ _ Hsel Hrec). simpl.
    split; [reflexivity|]. split; [auto|]. split; [discriminate | exact Hwrites].
Qed.

(** ** Transactions that involve no wallet *)

(** C9, as the class has it. The wallet index is built, and the
    transactions are filtered, after the call-data rewriting. When every
    transaction of the block with a given hash has, after that rewriting,
    neither its [from] nor its [to] among the keys of the index,
    processing the block leaves the records stored under that hash as they
    are: none is created. The transactions passed on to reconciliation
    are exactly the rewritten ones with [from] or [to] in the index. *)
Theorem unmonitored_transactions_leave_no_record lib erc20Abi web3
    getAllByWalletAddresses b s hash :
  let sourceTransactions := map (extendTransaction lib erc20Abi) (block_transactions b) in
  let wallets := walletIds getAllByWalletAddresses sourceTransactions in
  (forall ethTx : ExtEthTransaction,
     ethTx ∈ sourceTransactions -> t_hash ethTx = hash ->
     walletsMap_get wallets (t_from ethTx) = None
     /\ walletsMap_get wallets (t_to ethTx) = None) ->
  let s' :=
    finalState
      (processTransactionsInBlock lib erc20Abi web3 getAllByWalletAddresses (Some b)) s in
  recordsOf hash (txRep s') = recordsOf hash (txRep s)
  /\ (forall ethTx : ExtEthTransaction,
        ethTx ∈ filterTransactionByWalletAddresses wallets sourceTransactions
        <-> ethTx ∈ sourceTransactions
            /\ (is_Some (walletsMap_get wallets (t_from ethTx))
                \/ is_Some (walletsMap_get wallets (t_to ethTx)))).
Proof.
  intros sourceTransactions wallets Hout s'. split.
  - set (P := fun s1 : State => recordsOf hash (txRep s1) = recordsOf hash (txRep s)).
    apply (processTransactionsInBlock_preserves lib erc20Abi web3
             getAllByWalletAddresses P (Some b)); [|reflexivity].
    intros b' ethTx s1 [= <-] Hin Hinv HP1. unfold P in *.
    rewrite processTransaction_other_hash; [exact HP1|].
    intros Hh. destruct (Hout ethTx Hin Hh) as [Hf Ht].
    destruct Hinv as [[? Hs]|[? Hs]]; fold sourceTransactions wallets in Hs; congruence.
  - intros ethTx. unfold filterTransactionByWalletAddresses.
    rewrite list_elem_of_filter. unfold involvesWallet. tauto.
Qed.

(** ** The scan cursor *)

(** C4, as the class has it. A sweep resolves, and leaves the cursor at
    the head it observed minus 10, whatever the cursor was. So, of two
    sweeps in a row, the second leaves the cursor no lower than the first
    when the head it observes is no lower, and strictly lower when the
    head it observes is lower. *)
Theorem cursor_after_sweep lib erc20Abi startBlock getAllByWalletAddresses
    web3 web3' s :
  let sweep := fun node =>
    checkTransactions lib erc20Abi startBlock node getAllByWalletAddresses in
  let s1 := finalState (sweep web3) s in
  let s2 := finalState (sweep web3') s1 in
  outcome (sweep web3) s = Ok true
  /\ lastCheckingBlock s1 = getBlockNumber web3 - 10
  /\ lastCheckingBlock s2 = getBlockNumber web3' - 10
  /\ (getBlockNumber web3 <= getBlockNumber web3' ->
      lastCheckingBlock s1 <= lastCheckingBlock s2)
  /\ (getBlockNumber web3' < getBlockNumber web3 ->
      lastCheckingBlock s2 < lastCheckingBlock s1).
Proof.
  intros sweep s1 s2.
  destruct (checkTransactions_run lib erc20Abi startBlock web3
              getAllByWalletAddresses (fun _ => True)) with (s := s)
    as (_ & H1 & Hok); auto.
  destruct (checkTransactions_run lib erc20Abi startBlock web3'
              getAllByWalletAddresses (fun _ => True)) with (s := s1)
    as (_ & H2 & _); auto.
  fold (sweep web3) in H1, Hok. fold s1 in H1. fold (sweep web3') in H2. fold s2 in H2.
  repeat split; [exact Hok | exact H1 | exact H2 | |]; rewrite H1, H2; lia.
Qed.

(** * The properties on the sample *)

Import Sample.

(** The [transferFrom] call sent by the monitored wallet is dropped, and
    the block that contains it leaves the repository empty although its
    receipt carries a Transfer event. *)
Lemma transferFrom_call_is_dropped_sample :
  (extendTransaction lib erc20Abi txTransferFrom = mkExt txTransferFrom None
   /\ registerTransaction lib erc20Abi (extendTransaction lib erc20Abi txTransferFrom)
      = None
   /\ processTransaction lib erc20Abi
        (node 100 [txTransferFrom] (successReceipt [transferLog]))
        (extendTransaction lib erc20Abi txTransferFrom)
        (Some (block100 [txTransferFrom])) ∅ emptyState
      = (Ok tt, emptyState))
  /\ txRep (run_block [txTransferFrom] (successReceipt [transferLog]) emptyState) = [].
Proof.
  split.
  - apply (transferFrom_call_is_dropped lib erc20Abi
             (node 100 [txTransferFrom] (successReceipt [transferLog]))
             txTransferFrom (Some (block100 [txTransferFrom])) ∅ emptyState).
    + discriminate.
    + reflexivity.
    + reflexivity.
    + reflexivity.
  - vm_compute. reflexivity.
Defined.

(** The [transfer] of the sample and three receipts with the success
    status. With a Transfer log followed by a log of a single topic, the
    method rejects and nothing is stored, though one entry decodes; with
    the Transfer log alone the record is Confirmed; with no log it is
    Failed. *)
Lemma erc20_confirmation_policy_sample :
  (let call :=
     processTransaction lib erc20Abi
       (node 100 [txTransfer] (successReceipt [transferLog; plainLog]))
       (extendTransaction lib erc20Abi txTransfer) (Some (block100 [txTransfer]))
       (walletIds getAllByWalletAddresses
          (map (extendTransaction lib erc20Abi) [txTransfer])) in
   decodesAsTransfer lib erc20Abi transferLog
   /\ outcome call emptyState = Throw
   /\ txRep (finalState call emptyState) = []
   /\ txRep (run_block [txTransfer] (successReceipt [transferLog; plainLog]) emptyState)
      = [])
  /\ (exists saved,
        getByHash "0xB"
          (txRep (run_block [txTransfer] (successReceipt [transferLog]) emptyState))
        = Some saved
        /\ tx_status saved = Some TRANSACTION_STATUS_CONFIRMED)
  /\ (exists saved,
        getByHash "0xB" (txRep (run_block [txTransfer] (successReceipt []) emptyState))
        = Some saved
        /\ tx_status saved = Some TRANSACTION_STATUS_FAILED).
Proof.
  split; [|split].
  - edestruct (erc20_confirmation_policy lib erc20Abi
                 (node 100 [txTransfer] (successReceipt [transferLog; plainLog]))
                 (extendTransaction lib erc20Abi txTransfer) (block100 [txTransfer])
                 (walletIds getAllByWalletAddresses
                    (map (extendTransaction lib erc20Abi) [txTransfer]))
                 emptyState)
      as [Hrejects _].
    + lazy. reflexivity.
    + reflexivity.
    + reflexivity.
    + reflexivity.
    + destruct Hrejects as [Hthrow Hdb].
      { apply Exists_cons_tl. apply Exists_cons_hd. reflexivity. }
      split; [eexists; split; [reflexivity|]; split; reflexivity|].
      split; [exact Hthrow|]. split; [exact Hdb|]. vm_compute. reflexivity.
  - edestruct (erc20_confirmation_policy lib erc20Abi
                 (node 100 [txTransfer] (successReceipt [transferLog]))
                 (extendTransaction lib erc20Abi txTransfer) (block100 [txTransfer])
                 (walletIds getAllByWalletAddresses
                    (map (extendTransaction lib erc20Abi) [txTransfer]))
                 emptyState)
      as [_ Haccepts].
    + lazy. reflexivity.
    + reflexivity.
    + reflexivity.
    + reflexivity.
    + destruct Haccepts as (_ & saved & Hget & _ & Hconfirmed).
      { intros Hex. apply Exists_cons in Hex as [Hex|Hex];
          [discriminate Hex | apply Exists_nil in Hex; exact Hex]. }
      exists saved. split; [exact Hget|].
      apply Hconfirmed. apply Exists_cons_hd.
      eexists. split; [reflexivity|]. split; reflexivity.
  - edestruct (erc20_confirmation_policy lib erc20Abi
                 (node 100 [txTransfer] (successReceipt []))
                 (extendTransaction lib erc20Abi txTransfer) (block100 [txTransfer])
                 (walletIds getAllByWalletAddresses
                    (map (extendTransaction lib erc20Abi) [txTransfer]))
                 emptyState)
      as [_ Haccepts].
    + lazy. reflexivity.
    + reflexivity.
    + reflexivity.
    + reflexivity.
    + destruct Haccepts as (_ & saved & Hget & Hfailed & _).
      { intros Hex. apply Exists_nil in Hex. exact Hex. }
      exists saved. split; [exact Hget|].
      apply Hfailed. intros Hex. apply Exists_nil in Hex. exact Hex.
Defined.

(** The scenario of the spec with its receipt at hand: the transfer of
    one ether is registered as a native transfer from [W1] to [W2] and
    stored as such; its amount is what [fromWei] returns for
    1000000000000000000 wei, the string 1. *)
Lemma native_transfer_classification_sample :
  exists tx,
    registerTransaction lib erc20Abi (extendTransaction lib erc20Abi txA) = Some tx
    /\ tx_type tx = Some ETHEREUM_TRANSFER
    /\ tx_from tx = Some W1
    /\ tx_to tx = Some W2
    /\ tx_amount tx = Some "1"
    /\ exists saved,
         getByHash "0xA" (txRep (run_block [txA] (successReceipt []) emptyState))
         = Some saved
         /\ tx_type saved = tx_type tx
         /\ tx_from saved = tx_from tx
         /\ tx_to saved = tx_to tx
         /\ tx_amount saved = tx_amount tx.
Proof.
  destruct (native_transfer_classification lib erc20Abi txA)
    as (tx & Hreg & Hty & Hfrom & Hto & Hamount & _ & Hsaved).
  - reflexivity.
  - exists 1000000000000000000%N. split; reflexivity.
  - exists tx. repeat split; try assumption.
    + apply (Hsaved (node 100 [txA] (successReceipt [])) (block100 [txA])
               (walletIds getAllByWalletAddresses
                  (map (extendTransaction lib erc20Abi) [txA]))
               emptyState (mkReceipt "0x1" [])); reflexivity.
Defined.

(** The signature of [transfer] alone, sent by the monitored wallet, is
    stored as an ERC20 transfer without contract address. *)
Lemma signature_alone_classifies_sample :
  exists saved,
    getByHash "0xD" (txRep (run_block [txShort] (successReceipt [transferLog]) emptyState))
    = Some saved
    /\ tx_type saved = Some ERC20_TRANSFER
    /\ tx_contractAddress saved = None
    /\ tx_to saved = Some token.
Proof.
  apply (signature_alone_classifies lib erc20Abi
           (node 100 [txShort] (successReceipt [transferLog])) txShort
           (block100 [txShort])
           (walletIds getAllByWalletAddresses
              (map (extendTransaction lib erc20Abi) [txShort]))
           emptyState (mkReceipt "0x1" [transferLog])).
  - discriminate.
  - reflexivity.
  - discriminate.
  - discriminate.
  - reflexivity.
  - reflexivity.
  - intros Hex. apply Exists_cons in Hex as [Hex|Hex];
      [discriminate Hex | apply Exists_nil in Hex; exact Hex].
Defined.

(** A confirmed record of [txA] is kept as it is by the block that
    contains [txA] and by a sweep over it. *)
Lemma terminal_records_are_final_sample :
  let s := mkState [confirmedA] 0 [] in
  run_block [txA] (successReceipt []) s = s
  /\ recordsOf "0xA" (txRep (run_sweep 105 [txA] (successReceipt []) s)) = [confirmedA].
Proof.
  destruct (terminal_records_are_final lib erc20Abi 0
              (node 105 [txA] (successReceipt [])) getAllByWalletAddresses
              (mkState [confirmedA] 0 []) "0xA" confirmedA)
    as (_ & _ & [Hsweep _] & _).
  - reflexivity.
  - left. reflexivity.
  - split; [vm_compute; reflexivity | exact Hsweep].
Defined.

(** First observation of [txA]: nothing is stored while the node has no
    receipt for it. *)
Lemma first_observation_sample :
  let s' := run_block [txA] noReceipt emptyState in
  receiptRequests s' = ["0xA"] /\ txRep s' = [].
Proof.
  edestruct (first_observation lib erc20Abi (node 100 [txA] noReceipt)
               (extendTransaction lib erc20Abi txA) (block100 [txA])
               (walletIds getAllByWalletAddresses
                  (map (extendTransaction lib erc20Abi) [txA]))
               emptyState)
    as (Hreq & Hnone & _).
  - reflexivity.
  - lazy. reflexivity.
  - split; [exact Hreq | apply Hnone; reflexivity].
Defined.

(** The transfer between [W1] and [W3], which belong to no user, leaves
    no record, in a block that also holds [txA]. *)
Lemma unmonitored_transactions_leave_no_record_sample :
  recordsOf "0xE" (txRep (run_block [txE; txA] (successReceipt []) emptyState)) = [].
Proof.
  apply (unmonitored_transactions_leave_no_record lib erc20Abi
           (node 100 [txE; txA] (successReceipt [])) getAllByWalletAddresses
           (block100 [txE; txA]) emptyState "0xE").
  intros ethTx Hin Hhash. simpl in Hin.
  apply elem_of_cons in Hin as [-> | Hin].
  - split; vm_compute; reflexivity.
  - apply list_elem_of_singleton in Hin. subst ethTx. discriminate Hhash.
Defined.

(** A pending record of [txA] reconciled with a successful receipt:
    confirmed in block 100, its other fields as stored. *)
Lemma reconciliation_frame_sample :
  exists saved,
    txRep (run_block [txA] (successReceipt []) (mkState [pendingA] 0 [])) = [saved]
    /\ tx_status saved = Some TRANSACTION_STATUS_CONFIRMED
    /\ tx_amount saved = Some "1"
    /\ details saved = "sent"
    /\ tx_blockNumber saved = Some 100.
Proof.
  destruct (reconciliation_frame lib erc20Abi (node 100 [txA] (successReceipt []))
              (extendTransaction lib erc20Abi txA) (block100 [txA])
              (walletIds getAllByWalletAddresses
                 (map (extendTransaction lib erc20Abi) [txA]))
              (mkState [pendingA] 0 []) pendingA (mkReceipt "0x1" []))
    as (saved & Hdb & Hget & _ & _ & _ & _ & Hamount & _ & Hdetails & _ & Hblock).
  - reflexivity.
  - reflexivity.
  - reflexivity.
  - reflexivity.
  - exists saved. split.
    + transitivity (save saved [pendingA]); [exact Hdb|].
      vm_compute in Hget. injection Hget as <-. reflexivity.
    + split.
      * vm_compute in Hget. injection Hget as <-. reflexivity.
      * split; [exact Hamount|]. split; [exact Hdetails | exact Hblock].
Defined.

(** Two sweeps with heads 100 and 120: the cursor goes from 90 to 110. *)
Lemma cursor_after_sweep_sample :
  let s1 := run_sweep 100 [] noReceipt emptyState in
  let s2 := run_sweep 120 [] noReceipt s1 in
  lastCheckingBlock s1 = 90 /\ lastCheckingBlock s2 = 110
  /\ lastCheckingBlock s1 <= lastCheckingBlock s2.
Proof.
  destruct (cursor_after_sweep lib erc20Abi 0 getAllByWalletAddresses
              (node 100 [] noReceipt) (node 120 [] noReceipt) emptyState)
    as (_ & H1 & H2 & Hle & _).
  split; [exact H1|]. split; [exact H2|]. apply Hle. simpl. lia.
Defined.

(** ** Where the class departs from the claims *)

(** Against C4 as stated: a sweep that observes head 50 after one that
    observed head 100 takes the cursor from 90 back to 40. *)
Lemma cursor_follows_a_smaller_head :
  let s1 := run_sweep 100 [] noReceipt emptyState in
  let s2 := run_sweep 50 [] noReceipt s1 in
  lastCheckingBlock s1 = 90
  /\ lastCheckingBlock s2 = 40
  /\ lastCheckingBlock s2 < lastCheckingBlock s1.
Proof. vm_compute. repeat split. Qed.

(** Against C5 as stated: [txA] involves the monitored wallet [W2], has
    no stored record and is registered as a native transfer; its first
    observation without a receipt stores no record, pending or other. *)
Lemma first_observation_without_receipt_stores_nothing :
  let ethTx := extendTransaction lib erc20Abi txA in
  let s' := run_block [txA] noReceipt emptyState in
  involvesWallet (walletIds getAllByWalletAddresses [ethTx]) ethTx
  /\ getByHash "0xA" (txRep emptyState) = None
  /\ is_Some (registerTransaction lib erc20Abi ethTx)
  /\ txRep s' = []
  /\ ~ (exists tx,
          getByHash "0xA" (txRep s') = Some tx
          /\ tx_status tx = Some TRANSACTION_STATUS_PENDING).
Proof.
  split; [right; vm_compute; eauto|].
  split; [reflexivity|].
  split; [vm_compute; eauto|].
  split; [vm_compute; reflexivity|].
  intros (tx & Hget & _). vm_compute in Hget. discriminate Hget.
Qed.

(** Against C7 as stated: [txA] has empty call data and the value
    1000000000000000000 wei; [fromWei] prints that value as 1, and 1 is
    the amount of the native transfer recorded for it, not 1.0. *)
Lemma one_ether_is_recorded_as_1 :
  let s' := run_block [txA] (successReceipt []) emptyState in
  t_input txA = "0x"
  /\ t_value txA = Some "1000000000000000000"
  /\ fromWei lib "1000000000000000000" = "1"
  /\ exists tx,
       txRep s' = [tx]
       /\ tx_type tx = Some ETHEREUM_TRANSFER
       /\ tx_amount tx = Some "1"
       /\ tx_amount tx <> Some "1.0".
Proof.
  split; [reflexivity|]. split; [reflexivity|]. split; [vm_compute; reflexivity|].
  eexists. split; [vm_compute; reflexivity|].
  split; [reflexivity|]. split; [reflexivity | discriminate].
Qed.

(** Against C9 as stated: the raw [txTransfer] goes from [W1] to the
    token contract, neither of which is a key of the wallet index; it is
    a [transfer] to the monitored [W2], and a record is stored for it. *)
Lemma decoded_recipient_makes_a_record :
  let index :=
    walletIds getAllByWalletAddresses [extendTransaction lib erc20Abi txTransfer] in
  let s' := run_block [txTransfer] (successReceipt [transferLog]) emptyState in
  index !! W1 = None
  /\ index !! token = None
  /\ t_from txTransfer = Some W1
  /\ t_to txTransfer = Some token
  /\ txRep emptyState = []
  /\ exists tx,
       txRep s' = [tx]
       /\ transactionHash tx = t_hash txTransfer
       /\ tx_to tx = Some W2.
Proof.
  split; [vm_compute; reflexivity|].
  split; [vm_compute; reflexivity|].
  split; [reflexivity|]. split; [reflexivity|]. split; [reflexivity|].
  eexists. split; [vm_compute; reflexivity|]. split; reflexivity.
Qed.

(** * Further properties of the class *)

(** ** How a new transaction is registered *)

Section Registration.

Context (lib : Web3Lib) (erc20Abi : Erc20Abi).

(** The rewriting step never touches the hash or the input. *)
Lemma extendTransaction_keeps (t : EthTransaction) :
  t_hash (extendTransaction lib erc20Abi t) = t_hash t
  /\ t_input (extendTransaction lib erc20Abi t) = t_input t.
Proof.
  unfold extendTransaction. repeat case_match; simpl; auto.
Qed.

(** On an input that is ["0x"] it changes nothing. *)
Lemma extendTransaction_no_call_data (t : EthTransaction) :
  t_input t = "0x" -> extendTransaction lib erc20Abi t = mkExt t None.
Proof.
  intros Hin. apply extendTransaction_other_length; rewrite Hin; simpl; lia.
Qed.

(** The kind under which a transaction of a block is registered is
    decided by its raw input and by whether its raw value is truthy, and
    by nothing else: a native transfer when the input is ["0x"] and the
    value truthy; otherwise an ERC20 transfer when characters 2 to 10 of
    the input are the signature of [transfer]; otherwise it is not
    registered, and [processTransaction] then leaves the whole state as it
    is, whatever value the transaction carries. *)
Theorem registration_cases (t : EthTransaction) :
  let ethTx := extendTransaction lib erc20Abi t in
  let native := truthy (t_value t) = true /\ t_input t = "0x" in
  let transfer := slice 2 10 (t_input t) = transfer_methodSignature erc20Abi in
  (native ->
   exists tx, registerTransaction lib erc20Abi ethTx = Some tx
              /\ tx_type tx = Some ETHEREUM_TRANSFER)
  /\ (~ native -> transfer ->
      exists tx, registerTransaction lib erc20Abi ethTx = Some tx
                 /\ tx_type tx = Some ERC20_TRANSFER)
  /\ (~ native -> ~ transfer ->
      registerTransaction lib erc20Abi ethTx = None
      /\ forall web3 blockData walletsMap s,
           getByHash (t_hash t) (txRep s) = None ->
           processTransaction lib erc20Abi web3 ethTx blockData walletsMap s
           = (Ok tt, s)).
Proof.
  intros ethTx native transfer.
  destruct (extendTransaction_keeps t) as [Hhash Hinput].
  fold ethTx in Hhash, Hinput.
  assert (Hnat : ~ native ->
            truthy (t_value ethTx) && bool_decide (t_input ethTx = "0x") = false).
  { intros Hn. rewrite Hinput.
    destruct (bool_decide (t_input t = "0x")) eqn:Hb; [|apply andb_false_r].
    apply bool_decide_eq_true_1 in Hb.
    subst ethTx. rewrite (extendTransaction_no_call_data t Hb). simpl.
    destruct (truthy (t_value t)) eqn:Hv; [|reflexivity].
    exfalso. apply Hn. split; [reflexivity | exact Hb]. }
  split; [|split].
  - intros [Hv Hb]. subst ethTx. rewrite (extendTransaction_no_call_data t Hb).
    unfold registerTransaction. simpl. rewrite Hv, Hb. simpl.
    eexists. split; reflexivity.
  - intros Hn Htr. unfold registerTransaction, processNotRegisteredContractTransaction.
    rewrite (Hnat Hn), Hinput. fold transfer.
    rewrite (bool_decide_eq_true_2 _ Htr). eexists. split; reflexivity.
  - intros Hn Htr.
    assert (Hreg : registerTransaction lib erc20Abi ethTx = None).
    { unfold registerTransaction, processNotRegisteredContractTransaction.
      rewrite (Hnat Hn), Hinput. fold transfer.
      rewrite (bool_decide_eq_false_2 _ Htr). reflexivity. }
    split; [exact Hreg|].
    intros web3 blockData walletsMap s Hget.
    apply processTransaction_skip. rewrite Hhash, Hget. exact Hreg.
Qed.

End Registration.

(** A call of another method carrying one ether, sent by the monitored
    wallet, is not registered and leaves no trace. *)
Lemma registration_cases_sample :
  registerTransaction lib erc20Abi (extendTransaction lib erc20Abi txOtherCall) = None
  /\ run_block [txOtherCall] (successReceipt [transferLog]) emptyState = emptyState.
Proof.
  destruct (registration_cases lib erc20Abi txOtherCall) as (_ & _ & Hdrop).
  destruct Hdrop as [Hreg _].
  - intros [_ Hin]. discriminate Hin.
  - discriminate.
  - split; [exact Hreg | vm_compute; reflexivity].
Defined.

(** ** ERC20 calls that are rewritten *)

Section Rewritten.

Context (lib : Web3Lib) (erc20Abi : Erc20Abi) (web3 : Web3Eth).

(** A rewritten call is registered as an ERC20 transfer carrying what the
    rewriting put in it. *)
Lemma registerTransaction_rewritten (ethTx : ExtEthTransaction) :
  t_input ethTx <> "0x" ->
  slice 2 10 (t_input ethTx) = transfer_methodSignature erc20Abi ->
  exists tx,
    registerTransaction lib erc20Abi ethTx = Some tx
    /\ tx_type tx = Some ERC20_TRANSFER
    /\ tx_contractAddress tx = contractAddress ethTx
    /\ tx_from tx = t_from ethTx
    /\ tx_to tx = t_to ethTx
    /\ tx_amount tx = t_value ethTx.
Proof.
  intros H0x Hsig. unfold registerTransaction, processNotRegisteredContractTransaction.
  rewrite (bool_decide_eq_false_2 _ H0x), andb_false_r.
  rewrite (bool_decide_eq_true_2 _ Hsig).
  eexists. split; [reflexivity|]. simpl. repeat split; reflexivity.
Qed.

(** What is stored for a new transaction that is registered and has a
    receipt whose logs the decoder accepts: the registered record,
    reconciled. *)
Lemma processTransaction_stores_registered (ethTx : ExtEthTransaction) b walletsMap
    s tx receipt :
  getByHash (t_hash ethTx) (txRep s) = None ->
  registerTransaction lib erc20Abi ethTx = Some tx ->
  getTransactionReceipt web3 (t_hash ethTx) = Some receipt ->
  ~ Exists (decoderRejects lib erc20Abi) (receipt_logs receipt) ->
  exists saved,
    getByHash (t_hash ethTx)
      (txRep (finalState
                (processTransaction lib erc20Abi web3 ethTx (Some b) walletsMap) s))
    = Some saved
    /\ tx_type saved = tx_type tx
    /\ tx_contractAddress saved = tx_contractAddress tx
    /\ tx_from saved = tx_from tx
    /\ tx_to saved = tx_to tx
    /\ tx_amount saved = tx_amount tx.
Proof.
  intros Hget Hreg Hrec Hacc.
  assert (Hsel : underReconciliation lib erc20Abi (txRep s) ethTx tx).
  { unfold underReconciliation. rewrite Hget. exact Hreg. }
  destruct (reconciled lib erc20Abi receipt b tx) as [saved|] eqn:Hok.
  - exists saved. split.
    + apply (processTransaction_saved _ _ _ _ _ _ _ _ _ _ Hsel Hrec Hok).
    + destruct (reconciled_frame lib erc20Abi receipt b tx saved Hok)
        as (_ & _ & Hty & Hc & Hf & Ht & Ha & _). auto.
  - apply reconciled_throws in Hok as (_ & _ & Hex). contradiction.
Qed.

(** A [transfer] call of the expected length, seen for the first time
    with its receipt at hand, [decodeLog] throwing on none of the log
    entries of the receipt, is stored as an ERC20 transfer: the contract
    address is the [to] of the transaction, the sender its [from], the
    recipient the first decoded argument, and the amount the second
    decoded argument as [decodeParameters] returns it, without any
    conversion of units. *)
Theorem transfer_call_is_recorded (t : EthTransaction) b walletsMap s receipt :
  String.length (t_input t) = (2 + 8 + 64 + 64)%nat ->
  slice 2 10 (t_input t) = transfer_methodSignature erc20Abi ->
  getByHash (t_hash t) (txRep s) = None ->
  getTransactionReceipt web3 (t_hash t) = Some receipt ->
  ~ Exists (decoderRejects lib erc20Abi) (receipt_logs receipt) ->
  let methodArgs :=
    decodeParameters lib (transfer_inputs erc20Abi) (slice_from 10 (t_input t)) in
  exists saved,
    getByHash (t_hash t)
      (txRep (finalState
                (processTransaction lib erc20Abi web3
                   (extendTransaction lib erc20Abi t) (Some b) walletsMap) s))
    = Some saved
    /\ tx_type saved = Some ERC20_TRANSFER
    /\ tx_contractAddress saved = t_to t
    /\ tx_from saved = t_from t
    /\ tx_to saved = methodArgs !! 0%nat
    /\ tx_amount saved = methodArgs !! 1%nat.
Proof.
  intros Hlen Hsig Hget Hrec Hacc methodArgs.
  destruct (extendTransaction_transfer lib erc20Abi t Hlen Hsig)
    as (Hc & Hf & Ht & Hv & Hh & Hi).
  fold methodArgs in Ht, Hv.
  set (ethTx := extendTransaction lib erc20Abi t) in *.
  destruct (registerTransaction_rewritten ethTx)
    as (tx & Hreg & Hty & Hc' & Hf' & Ht' & Ha').
  { rewrite Hi. intros H0x. rewrite H0x in Hlen. discriminate. }
  { rewrite Hi. exact Hsig. }
  destruct (processTransaction_stores_registered ethTx b walletsMap s tx receipt)
    as (saved & Hsaved & Hty'' & Hc'' & Hf'' & Ht'' & Ha'').
  { rewrite Hh. exact Hget. }
  { exact Hreg. }
  { rewrite Hh. exact Hrec. }
  { exact Hacc. }
  exists saved. rewrite <- Hh. split; [exact Hsaved|].
  repeat split; congruence.
Qed.

(** A call that starts with the signature of [transfer] and has the
    length of an encoded [transferFrom] is decoded with the inputs of
    [transferFrom]: the record stored for it, once its receipt is
    available and [decodeLog] throws on none of its log entries, has the
    first decoded argument as sender, not the [from] of the transaction,
    the second as recipient and the third as amount. *)
Theorem three_word_transfer_takes_sender_from_call_data (t : EthTransaction) b
    walletsMap s receipt :
  String.length (t_input t) = (2 + 8 + 64 + 64 + 64)%nat ->
  slice 2 10 (t_input t) = transfer_methodSignature erc20Abi ->
  getByHash (t_hash t) (txRep s) = None ->
  getTransactionReceipt web3 (t_hash t) = Some receipt ->
  ~ Exists (decoderRejects lib erc20Abi) (receipt_logs receipt) ->
  let methodArgs :=
    decodeParameters lib (transferFrom_inputs erc20Abi) (slice_from 10 (t_input t)) in
  exists saved,
    getByHash (t_hash t)
      (txRep (finalState
                (processTransaction lib erc20Abi web3
                   (extendTransaction lib erc20Abi t) (Some b) walletsMap) s))
    = Some saved
    /\ tx_type saved = Some ERC20_TRANSFER
    /\ tx_contractAddress saved = t_to t
    /\ tx_from saved = methodArgs !! 0%nat
    /\ tx_to saved = methodArgs !! 1%nat
    /\ tx_amount saved = methodArgs !! 2%nat.
Proof.
  intros Hlen Hsig Hget Hrec Hacc methodArgs.
  assert (Hext : extendTransaction lib erc20Abi t
                 = mkExt (mkEthTransaction (t_hash t) (methodArgs !! 0%nat)
                            (methodArgs !! 1%nat) (methodArgs !! 2%nat) (t_input t)
                            (t_gas t) (t_gasPrice t) (t_blockNumber t))
                     (t_to t)).
  { unfold extendTransaction.
    rewrite (bool_decide_eq_false_2
               (String.length (t_input t) = (2 + 8 + 64 + 64)%nat))
      by (rewrite Hlen; discriminate).
    rewrite (bool_decide_eq_true_2 _ Hlen), (bool_decide_eq_true_2 _ Hsig).
    reflexivity. }
  rewrite Hext.
  match goal with |- context [processTransaction _ _ _ ?e] => set (ethTx := e) end.
  destruct (registerTransaction_rewritten ethTx)
    as (tx & Hreg & Hty & Hc' & Hf' & Ht' & Ha').
  { simpl. intros H0x. rewrite H0x in Hlen. discriminate. }
  { exact Hsig. }
  destruct (processTransaction_stores_registered ethTx b walletsMap s tx receipt)
    as (saved & Hsaved & Hty'' & Hc'' & Hf'' & Ht'' & Ha''); auto.
  exists saved. split; [exact Hsaved|].
  subst ethTx. simpl in Hc', Hf', Ht', Ha'. repeat split; congruence.
Qed.

(** ** The block of a reconciliation *)

(** Without the block at hand, [processTransaction] fetches it by the
    number the transaction carries: when the node has it, the call does
    what it does with that block at hand; when the node has none and
    there is a record to reconcile with a receipt, the call rejects after
    the receipt request and before any save, so the repository is as it
    was. *)
Theorem reconciliation_needs_a_block (ethTx : ExtEthTransaction) walletsMap s :
  (forall b,
     getBlock web3 (t_blockNumber ethTx) = Some b ->
     processTransaction lib erc20Abi web3 ethTx None walletsMap s
     = processTransaction lib erc20Abi web3 ethTx (Some b) walletsMap s)
  /\ (forall tx receipt,
        getBlock web3 (t_blockNumber ethTx) = None ->
        underReconciliation lib erc20Abi (txRep s) ethTx tx ->
        getTransactionReceipt web3 (t_hash ethTx) = Some receipt ->
        processTransaction lib erc20Abi web3 ethTx None walletsMap s
        = (Throw,
           mkState (txRep s) (lastCheckingBlock s)
             (receiptRequests s ++ [t_hash ethTx]))).
Proof.
  split.
  - intros b Hb. unfold processTransaction. rewrite Hb. reflexivity.
  - intros tx receipt Hb Hsel Hrec.
    rewrite (processTransaction_with_receipt _ _ _ _ _ _ _ _ _ Hsel Hrec). cbv zeta.
    rewrite Hb. destruct (checkTransferEvent _ _ _ _); reflexivity.
Qed.

End Rewritten.

(** The [transfer] of 5 units to [W2] is stored with the token contract
    as contract address, [W2] as recipient and 5 as amount. *)
Lemma transfer_call_is_recorded_sample :
  exists saved,
    getByHash "0xB"
      (txRep (run_block [txTransfer] (successReceipt [transferLog]) emptyState))
    = Some saved
    /\ tx_type saved = Some ERC20_TRANSFER
    /\ tx_contractAddress saved = Some token
    /\ tx_from saved = Some W1
    /\ tx_to saved = Some W2
    /\ tx_amount saved = Some "5".
Proof.
  apply (transfer_call_is_recorded lib erc20Abi
           (node 100 [txTransfer] (successReceipt [transferLog])) txTransfer
           (block100 [txTransfer])
           (walletIds getAllByWalletAddresses
              (map (extendTransaction lib erc20Abi) [txTransfer]))
           emptyState (mkReceipt "0x1" [transferLog])); try reflexivity.
  intros Hex. apply Exists_cons in Hex as [Hex|Hex];
    [discriminate Hex | apply Exists_nil in Hex; exact Hex].
Defined.

(** The three-word call is sent by [W3], which belongs to no user; it is
    stored as a transfer from the monitored [W2] to [W1]. *)
Lemma three_word_transfer_sample :
  t_from txThreeWords = Some W3
  /\ exists saved,
       getByHash "0xF"
         (txRep (run_block [txThreeWords] (successReceipt [transferLog]) emptyState))
       = Some saved
       /\ tx_type saved = Some ERC20_TRANSFER
       /\ tx_contractAddress saved = Some token
       /\ tx_from saved = Some W2
       /\ tx_to saved = Some W1
       /\ tx_amount saved = Some "5".
Proof.
  split; [reflexivity|].
  apply (three_word_transfer_takes_sender_from_call_data lib erc20Abi
           (node 100 [txThreeWords] (successReceipt [transferLog])) txThreeWords
           (block100 [txThreeWords])
           (walletIds getAllByWalletAddresses
              (map (extendTransaction lib erc20Abi) [txThreeWords]))
           emptyState (mkReceipt "0x1" [transferLog])); try reflexivity.
  intros Hex. apply Exists_cons in Hex as [Hex|Hex];
    [discriminate Hex | apply Exists_nil in Hex; exact Hex].
Defined.

(** Without a block at hand, [txA] is reconciled with block 100 fetched
    from the node; the same transfer said to be in block 7 makes the call
    reject with the repository untouched. *)
Lemma reconciliation_needs_a_block_sample :
  processTransaction lib erc20Abi (node 100 [txA] (successReceipt []))
    (extendTransaction lib erc20Abi txA) None ∅ emptyState
  = processTransaction lib erc20Abi (node 100 [txA] (successReceipt []))
      (extendTransaction lib erc20Abi txA) (Some (block100 [txA])) ∅ emptyState
  /\ processTransaction lib erc20Abi (node 100 [txA] (successReceipt []))
       (extendTransaction lib erc20Abi txOrphan) None ∅ emptyState
     = (Throw, mkState [] 0 ["0xA"]).
Proof.
  split.
  - apply (reconciliation_needs_a_block lib erc20Abi
             (node 100 [txA] (successReceipt []))
             (extendTransaction lib erc20Abi txA) ∅ emptyState).
    reflexivity.
  - eapply (reconciliation_needs_a_block lib erc20Abi
              (node 100 [txA] (successReceipt []))
              (extendTransaction lib erc20Abi txOrphan) ∅ emptyState).
    + reflexivity.
    + lazy. reflexivity.
    + reflexivity.
Defined.

(** ** Passes over a block *)

Lemma filter_none {A : Type} (P : A -> Prop) `{forall x, Decision (P x)} (l : list A) :
  (forall x, x ∈ l -> ~ P x) -> filter P l = [].
Proof.
  induction l as [|a l IH]; intros Hnone; [reflexivity|].
  rewrite filter_cons_False.
  - apply IH. intros x Hin. apply Hnone. apply elem_of_cons. right. exact Hin.
  - apply Hnone. apply elem_of_cons. left. reflexivity.
Qed.

Section BlockPasses.

Context (lib : Web3Lib) (erc20Abi : Erc20Abi) (web3 : Web3Eth).
Context (getAllByWalletAddresses : list string -> list User).

(** At most one receipt is requested by [processTransaction], and it is
    the receipt of its transaction. *)
Lemma processTransaction_requests (ethTx : ExtEthTransaction) blockData walletsMap s :
  let s' :=
    finalState (processTransaction lib erc20Abi web3 ethTx blockData walletsMap) s in
  receiptRequests s' = receiptRequests s
  \/ receiptRequests s' = (receiptRequests s ++ [t_hash ethTx])%list.
Proof.
  unfold finalState.
  destruct (underReconciliation_cases lib erc20Abi (txRep s) ethTx)
    as [Hskip | [tx Hsel]].
  - rewrite processTransaction_skip by assumption. auto.
  - destruct (getTransactionReceipt web3 (t_hash ethTx)) as [receipt|] eqn:Hrec.
    + rewrite (processTransaction_with_receipt _ _ _ _ _ _ _ _ _ Hsel Hrec). cbv zeta.
      repeat case_match; simpl; auto.
    + rewrite (processTransaction_no_receipt _ _ _ _ _ _ _ _ Hsel Hrec). simpl. auto.
Qed.

Lemma processTransaction_lookup_other (ethTx : ExtEthTransaction) blockData
    walletsMap s hash :
  t_hash ethTx <> hash ->
  getByHash hash
    (txRep (finalState
              (processTransaction lib erc20Abi web3 ethTx blockData walletsMap) s))
  = getByHash hash (txRep s).
Proof.
  intros Hne. rewrite !getByHash_recordsOf.
  rewrite (processTransaction_other_hash lib erc20Abi web3 ethTx blockData walletsMap
             s hash Hne).
  reflexivity.
Qed.

(** The record found under the hash of a transaction after its
    reconciliation depends on the repository through the record found
    under that hash before, and through nothing else. *)
Lemma processTransaction_lookup_local (ethTx : ExtEthTransaction) b walletsMap
    walletsMap' s s0 :
  getByHash (t_hash ethTx) (txRep s) = getByHash (t_hash ethTx) (txRep s0) ->
  getByHash (t_hash ethTx)
    (txRep (finalState
              (processTransaction lib erc20Abi web3 ethTx (Some b) walletsMap) s))
  = getByHash (t_hash ethTx)
      (txRep (finalState
                (processTransaction lib erc20Abi web3 ethTx (Some b) walletsMap') s0)).
Proof.
  intros Heq.
  destruct (underReconciliation_cases lib erc20Abi (txRep s) ethTx)
    as [Hskip | [tx Hsel]].
  - unfold finalState. rewrite !processTransaction_skip; simpl; [exact Heq | | exact Hskip].
    rewrite <- Heq. exact Hskip.
  - assert (Hsel0 : underReconciliation lib erc20Abi (txRep s0) ethTx tx).
    { unfold underReconciliation in *. rewrite <- Heq. exact Hsel. }
    destruct (getTransactionReceipt web3 (t_hash ethTx)) as [receipt|] eqn:Hrec.
    + destruct (reconciled lib erc20Abi receipt b tx) as [tx'|] eqn:Hok.
      * rewrite (processTransaction_saved _ _ _ _ _ _ _ _ _ _ Hsel Hrec Hok),
          (processTransaction_saved _ _ _ _ _ _ _ _ _ _ Hsel0 Hrec Hok).
        reflexivity.
      * apply (reconciled_checkThrows lib erc20Abi web3 _ receipt b tx Hrec) in Hok.
        unfold finalState.
        rewrite (processTransaction_rejects _ _ _ _ _ _ _ _ Hsel Hok),
          (processTransaction_rejects _ _ _ _ _ _ _ _ Hsel0 Hok).
        exact Heq.
    + unfold finalState.
      rewrite (processTransaction_no_receipt _ _ _ _ _ _ _ _ Hsel Hrec),
        (processTransaction_no_receipt _ _ _ _ _ _ _ _ Hsel0 Hrec).
      exact Heq.
Qed.

(** *** Settled transactions *)

Lemma settled_no_change (ethTx : ExtEthTransaction) blockData walletsMap s :
  settled lib erc20Abi web3 (txRep s) ethTx ->
  txRep (finalState (processTransaction lib erc20Abi web3 ethTx blockData walletsMap) s)
  = txRep s.
Proof.
  unfold settled. intros Hs.
  destruct (processTransaction_effect lib erc20Abi web3 ethTx blockData walletsMap s)
    as [_ [Heq | (tx & receipt & b & tx' & Hsel & Hrec & Hok & _)]]; [exact Heq|].
  exfalso.
  assert (Hno : ~ checkThrows lib erc20Abi web3 (t_hash ethTx) tx).
  { intros Hthrow.
    apply (reconciled_checkThrows lib erc20Abi web3 _ receipt b tx Hrec) in Hthrow.
    congruence. }
  unfold underReconciliation in Hsel.
  destruct (getByHash (t_hash ethTx) (txRep s)) as [stored|].
  - destruct Hsel as [-> Hp]. destruct Hs as [Hs|[Hs|Hs]]; [congruence.. | auto].
  - destruct Hs as [Hs|[Hs|(tx0 & Hreg & Hs)]]; [congruence.. |].
    rewrite Hsel in Hreg. injection Hreg as <-. auto.
Qed.

Lemma settled_after (ethTx : ExtEthTransaction) b walletsMap s :
  settled lib erc20Abi web3
    (txRep (finalState
              (processTransaction lib erc20Abi web3 ethTx (Some b) walletsMap) s))
    ethTx.
Proof.
  destruct (underReconciliation_cases lib erc20Abi (txRep s) ethTx)
    as [Hskip | [tx Hsel]].
  - unfold finalState. rewrite processTransaction_skip by exact Hskip. simpl.
    unfold settled. destruct (getByHash _ _); auto.
  - destruct (getTransactionReceipt web3 (t_hash ethTx)) as [receipt|] eqn:Hrec.
    + destruct (reconciled lib erc20Abi receipt b tx) as [tx'|] eqn:Hok.
      * unfold settled.
        rewrite (processTransaction_saved _ _ _ _ _ _ _ _ _ _ Hsel Hrec Hok).
        left. destruct (reconciled_terminal lib erc20Abi receipt b tx tx' Hok) as [H|H];
          rewrite H; discriminate.
      * apply (reconciled_checkThrows lib erc20Abi web3 _ receipt b tx Hrec) in Hok.
        unfold finalState.
        rewrite (processTransaction_rejects _ _ _ _ _ _ _ _ Hsel Hok). simpl.
        unfold settled, underReconciliation in *.
        destruct (getByHash _ _) as [stored|].
        -- destruct Hsel as [-> _]. auto.
        -- right. right. exists tx. auto.
    + unfold finalState.
      rewrite (processTransaction_no_receipt _ _ _ _ _ _ _ _ Hsel Hrec). simpl.
      unfold settled. destruct (getByHash _ _); auto.
Qed.

Lemma settled_preserved (ethTx ethTx' : ExtEthTransaction) blockData walletsMap s :
  settled lib erc20Abi web3 (txRep s) ethTx' ->
  settled lib erc20Abi web3
    (txRep (finalState
              (processTransaction lib erc20Abi web3 ethTx blockData walletsMap) s))
    ethTx'.
Proof.
  intros Hs.
  destruct (decide (t_hash ethTx = t_hash ethTx')) as [Heq|Hne].
  - destruct (processTransaction_effect lib erc20Abi web3 ethTx blockData walletsMap s)
      as [_ [-> | (tx & receipt & b & tx' & Hsel & _ & Hok & ->)]]; [exact Hs|].
    unfold settled.
    rewrite <- Heq, <- (underReconciliation_hash _ _ _ _ _ Hsel).
    rewrite <- (reconciled_hash lib erc20Abi receipt b tx tx' Hok), getByHash_save_eq.
    left. destruct (reconciled_terminal lib erc20Abi receipt b tx tx' Hok) as [H|H];
      rewrite H; discriminate.
  - unfold settled in *.
    rewrite processTransaction_lookup_other by exact Hne. exact Hs.
Qed.

(** After the transactions of a list have been reconciled in a row, each
    of them is settled. *)
Lemma processAsyncItemsByChunks_settles b walletsMap (items : list ExtEthTransaction)
    chunkSize s :
  Forall
    (settled lib erc20Abi web3
       (txRep (finalState
                 (processAsyncItemsByChunks items chunkSize
                    (fun transaction =>
                       processTransaction lib erc20Abi web3 transaction (Some b)
                         walletsMap)) s)))
    items.
Proof.
  revert s. induction items as [|item items IH]; intros s; [constructor|].
  unfold finalState in *. simpl. unfold mbind, M_bind.
  rewrite try_catch_run. constructor; [|apply IH].
  match goal with
  | |- settled _ _ _ (txRep (snd (processAsyncItemsByChunks ?l ?c ?f ?s1))) _ =>
      apply (processAsyncItemsByChunks_preserves
               (fun s' => settled lib erc20Abi web3 (txRep s') item) l c f)
  end.
  - intros item' s' _ Hs. apply settled_preserved. exact Hs.
  - apply settled_after.
Qed.

(** Reconciling settled transactions changes nothing in the repository. *)
Lemma processAsyncItemsByChunks_settled b walletsMap (items : list ExtEthTransaction)
    chunkSize s :
  Forall (settled lib erc20Abi web3 (txRep s)) items ->
  txRep (finalState
           (processAsyncItemsByChunks items chunkSize
              (fun transaction =>
                 processTransaction lib erc20Abi web3 transaction (Some b) walletsMap))
           s)
  = txRep s.
Proof.
  intros Hall.
  apply (processAsyncItemsByChunks_preserves (fun s' => txRep s' = txRep s));
    [|reflexivity].
  intros item s' Hin Heq.
  rewrite settled_no_change; [exact Heq|].
  rewrite Heq. rewrite Forall_forall in Hall. apply Hall. exact Hin.
Qed.

Lemma processTransactionsInBlock_twice blockData s :
  let pass :=
    processTransactionsInBlock lib erc20Abi web3 getAllByWalletAddresses blockData in
  txRep (finalState pass (finalState pass s)) = txRep (finalState pass s).
Proof.
  intros pass.
  assert (Hshape :
            (forall s0, pass s0 = (Ok tt, s0))
            \/ exists b walletsMap (items : list ExtEthTransaction),
                 forall s0,
                   pass s0
                   = processAsyncItemsByChunks items
                       CONCURRENT_TRANSACTIONS_PROCESS_COUNT
                       (fun transaction =>
                          processTransaction lib erc20Abi web3 transaction (Some b)
                            walletsMap) s0).
  { subst pass. unfold processTransactionsInBlock.
    destruct blockData as [b|]; [|left; reflexivity].
    case_bool_decide; [left; reflexivity|].
    unfold getWalletMapInTransactions, mbind, M_bind, mret, M_ret.
    case_bool_decide; [left; reflexivity|].
    right. eexists _, _, _. intros s0. reflexivity. }
  destruct Hshape as [Hret | (b & walletsMap & items & Hfold)].
  - unfold finalState. rewrite !Hret. reflexivity.
  - unfold finalState. rewrite !Hfold.
    apply processAsyncItemsByChunks_settled.
    apply processAsyncItemsByChunks_settles.
Qed.

(** Processing a block a second time, the node answering as it did the
    first time, leaves the repository as the first pass left it. *)
Theorem block_pass_is_idempotent blockData s :
  let pass :=
    processTransactionsInBlock lib erc20Abi web3 getAllByWalletAddresses blockData in
  txRep (finalState pass (finalState pass s)) = txRep (finalState pass s).
Proof. apply processTransactionsInBlock_twice. Qed.

(** *** Receipt requests *)

(** Every receipt requested while a block is processed is the receipt of
    a transaction of the block that, once rewritten, has its [from] or
    its [to] in the wallet index; and when no transaction of the block
    has, the whole state is left as it is. *)
Theorem receipts_are_requested_for_involved_transactions b s :
  let sourceTransactions := map (extendTransaction lib erc20Abi) (block_transactions b) in
  let wallets := walletIds getAllByWalletAddresses sourceTransactions in
  let s' :=
    finalState
      (processTransactionsInBlock lib erc20Abi web3 getAllByWalletAddresses (Some b)) s in
  (exists requested,
     receiptRequests s' = (receiptRequests s ++ requested)%list
     /\ forall hash, hash ∈ requested ->
          exists ethTx : ExtEthTransaction,
            ethTx ∈ sourceTransactions
            /\ involvesWallet wallets ethTx
            /\ t_hash ethTx = hash)
  /\ ((forall ethTx, ethTx ∈ sourceTransactions -> ~ involvesWallet wallets ethTx) ->
      processTransactionsInBlock lib erc20Abi web3 getAllByWalletAddresses (Some b) s
      = (Ok tt, s)).
Proof.
  intros sourceTransactions wallets s'. split.
  - set (P := fun s1 : State =>
                exists requested,
                  receiptRequests s1 = (receiptRequests s ++ requested)%list
                  /\ forall hash, hash ∈ requested ->
                       exists ethTx : ExtEthTransaction,
                         ethTx ∈ sourceTransactions
                         /\ involvesWallet wallets ethTx
                         /\ t_hash ethTx = hash).
    apply (processTransactionsInBlock_preserves lib erc20Abi web3
             getAllByWalletAddresses P (Some b)).
    + intros b' ethTx s1 [= <-] Hin Hinv (requested & Hreq & Hall).
      destruct (processTransaction_requests ethTx (Some b) wallets s1) as [Hr|Hr];
        unfold P; fold sourceTransactions wallets; rewrite Hr, Hreq.
      * exists requested. auto.
      * exists (requested ++ [t_hash ethTx])%list. rewrite app_assoc. split; [reflexivity|].
        intros hash Hh. apply elem_of_app in Hh as [Hh|Hh]; [auto|].
        apply list_elem_of_singleton in Hh. subst hash. exists ethTx. auto.
    + exists []. rewrite app_nil_r. split; [reflexivity|].
      intros hash Hh. apply elem_of_nil in Hh. contradiction.
  - intros Hnone. unfold processTransactionsInBlock.
    case_bool_decide; [reflexivity|].
    unfold getWalletMapInTransactions, mbind, M_bind, mret, M_ret.
    case_bool_decide; [reflexivity|].
    fold sourceTransactions wallets.
    assert (Hnil : filterTransactionByWalletAddresses wallets sourceTransactions = []).
    { unfold filterTransactionByWalletAddresses. apply filter_none. exact Hnone. }
    rewrite Hnil. reflexivity.
Qed.

End BlockPasses.

(** ** The order in which transactions are reconciled *)

Section CompletionOrder.

Context (lib : Web3Lib) (erc20Abi : Erc20Abi) (web3 : Web3Eth).
Context (b : Block) (walletsMap : gmap string (list Wallet)).

Let reconcileAll (items : list ExtEthTransaction) (chunkSize : nat) : M unit :=
  processAsyncItemsByChunks items chunkSize
    (fun transaction =>
       processTransaction lib erc20Abi web3 transaction (Some b) walletsMap).

(** A hash that none of the transactions has is left alone. *)
Lemma reconcileAll_lookup_absent (items : list ExtEthTransaction) chunkSize s hash :
  (forall ethTx : ExtEthTransaction, ethTx ∈ items -> t_hash ethTx <> hash) ->
  getByHash hash (txRep (finalState (reconcileAll items chunkSize) s))
  = getByHash hash (txRep s).
Proof.
  intros Hnone. unfold reconcileAll.
  apply (processAsyncItemsByChunks_preserves
           (fun s' => getByHash hash (txRep s') = getByHash hash (txRep s)));
    [|reflexivity].
  intros item s' Hin Heq. rewrite processTransaction_lookup_other; auto.
Qed.

(** With distinct hashes, the record found under the hash of one of the
    transactions after all have been reconciled is the one found after
    that transaction alone has been. *)
Lemma reconcileAll_lookup_present (items : list ExtEthTransaction) chunkSize s
    (ethTx : ExtEthTransaction) :
  NoDup (map (fun e : ExtEthTransaction => t_hash e) items) ->
  ethTx ∈ items ->
  getByHash (t_hash ethTx) (txRep (finalState (reconcileAll items chunkSize) s))
  = getByHash (t_hash ethTx)
      (txRep (finalState
                (processTransaction lib erc20Abi web3 ethTx (Some b) walletsMap) s)).
Proof.
  revert s. induction items as [|item items IH]; intros s Hnd Hin.
  - apply elem_of_nil in Hin. contradiction.
  - simpl in Hnd. apply NoDup_cons in Hnd as [Hfresh Hnd].
    unfold reconcileAll, finalState in *. simpl. unfold mbind, M_bind.
    rewrite try_catch_run.
    apply elem_of_cons in Hin as [-> | Hin].
    + apply (reconcileAll_lookup_absent items chunkSize).
      intros e He Heq. apply Hfresh. rewrite <- Heq.
      apply (list_elem_of_fmap_2 (fun e : ExtEthTransaction => t_hash e)). exact He.
    + rewrite (IH _ Hnd Hin).
      apply processTransaction_lookup_local.
      apply processTransaction_lookup_other.
      intros Heq. apply Hfresh. rewrite Heq.
      apply (list_elem_of_fmap_2 (fun e : ExtEthTransaction => t_hash e)). exact Hin.
Qed.

(** The transactions handed to [processAsyncItemsByChunks] may complete
    in any order: when their hashes are distinct, the record found under
    any hash afterwards is the same for every order, and for every chunk
    size. *)
Theorem completion_order_is_immaterial (items items' : list ExtEthTransaction)
    chunkSize chunkSize' s hash :
  NoDup (map (fun e : ExtEthTransaction => t_hash e) items) ->
  items ≡ₚ items' ->
  getByHash hash
    (txRep (finalState
              (processAsyncItemsByChunks items chunkSize
                 (fun transaction =>
                    processTransaction lib erc20Abi web3 transaction (Some b)
                      walletsMap)) s))
  = getByHash hash
      (txRep (finalState
                (processAsyncItemsByChunks items' chunkSize'
                   (fun transaction =>
                      processTransaction lib erc20Abi web3 transaction (Some b)
                        walletsMap)) s)).
Proof.
  intros Hnd Hperm.
  assert (Hnd' : NoDup (map (fun e : ExtEthTransaction => t_hash e) items')).
  { rewrite <- Hperm. exact Hnd. }
  fold (reconcileAll items chunkSize) (reconcileAll items' chunkSize').
  destruct (decide (Exists (fun e : ExtEthTransaction => t_hash e = hash) items))
    as [Hex|Hno].
  - apply Exists_exists in Hex as (ethTx & Hin & <-).
    rewrite (reconcileAll_lookup_present items chunkSize s ethTx Hnd Hin).
    rewrite (reconcileAll_lookup_present items' chunkSize' s ethTx Hnd').
    + reflexivity.
    + rewrite <- Hperm. exact Hin.
  - rewrite !reconcileAll_lookup_absent; [reflexivity | |].
    + intros e He Heq. apply Hno. apply Exists_exists. exists e.
      split; [rewrite Hperm; exact He | exact Heq].
    + intros e He Heq. apply Hno. apply Exists_exists. exists e. auto.
Qed.

End CompletionOrder.

(** ** The wallet index *)

Section WalletIndex.

Context (getAllByWalletAddresses : list string -> list User).

Lemma distinct_spec (l seen : list string) :
  NoDup (distinct l seen)
  /\ forall x, x ∈ distinct l seen <-> x ∈ l /\ x ∉ seen.
Proof.
  revert seen. induction l as [|a l IH]; intros seen; simpl.
  - split; [apply NoDup_nil_2|]. intros x. split.
    + intros Hx. apply elem_of_nil in Hx. contradiction.
    + intros [Hx _]. exact Hx.
  - case_bool_decide as Ha.
    + destruct (IH seen) as [Hnd Hiff]. split; [exact Hnd|].
      intros x. rewrite Hiff, elem_of_cons. split.
      * intros [Hx Hs]. auto.
      * intros [[-> | Hx] Hs]; [contradiction | auto].
    + destruct (IH (a :: seen)) as [Hnd Hiff]. split.
      * apply NoDup_cons. split; [|exact Hnd].
        rewrite Hiff. intros [_ Hs]. apply Hs. apply elem_of_cons. left. reflexivity.
      * intros x. rewrite !elem_of_cons, Hiff, elem_of_cons. split.
        -- intros [-> | [Hx Hs]]; [auto|]. split; [auto|].
           intros Hseen. apply Hs. right. exact Hseen.
        -- intros [[-> | Hx] Hs]; [auto|].
           destruct (decide (x = a)) as [-> | Hne]; [auto|].
           right. split; [exact Hx|]. intros [Heq | Hseen]; contradiction.
Qed.

Lemma txMaps_spec (transactions : list ExtEthTransaction) a :
  a ∈ txMaps transactions
  <-> a <> ""
      /\ exists t : ExtEthTransaction,
           t ∈ transactions /\ (t_from t = Some a \/ t_to t = Some a).
Proof.
  unfold txMaps. rewrite list_elem_of_omap. split.
  - intros (o & Hin & Ho).
    assert (Hoa : o = Some a /\ a <> "").
    { destruct o as [x|]; simpl in Ho; [|discriminate].
      case_bool_decide as Hx; simpl in Ho; [discriminate|].
      injection Ho as <-. auto. }
    destruct Hoa as [-> Hne]. split; [exact Hne|].
    apply elem_of_app in Hin as [Hin|Hin];
      apply list_elem_of_fmap in Hin as (t & Ht & Hin); symmetry in Ht;
      exists t; auto.
  - intros (Hne & t & Hin & Ht). exists (Some a). split.
    + apply elem_of_app.
      destruct Ht as [Ht|Ht]; [left | right]; rewrite <- Ht.
      * apply (list_elem_of_fmap_2 (fun t : ExtEthTransaction => t_from t)).
        exact Hin.
      * apply (list_elem_of_fmap_2 (fun t : ExtEthTransaction => t_to t)).
        exact Hin.
    + simpl. rewrite bool_decide_eq_false_2 by exact Hne. reflexivity.
Qed.

(** The addresses handed to [getAllByWalletAddresses] for a batch of
    transactions are the [from] and [to] addresses of the batch that are
    neither absent nor empty, each of them once. *)
Theorem addresses_looked_up (transactions : list ExtEthTransaction) :
  let asked := distinct (txMaps transactions) [] in
  NoDup asked
  /\ forall a,
       a ∈ asked
       <-> a <> ""
           /\ exists t : ExtEthTransaction,
                t ∈ transactions /\ (t_from t = Some a \/ t_to t = Some a).
Proof.
  intros asked. destruct (distinct_spec (txMaps transactions) []) as [Hnd Hiff].
  split; [exact Hnd|].
  intros a. subst asked. rewrite Hiff, <- txMaps_spec. split.
  - intros [Ha _]. exact Ha.
  - intros Ha. split; [exact Ha|]. apply not_elem_of_nil.
Qed.

Lemma pushWallet_lookup (m : gmap string (list Wallet)) (ws : list Wallet) a :
  foldl pushWallet m ws !! a
  = match filter (fun w => address w = a) ws with
    | [] => m !! a
    | group => Some (default [] (m !! a) ++ group)%list
    end.
Proof.
  revert m. induction ws as [|w ws IH]; intros m; simpl; [reflexivity|].
  rewrite IH, filter_cons. unfold pushWallet at 1 2.
  case_decide as Hw.
  - rewrite Hw, lookup_insert_eq. simpl.
    destruct (filter (fun w0 => address w0 = a) ws) as [|w' group];
      [reflexivity|].
    rewrite <- app_assoc. reflexivity.
  - rewrite lookup_insert_ne by exact Hw. reflexivity.
Qed.

Lemma filter_address_among (keys : list string) (ws : list Wallet) a :
  filter (fun w => address w = a) (filter (fun w => address w ∈ keys) ws)
  = if bool_decide (a ∈ keys) then filter (fun w => address w = a) ws else [].
Proof.
  induction ws as [|w ws IH]; [case_bool_decide; reflexivity|].
  rewrite (filter_cons (fun w => address w ∈ keys)).
  destruct (decide (address w ∈ keys)) as [Hk|Hk];
    destruct (decide (address w = a)) as [Hw|Hw].
  - rewrite !filter_cons_True by assumption. rewrite IH.
    rewrite bool_decide_eq_true_2; [reflexivity|]. rewrite <- Hw. exact Hk.
  - rewrite !filter_cons_False by assumption. exact IH.
  - rewrite filter_cons_True by assumption. rewrite IH.
    rewrite bool_decide_eq_false_2; [reflexivity|]. rewrite <- Hw. exact Hk.
  - rewrite filter_cons_False by assumption. exact IH.
Qed.

(** The index built for a batch maps an address to the wallets with that
    address among the wallets of the users the repository returned, in
    the order they were returned, provided the address is a non-empty
    [from] or [to] of the batch and there is at least one such wallet; it
    has no entry for any other address, whatever the repository
    returned. *)
Theorem wallet_index_groups_by_address (transactions : list ExtEthTransaction) a :
  let keys := txMaps transactions in
  let returned := concat (map wallets (getAllByWalletAddresses (distinct keys []))) in
  let group := filter (fun w => address w = a) returned in
  walletIds getAllByWalletAddresses transactions !! a
  = if bool_decide (a ∈ keys /\ group <> []) then Some group else None.
Proof.
  intros keys returned group. unfold walletIds. fold keys. fold returned.
  rewrite pushWallet_lookup, filter_address_among. fold group.
  rewrite lookup_empty. simpl.
  case_bool_decide as Hk.
  - destruct group as [|w g].
    + rewrite bool_decide_eq_false_2; [reflexivity|]. intros [_ Hg]. congruence.
    + rewrite bool_decide_eq_true_2; [reflexivity|]. split; [exact Hk | discriminate].
  - rewrite bool_decide_eq_false_2; [reflexivity|]. intros [Hk' _]. contradiction.
Qed.

End WalletIndex.

(** ** Where a sweep starts *)

Section SweepStart.

Context (lib : Web3Lib) (erc20Abi : Erc20Abi) (startBlock : Z).
Context (getAllByWalletAddresses : list string -> list User).

Lemma checkTransactions_unfold web3 s :
  let head := getBlockNumber web3 in
  let start := sweepStart startBlock head s in
  checkTransactions lib erc20Abi startBlock web3 getAllByWalletAddresses s
  = (processAsyncIntRangeByChunks start head 1 CONCURRENT_BLOCK_PROCESS_COUNT
       (processBlockNumber lib erc20Abi web3 getAllByWalletAddresses);;
     set_lastCheckingBlock (head - 10);;
     mret true)
      (mkState (txRep s) start (receiptRequests s)).
Proof.
  intros head start.
  subst start head. unfold checkTransactions, sweepStart.
  unfold mbind at 1 2 3 4 5 6. unfold M_bind at 1 2 3 4 5 6.
  unfold get_lastCheckingBlock, txRep_findMaxBlockNumber. simpl.
  destruct s as [db cursor requests]. simpl.
  destruct (bool_decide (cursor = 0)) eqn:Hc; simpl.
  - match goal with
    | |- context [bool_decide (?n = 0)] => destruct (bool_decide (n = 0)) eqn:Hr
    end; simpl; reflexivity.
  - rewrite Hc. simpl. reflexivity.
Qed.

(** A sweep is the processing of the block numbers from [sweepStart] to
    the head, followed by the assignment of the cursor. The start is the
    cursor when the cursor is set, and then neither the configured start
    block nor the stored records play a part; when the cursor is not set,
    the start is either at or after the configured start block, or four
    blocks before the head. *)
Theorem sweep_start_block web3 s :
  let head := getBlockNumber web3 in
  let start := sweepStart startBlock head s in
  checkTransactions lib erc20Abi startBlock web3 getAllByWalletAddresses s
  = (processAsyncIntRangeByChunks start head 1 CONCURRENT_BLOCK_PROCESS_COUNT
       (processBlockNumber lib erc20Abi web3 getAllByWalletAddresses);;
     set_lastCheckingBlock (head - 10);;
     mret true)
      (mkState (txRep s) start (receiptRequests s))
  /\ (lastCheckingBlock s <> 0 -> start = lastCheckingBlock s)
  /\ (lastCheckingBlock s = 0 -> startBlock <= start \/ start = head - 4).
Proof.
  intros head start. split; [|split].
  - apply checkTransactions_unfold.
  - intros Hne. subst start. unfold sweepStart.
    rewrite bool_decide_eq_false_2 by exact Hne. reflexivity.
  - intros Hz. subst start. unfold sweepStart.
    rewrite bool_decide_eq_true_2 by exact Hz.
    cbv zeta. case_bool_decide; [right; reflexivity | left; apply Z.le_max_r].
Qed.

End SweepStart.

(** ** The further properties on the sample *)

(** A block with a native transfer, a [transfer] call and a bare
    signature, processed twice. *)
Lemma block_pass_is_idempotent_sample :
  let transactions := [txA; txTransfer; txShort] in
  let once := run_block transactions (successReceipt [transferLog]) emptyState in
  txRep (run_block transactions (successReceipt [transferLog]) once) = txRep once
  /\ length (txRep once) = 3%nat.
Proof.
  split.
  - exact (block_pass_is_idempotent lib erc20Abi
             (node 100 [txA; txTransfer; txShort] (successReceipt [transferLog]))
             getAllByWalletAddresses
             (Some (block100 [txA; txTransfer; txShort])) emptyState).
  - vm_compute. reflexivity.
Defined.

(** In a block with [txE] and [txA] only the receipt of [txA] is
    requested; a block with [txE] alone leaves the state as it is. *)
Lemma receipts_are_requested_for_involved_transactions_sample :
  receiptRequests (run_block [txE; txA] noReceipt emptyState) = ["0xA"]
  /\ processTransactionsInBlock lib erc20Abi (node 100 [txE] (successReceipt []))
       getAllByWalletAddresses (Some (block100 [txE])) emptyState
     = (Ok tt, emptyState).
Proof.
  split; [vm_compute; reflexivity|].
  apply (receipts_are_requested_for_involved_transactions lib erc20Abi
           (node 100 [txE] (successReceipt [])) getAllByWalletAddresses
           (block100 [txE]) emptyState).
  intros ethTx Hin. simpl in Hin. apply list_elem_of_singleton in Hin. subst ethTx.
  vm_compute. intros [[x Hx] | [x Hx]]; discriminate.
Defined.

(** [txA] and the [transfer] call reconciled in the two possible
    orders. *)
Lemma completion_order_is_immaterial_sample :
  let a := extendTransaction lib erc20Abi txA in
  let t := extendTransaction lib erc20Abi txTransfer in
  let reconcile := fun items =>
    processAsyncItemsByChunks items CONCURRENT_TRANSACTIONS_PROCESS_COUNT
      (fun transaction =>
         processTransaction lib erc20Abi
           (node 100 [txA; txTransfer] (successReceipt [transferLog])) transaction
           (Some (block100 [txA; txTransfer])) ∅) in
  getByHash "0xB" (txRep (finalState (reconcile [a; t]) emptyState))
  = getByHash "0xB" (txRep (finalState (reconcile [t; a]) emptyState)).
Proof.
  apply (completion_order_is_immaterial lib erc20Abi
           (node 100 [txA; txTransfer] (successReceipt [transferLog]))
           (block100 [txA; txTransfer]) ∅
           [extendTransaction lib erc20Abi txA; extendTransaction lib erc20Abi txTransfer]
           [extendTransaction lib erc20Abi txTransfer; extendTransaction lib erc20Abi txA]
           CONCURRENT_TRANSACTIONS_PROCESS_COUNT CONCURRENT_TRANSACTIONS_PROCESS_COUNT
           emptyState "0xB").
  - simpl. apply NoDup_cons. split.
    + intros Hin. apply list_elem_of_singleton in Hin. discriminate Hin.
    + apply NoDup_singleton.
  - apply perm_swap.
Defined.

(** For [txA] and [txE] the repository is asked about [W1], [W2] and
    [W3], once each. *)
Lemma addresses_looked_up_sample :
  let transactions :=
    [extendTransaction lib erc20Abi txA; extendTransaction lib erc20Abi txE] in
  distinct (txMaps transactions) [] = [W1; W2; W3]
  /\ NoDup (distinct (txMaps transactions) []).
Proof.
  split; [vm_compute; reflexivity|].
  apply (addresses_looked_up
           [extendTransaction lib erc20Abi txA; extendTransaction lib erc20Abi txE]).
Defined.

(** The index built for them holds the wallet of [W2] and nothing under
    [W1]. *)
Lemma wallet_index_groups_by_address_sample :
  let transactions :=
    [extendTransaction lib erc20Abi txA; extendTransaction lib erc20Abi txE] in
  walletIds getAllByWalletAddresses transactions !! W2 = Some [mkWallet W2 "ETH"]
  /\ walletIds getAllByWalletAddresses transactions !! W1 = None.
Proof.
  split.
  - rewrite (wallet_index_groups_by_address getAllByWalletAddresses
               [extendTransaction lib erc20Abi txA; extendTransaction lib erc20Abi txE]
               W2).
    vm_compute. reflexivity.
  - rewrite (wallet_index_groups_by_address getAllByWalletAddresses
               [extendTransaction lib erc20Abi txA; extendTransaction lib erc20Abi txE]
               W1).
    vm_compute. reflexivity.
Defined.

(** A first sweep on an empty repository with start block 0 and head 100
    starts at block 96; a sweep with the cursor at 90 starts there. *)
Lemma sweep_start_block_sample :
  sweepStart 0 100 emptyState = 96
  /\ sweepStart 0 120 (mkState [] 90 []) = 90
  /\ (0 <= sweepStart 0 100 emptyState \/ sweepStart 0 100 emptyState = 100 - 4).
Proof.
  split; [reflexivity|]. split.
  - apply (sweep_start_block lib erc20Abi 0 getAllByWalletAddresses
             (node 120 [] noReceipt) (mkState [] 90 [])).
    discriminate.
  - apply (sweep_start_block lib erc20Abi 0 getAllByWalletAddresses
             (node 100 [] noReceipt) emptyState).
    reflexivity.
Defined.

(** ** The live path and the sweep *)

Section LivePath.

Context (lib : Web3Lib) (erc20Abi : Erc20Abi) (web3 : Web3Eth).
Context (getAllByWalletAddresses : list string -> list User).
Context (getBlockByHash : string -> option Block).

Lemma processTransactionsInBlock_resolves blockData s :
  outcome
    (processTransactionsInBlock lib erc20Abi web3 getAllByWalletAddresses blockData) s
  = Ok tt.
Proof.
  apply (processTransactionsInBlock_preserves lib erc20Abi web3
           getAllByWalletAddresses (fun _ => True) blockData); auto.
Qed.

Lemma processBlockNumber_run i s :
  processBlockNumber lib erc20Abi web3 getAllByWalletAddresses i s
  = processTransactionsInBlock lib erc20Abi web3 getAllByWalletAddresses
      (getBlock web3 i) s.
Proof.
  unfold processBlockNumber. destruct (getBlock web3 i) as [b|]; [|reflexivity].
  rewrite try_catch_run.
  pose proof (processTransactionsInBlock_resolves (Some b) s) as Hok.
  unfold outcome, finalState in *.
  destruct (processTransactionsInBlock _ _ _ _ _ s) as [r s']. simpl in *.
  rewrite Hok. reflexivity.
Qed.

(** A header without a number, or with number 0, is skipped. A header
    with another number has the block that the node returns for its hash
    processed; when that is the block the node returns for the number, the
    effect on the state is the one the sweep has for that block number,
    and the sweep coming after the header leaves the repository as the
    header left it. *)
Theorem live_path_and_sweep_agree (data : BlockHeader) s :
  (header_number data = None \/ header_number data = Some 0 ->
   processNewBlockHeaders lib erc20Abi web3 getAllByWalletAddresses getBlockByHash
     data s
   = (Ok tt, s))
  /\ (forall i,
        header_number data = Some i ->
        i <> 0 ->
        getBlockByHash (header_hash data) = getBlock web3 i ->
        let live :=
          processNewBlockHeaders lib erc20Abi web3 getAllByWalletAddresses
            getBlockByHash data in
        let swept := processBlockNumber lib erc20Abi web3 getAllByWalletAddresses i in
        live s = swept s
        /\ txRep (finalState swept (finalState live s)) = txRep (finalState live s)).
Proof.
  split.
  - intros [Hn | Hn]; unfold processNewBlockHeaders; rewrite Hn; reflexivity.
  - intros i Hn Hi Hsame live swept.
    assert (Hlive : forall s0,
              live s0
              = processTransactionsInBlock lib erc20Abi web3 getAllByWalletAddresses
                  (getBlock web3 i) s0).
    { intros s0. subst live. unfold processNewBlockHeaders. rewrite Hn.
      rewrite bool_decide_eq_false_2 by exact Hi. rewrite Hsame. reflexivity. }
    split.
    + subst swept. rewrite processBlockNumber_run. apply Hlive.
    + unfold finalState. subst swept. rewrite processBlockNumber_run, !Hlive.
      apply (processTransactionsInBlock_twice lib erc20Abi web3 getAllByWalletAddresses).
Qed.

End LivePath.

(** Block 100 announced by a header and then swept: [txA] is stored once;
    a header without number does nothing. *)
Lemma live_path_and_sweep_agree_sample :
  let web3 := node 100 [txA] (successReceipt []) in
  let byHash := fun _ : string => Some (block100 [txA]) in
  let live :=
    processNewBlockHeaders lib erc20Abi web3 getAllByWalletAddresses byHash
      (mkBlockHeader (Some 100) "0xb100") in
  let swept := processBlockNumber lib erc20Abi web3 getAllByWalletAddresses 100 in
  processNewBlockHeaders lib erc20Abi web3 getAllByWalletAddresses byHash
    (mkBlockHeader None "0xb100") emptyState
  = (Ok tt, emptyState)
  /\ txRep (finalState swept (finalState live emptyState))
     = txRep (finalState live emptyState)
  /\ length (txRep (finalState live emptyState)) = 1%nat.
Proof.
  split; [|split].
  - apply (live_path_and_sweep_agree lib erc20Abi (node 100 [txA] (successReceipt []))
             getAllByWalletAddresses (fun _ : string => Some (block100 [txA]))
             (mkBlockHeader None "0xb100") emptyState).
    left. reflexivity.
  - apply (live_path_and_sweep_agree lib erc20Abi (node 100 [txA] (successReceipt []))
             getAllByWalletAddresses (fun _ : string => Some (block100 [txA]))
             (mkBlockHeader (Some 100) "0xb100") emptyState); [reflexivity| |reflexivity].
    discriminate.
  - vm_compute. reflexivity.
Defined.

(** ** Receipts, statuses and later sweeps *)

Section Reexamination.

Context (lib : Web3Lib) (erc20Abi : Erc20Abi) (startBlock : Z) (web3 : Web3Eth).
Context (getAllByWalletAddresses : list string -> list User).








End Reexamination.





(** * Properties of the user applications *)

(** ** The authenticator switch *)

Section AuthenticatorSwitch.

Import UserAccount.

Context (initiate : Verifications -> string -> option string).
Context (verify : Verifications -> string -> bool -> bool).
Context (save : User -> bool).

Lemma verifyAndToggleGoogleAuth_cases scope verification a :
  let m := if bool_decide (scope = USER_DISABLE_GOOGLE_AUTH) then EMAIL
           else AUTHENTICATOR in
  let user' := mkUser (email (user a)) m in
  (verify scope verification (bool_decide (scope = USER_DISABLE_GOOGLE_AUTH)) = false
   /\ verifyAndToggleGoogleAuth verify save scope verification a
      = (Rejected ServiceError, a))
  \/ (verify scope verification (bool_decide (scope = USER_DISABLE_GOOGLE_AUTH)) = true
      /\ save user' = true
      /\ verifyAndToggleGoogleAuth verify save scope verification a
         = (Resolved (bool_decide (scope = USER_ENABLE_GOOGLE_AUTH)),
            mkAccount user' (saved a ++ [user'])))
  \/ (verify scope verification (bool_decide (scope = USER_DISABLE_GOOGLE_AUTH)) = true
      /\ save user' = false
      /\ verifyAndToggleGoogleAuth verify save scope verification a
         = (Rejected RepositoryError, mkAccount user' (saved a))).
Proof.
  intros m user'. subst m user'. unfold verifyAndToggleGoogleAuth.
  destruct (verify scope verification _) eqn:Hv; [|left; auto].
  right. destruct (save _) eqn:Hs; [left | right]; auto.
Qed.

(** An initiation leaves the account (the user object and the
    repository) as it was, whatever its outcome. A verification that
    rejects at the guard of the class or in the verification service
    leaves it as it was too. One that resolves has assigned the method,
    AUTHENTICATOR when enabling and EMAIL when disabling, to the user and
    saved that user, so that the user object and the repository agree.
    One that rejects in the repository has assigned the method to the
    user object and saved nothing: the method is not the one the user
    had, so the user object and the repository, if they agreed, no longer
    do. The repository changes only when the verification resolves. *)
Theorem authenticator_switch_effects verification a :
  let enable := verifyEnableGoogleAuth verify save verification a in
  let disable := verifyDisableGoogleAuth verify save verification a in
  snd (initiateEnableGoogleAuth initiate a) = a
  /\ snd (initiateDisableGoogleAuth initiate a) = a
  /\ switches AUTHENTICATOR a enable
  /\ switches EMAIL a disable
  /\ (forall r,
        r = enable \/ r = disable ->
        ((exists x, fst r = Resolved x) -> inSync (snd r))
        /\ (fst r = Rejected RepositoryError -> inSync a -> ~ inSync (snd r))
        /\ (saved (snd r) <> saved a -> exists x, fst r = Resolved x)).
Proof.
  intros enable disable.
  assert (Hie : snd (initiateEnableGoogleAuth initiate a) = a).
  { unfold initiateEnableGoogleAuth, initiateGoogleAuthVerification.
    repeat case_match; reflexivity. }
  assert (Hid : snd (initiateDisableGoogleAuth initiate a) = a).
  { unfold initiateDisableGoogleAuth, initiateGoogleAuthVerification.
    repeat case_match; reflexivity. }
  assert (Hen : switches AUTHENTICATOR a enable).
  { subst enable. unfold verifyEnableGoogleAuth, switches.
    case_bool_decide as Hm; simpl; [reflexivity|].
    destruct (verifyAndToggleGoogleAuth_cases USER_ENABLE_GOOGLE_AUTH verification a)
      as [[_ ->] | [(_ & _ & ->) | (_ & _ & ->)]]; simpl; auto. }
  assert (Hdis : switches EMAIL a disable).
  { subst disable. unfold verifyDisableGoogleAuth, switches.
    case_bool_decide as Hm; simpl; [reflexivity|].
    destruct (verifyAndToggleGoogleAuth_cases USER_DISABLE_GOOGLE_AUTH verification a)
      as [[_ ->] | [(_ & _ & ->) | (_ & _ & ->)]]; simpl; auto.
    split; [reflexivity|]. intros He. rewrite Hm in He. discriminate. }
  split; [exact Hie|]. split; [exact Hid|]. split; [exact Hen|]. split; [exact Hdis|].
  assert (Hgen : forall m (r : settlement bool * Account),
            switches m a r ->
            ((exists x, fst r = Resolved x) -> inSync (snd r))
            /\ (fst r = Rejected RepositoryError -> inSync a -> ~ inSync (snd r))
            /\ (saved (snd r) <> saved a -> exists x, fst r = Resolved x)).
  { intros m [[x|e] a'] Hsw; unfold switches in Hsw; simpl in *.
    - subst a'. split; [|split].
      + intros _. unfold inSync. simpl. apply last_snoc.
      + discriminate.
      + intros _. eauto.
    - split; [intros [x Hx]; discriminate|]. destruct e; [subst a'.. | destruct Hsw as [-> Hm]].
      + split; [discriminate | intros Hs; contradiction].
      + split; [discriminate | intros Hs; contradiction].
      + split; [|intros Hs; contradiction].
        intros _ Hsync Hsync'. unfold inSync in *. simpl in *.
        rewrite Hsync in Hsync'. injection Hsync' as Hu.
        apply Hm. rewrite Hu. reflexivity. }
  intros r [-> | ->]; [exact (Hgen _ _ Hen) | exact (Hgen _ _ Hdis)].
Qed.

(** Once the authenticator has been switched on, switching it on again
    is refused, at initiation and at verification, whatever the
    verification service would answer; switching it off then resolves to
    [false], leaves EMAIL as the method, whatever the method was before
    the authenticator was switched on, and is in turn refused when
    repeated. *)
Theorem authenticator_switch_sequences verification a enabled a1 :
  verifyEnableGoogleAuth verify save verification a = (Resolved enabled, a1) ->
  enabled = true
  /\ defaultVerificationMethod (user a) <> AUTHENTICATOR
  /\ defaultVerificationMethod (user a1) = AUTHENTICATOR
  /\ (forall verification',
        verifyEnableGoogleAuth verify save verification' a1
        = (Rejected (AuthenticatorError "GoogleAuth is enabled already."), a1))
  /\ initiateEnableGoogleAuth initiate a1
     = (Rejected (AuthenticatorError "GoogleAuth is enabled already."), a1)
  /\ (forall verification' disabled a2,
        verifyDisableGoogleAuth verify save verification' a1 = (Resolved disabled, a2) ->
        disabled = false
        /\ defaultVerificationMethod (user a2) = EMAIL
        /\ saved a2 = (saved a ++ [user a1; user a2])%list
        /\ (forall verification'',
              verifyDisableGoogleAuth verify save verification'' a2
              = (Rejected (AuthenticatorError "GoogleAuth is disabled already."), a2))).
Proof.
  unfold verifyEnableGoogleAuth. case_bool_decide as Hm; [discriminate|].
  destruct (verifyAndToggleGoogleAuth_cases USER_ENABLE_GOOGLE_AUTH verification a)
    as [[_ ->] | [(_ & _ & ->) | (_ & _ & ->)]]; [discriminate | | discriminate].
  intros [= <- <-]. simpl.
  split; [reflexivity|]. split; [exact Hm|]. split; [reflexivity|]. split; [|split].
  - intros verification'. reflexivity.
  - unfold initiateEnableGoogleAuth. simpl. reflexivity.
  - intros verification' disabled a2. unfold verifyDisableGoogleAuth. simpl.
    match goal with
    | |- context [verifyAndToggleGoogleAuth _ _ _ _ ?acc] =>
        destruct (verifyAndToggleGoogleAuth_cases USER_DISABLE_GOOGLE_AUTH verification'
                    acc)
          as [[_ ->] | [(_ & _ & ->) | (_ & _ & ->)]]; [discriminate | | discriminate]
    end.
    intros [= <- <-]. simpl.
    split; [reflexivity|]. split; [reflexivity|]. split.
    + rewrite <- app_assoc. reflexivity.
    + intros verification''. reflexivity.
Qed.

End AuthenticatorSwitch.

(** From a user whose method is INLINE: the authenticator is switched on
    with the right code, cannot be switched on again, and switching it
    off leaves EMAIL, with two users saved. *)
Lemma authenticator_switch_sequences_sample :
  exists a1 a2,
    UserAccount.verifyEnableGoogleAuth UserSample.verify UserSample.save "123456"
      UserSample.account
    = (UserAccount.Resolved true, a1)
    /\ UserAccount.verifyEnableGoogleAuth UserSample.verify UserSample.save "123456" a1
       = (UserAccount.Rejected
            (UserAccount.AuthenticatorError "GoogleAuth is enabled already."), a1)
    /\ UserAccount.verifyDisableGoogleAuth UserSample.verify UserSample.save "123456" a1
       = (UserAccount.Resolved false, a2)
    /\ UserAccount.defaultVerificationMethod (UserAccount.user a2) = UserAccount.EMAIL
    /\ length (UserAccount.saved a2) = 2%nat.
Proof.
  eexists _, _. split; [reflexivity|].
  edestruct (authenticator_switch_sequences UserSample.initiate UserSample.verify
               UserSample.save "123456" UserSample.account)
    as (_ & _ & _ & Hagain & _ & Hoff).
  { reflexivity. }
  split; [apply Hagain|]. split; [reflexivity|].
  edestruct (Hoff "123456") as (_ & Hm & Hs & _); [reflexivity|].
  split; [exact Hm|]. rewrite Hs. reflexivity.
Defined.

(** A wrong code changes nothing. The right code with the repository
    down leaves the user object with the method AUTHENTICATOR while the
    repository still holds the user with the method INLINE. *)
Lemma authenticator_switch_effects_sample :
  snd (UserAccount.verifyEnableGoogleAuth UserSample.verify UserSample.save "000000"
         UserSample.storedAccount)
  = UserSample.storedAccount
  /\ (let r :=
        UserAccount.verifyEnableGoogleAuth UserSample.verify UserSample.saveFails
          "123456" UserSample.storedAccount in
      fst r = UserAccount.Rejected UserAccount.RepositoryError
      /\ UserAccount.defaultVerificationMethod (UserAccount.user (snd r))
         = UserAccount.AUTHENTICATOR
      /\ UserAccount.saved (snd r) = UserAccount.saved UserSample.storedAccount
      /\ ~ UserAccount.inSync (snd r)).
Proof.
  split.
  - destruct (authenticator_switch_effects UserSample.initiate UserSample.verify
                UserSample.save "000000" UserSample.storedAccount)
      as (_ & _ & Hen & _).
    exact Hen.
  - destruct (authenticator_switch_effects UserSample.initiate UserSample.verify
                UserSample.saveFails "123456" UserSample.storedAccount)
      as (_ & _ & Hen & _ & Hsync).
    destruct Hen as [Hacc _].
    destruct (Hsync _ (or_introl eq_refl)) as (_ & Hbroken & _).
    split; [reflexivity|]. split; [rewrite Hacc; reflexivity|].
    split; [rewrite Hacc; reflexivity|].
    apply Hbroken; reflexivity.
Defined.

(** ** getUserInfo *)

Section GetUserInfo.

Import UserCommon.

Context {Num : Type} (Number : option string -> Num) (positive : Num -> bool).
Context (getAllNotifications getAllAllowedVerifications : list string).

Lemma filter_from_below {A : Type} (n k : nat) (l : list A) :
  filter_from (fun _ i => (i <? n)%nat) k l = take (n - k) l.
Proof.
  revert k. induction l as [|x l IH]; intros k; simpl.
  - destruct (n - k)%nat; reflexivity.
  - rewrite IH. destruct (k <? n)%nat eqn:Hk.
    + apply Nat.ltb_lt in Hk. replace (n - k)%nat with (S (n - S k)) by lia.
      reflexivity.
    + apply Nat.ltb_ge in Hk. replace (n - S k)%nat with 0%nat by lia.
      replace (n - k)%nat with 0%nat by lia. reflexivity.
Qed.

Lemma allTrue_lookup (l : list string) c :
  allTrue l !! c = if bool_decide (c ∈ l) then Some true else None.
Proof.
  unfold allTrue.
  assert (Hgen : forall m : gmap string bool,
            foldl (fun p c0 => <[c0 := true]> p) m l !! c
            = if bool_decide (c ∈ l) then Some true else m !! c).
  { induction l as [|a l IH]; intros m; cbn [foldl].
    - rewrite bool_decide_eq_false_2; [reflexivity | apply not_elem_of_nil].
    - rewrite IH. destruct (decide (c ∈ l)) as [Hin|Hnin].
      + rewrite !bool_decide_eq_true_2; [reflexivity | | exact Hin].
        apply elem_of_cons. right. exact Hin.
      + rewrite (bool_decide_eq_false_2 (c ∈ l)) by exact Hnin.
        destruct (decide (a = c)) as [->|Hne].
        * rewrite lookup_insert_eq, bool_decide_eq_true_2; [reflexivity|].
          apply elem_of_cons. left. reflexivity.
        * rewrite lookup_insert_ne by exact Hne.
          rewrite bool_decide_eq_false_2; [reflexivity|].
          intros Hc. apply elem_of_cons in Hc as [Hc|Hc]; [congruence | contradiction]. }
  rewrite Hgen, lookup_empty. case_bool_decide; reflexivity.
Qed.

(** What [getUserInfo] reports for each wallet of the user, at the same
    position: the ticker and the address of the wallet; [tokens], the
    tokens of the wallet in their order, each with its contract address,
    symbol, name and decimals and with the balance taken out;
    [assetsCount], the number of tokens whose balance is positive; and
    [balances], the first five of those, in the order of the wallet, with
    symbol and balance, so that it has five entries or as many as
    [assetsCount] when that is fewer. *)
Theorem wallet_summary (user : User) (k : nat) (w : Wallet) :
  wallets user !! k = Some w ->
  exists info,
    info_wallets
      (fst (getUserInfo Number positive getAllNotifications
              getAllAllowedVerifications user)) !! k
    = Some info
    /\ info_ticker info = ticker w
    /\ info_address info = address w
    /\ info_tokens info
       = map (fun t => mkToken (contractAddress t) (symbol t) (name t) (decimals t) None)
           (tokens w)
    /\ assetsCount info = length (List.filter (hasBalance Number positive) (tokens w))
    /\ balances info
       = map (fun t => mkBalance (symbol t) (Number (balance t)))
           (take 5 (List.filter (hasBalance Number positive) (tokens w)))
    /\ length (balances info) = Nat.min 5 (assetsCount info)
    /\ length (info_tokens info) = length (tokens w)
    /\ Forall (fun t => balance t = None) (info_tokens info).
Proof.
  intros Hk. exists (walletInfo Number positive w). split.
  - simpl. change (map (walletInfo Number positive) (wallets user))
      with (walletInfo Number positive <$> wallets user).
    rewrite list_lookup_fmap, Hk. reflexivity.
  - unfold walletInfo. simpl. rewrite filter_from_below. simpl.
    repeat split.
    + rewrite length_map, length_take. reflexivity.
    + apply length_map.
    + apply Forall_forall. intros t Ht.
      change (t ∈ (fun t0 => mkToken (contractAddress t0) (symbol t0) (name t0)
                               (decimals t0) None) <$> tokens w) in Ht.
      apply list_elem_of_fmap in Ht as (t0 & -> & _). reflexivity.
Qed.

(** The preferences [getUserInfo] reports: a map of notifications that
    is absent or empty is replaced by the map that switches on every
    notification of [getAllNotifications] and holds nothing else, and a
    map with at least one entry is reported as it is; the same for the
    verifications. The email, the name and the default verification
    method are reported as the user has them. When the user has a
    preferences object the reported preferences are also left in it; the
    email, the name, the wallets and the default verification method of
    the user are as they were. *)
Theorem preferences_defaults (user : User) :
  let result :=
    getUserInfo Number positive getAllNotifications getAllAllowedVerifications user in
  let reported := info_preferences (fst result) in
  let storedNotifications := default ∅ (preferences user ≫= notifications) in
  let storedVerifications := default ∅ (preferences user ≫= verifications) in
  notifications reported
  = Some (if bool_decide (size storedNotifications = 0%nat)
          then allTrue getAllNotifications else storedNotifications)
  /\ verifications reported
     = Some (if bool_decide (size storedVerifications = 0%nat)
             then allTrue getAllAllowedVerifications else storedVerifications)
  /\ (forall c,
        allTrue getAllNotifications !! c
        = if bool_decide (c ∈ getAllNotifications) then Some true else None)
  /\ (forall c,
        allTrue getAllAllowedVerifications !! c
        = if bool_decide (c ∈ getAllAllowedVerifications) then Some true else None)
  /\ info_email (fst result) = email user
  /\ info_name (fst result) = user_name user
  /\ info_defaultVerificationMethod (fst result) = defaultVerificationMethod user
  /\ snd result
     = mkUser (email user) (user_name user) (wallets user)
         (preferences user ≫= fun _ => Some reported)
         (defaultVerificationMethod user).
Proof.
  intros result reported storedNotifications storedVerifications.
  subst result reported storedNotifications storedVerifications.
  unfold getUserInfo, fillDefaults.
  destruct user as [e nm ws [[[n|] [v|]]|] m]; simpl;
    repeat case_bool_decide; simpl in *;
    repeat split; try reflexivity; try apply allTrue_lookup;
    try (exfalso; auto; fail); try congruence.
Qed.

End GetUserInfo.

(** The wallet with six funded tokens out of seven: six assets counted,
    five balances listed, seven tokens shown. *)
Lemma wallet_summary_sample :
  exists info,
    UserCommon.info_wallets
      (fst (UserCommon.getUserInfo UserSample.Number UserSample.positive
              ["sign_in"; "transfer"] ["sign_in"] UserSample.user)) !! 0%nat
    = Some info
    /\ UserCommon.assetsCount info = 6%nat
    /\ length (UserCommon.balances info) = 5%nat
    /\ length (UserCommon.info_tokens info) = 7%nat.
Proof.
  destruct (wallet_summary UserSample.Number UserSample.positive
              ["sign_in"; "transfer"] ["sign_in"] UserSample.user 0 UserSample.wallet)
    as (info & Hinfo & _ & _ & _ & Hcount & _ & Hlen & Htokens & _).
  - reflexivity.
  - exists info. split; [exact Hinfo|].
    assert (H6 : UserCommon.assetsCount info = 6%nat) by (rewrite Hcount; reflexivity).
    split; [exact H6|]. split.
    + rewrite Hlen, H6. reflexivity.
    + rewrite Htokens. reflexivity.
Defined.

(** The user of the sample has no notifications and one verification
    switched off: both notifications are reported switched on, the
    verification is reported as stored, and the defaults are left in the
    preferences of the user. *)
Lemma preferences_defaults_sample :
  let result :=
    UserCommon.getUserInfo UserSample.Number UserSample.positive
      ["sign_in"; "transfer"] ["sign_in"] UserSample.user in
  UserCommon.notifications (UserCommon.info_preferences (fst result))
  = Some (UserCommon.allTrue ["sign_in"; "transfer"])
  /\ UserCommon.verifications (UserCommon.info_preferences (fst result))
     = Some {[ "sign_in" := false ]}
  /\ snd result
     = UserCommon.mkUser "owner@example.com" "Owner" [UserSample.wallet]
         (Some (UserCommon.info_preferences (fst result))) None.
Proof.
  destruct (preferences_defaults UserSample.Number UserSample.positive
              ["sign_in"; "transfer"] ["sign_in"] UserSample.user)
    as (Hn & Hv & _ & _ & _ & _ & _ & Hp).
  split; [exact Hn|]. split; [|exact Hp].
  rewrite Hv. reflexivity.
Defined.
